(** * domainlooker: orchestration, pricing analysis, threat rules and CSV export

    A shallow embedding of the TypeScript sources

      - [src/types/index.ts]: the report data model;
      - [CSVExportService], imported as [services/csv-export.js]
        (first class of [src/unnamed/part_000]);
      - [PricingExportService], imported as [services/pricing-export.js]
        (second class of [src/services/domain-pricing.ts]);
      - [DomainPricingService] in two revisions: the one with estimated
        prices (first class of [src/services/domain-pricing.ts]) and the one
        with live prices (second class of [src/unnamed/part_000]);
      - [DomainInspector] ([src/domain-inspector.ts]);

    followed by the properties of the specification that are checked
    against them.

    Conventions.  A JavaScript [number] is an IEEE 754 binary64 value and is
    modelled by Rocq's primitive [float], so [<], [||] and truthiness are the
    ones the program runs.  A JavaScript string is modelled by [string]; the
    code only inspects ASCII characters of it.  An optional property
    ([x?: T]) is an [option T]; [null] and [undefined] are only told apart
    where the source does.  Code that may throw returns a [Completion]. *)

From Stdlib Require Import Floats ZArith List String Ascii Bool Arith Lia.
Import ListNotations.
Open Scope string_scope.

Set Implicit Arguments.

(** A decimal literal denotes the nearest binary64 value, as in JavaScript. *)
Set Warnings "-inexact-float".

(* ================================================================== *)
(** * JavaScript built-ins used by the sources *)
(* ================================================================== *)

Module Js.

(** ** Numbers *)

Definition number := float.

(** [!!x] for a number: [0], [-0] and [NaN] are falsy. *)
Definition truthy (x : number) : bool := negb (is_zero x || is_nan x).

(** [x || d] where [x] is an optional number property. *)
Definition num_or (x : option number) (d : number) : number :=
  match x with
  | Some v => if truthy v then v else d
  | None => d
  end.

(** [x ? a : b] / [if (x)] where [x] is an optional number property. *)
Definition truthy_opt (x : option number) : bool :=
  match x with
  | Some v => truthy v
  | None => false
  end.

Definition Infinity : number := infinity.

(** [a < b] on numbers. *)
Definition num_lt (a b : number) : bool := (a <? b)%float.

(** [Math.min(...xs)] and [Math.max(...xs)]: the identity on no argument,
    [NaN] as soon as an argument is [NaN]. *)
Definition min2 (a b : number) : number :=
  if is_nan a || is_nan b then nan
  else if (b <? a)%float then b
  else if (a <? b)%float then a
  else if get_sign a then a else b.

Definition max2 (a b : number) : number :=
  if is_nan a || is_nan b then nan
  else if (a <? b)%float then b
  else if (b <? a)%float then a
  else if get_sign a then b else a.

Definition Math_min (xs : list number) : number := fold_left min2 xs infinity.
Definition Math_max (xs : list number) : number := fold_left max2 xs neg_infinity.

(** [xs.reduce((a, b) => a + b, 0)] *)
Definition sum (xs : list number) : number :=
  fold_left (fun a b => (a + b)%float) xs 0%float.

(** [Math.ceil(n / k)] and [Math.floor(n / k)] on non-negative integers,
    [k] positive. *)
Definition ceil_div (n k : nat) : nat := (n + k - 1) / k.
Definition floor_div (n k : nat) : nat := n / k.

(** [xs.length] as a number. *)
Definition length_num (A : Type) (xs : list A) : number :=
  of_uint63 (Uint63.of_Z (Z.of_nat (List.length xs))).

(** ** Strings *)

Definition comma : ascii := ","%char.
Definition dquote : ascii := "034"%char.
Definition newline : ascii := "010"%char.

(** [s.includes(needle)] *)
Fixpoint includes (s needle : string) : bool :=
  String.prefix needle s ||
  match s with
  | EmptyString => false
  | String _ s' => includes s' needle
  end.

(** [s.includes(c)] for a one-character needle. *)
Definition includes_char (s : string) (c : ascii) : bool :=
  includes s (String c EmptyString).

(** [s.replace(/c/g, by)] for a one-character pattern. *)
Fixpoint replace_all (c : ascii) (by_ : string) (s : string) : string :=
  match s with
  | EmptyString => EmptyString
  | String a s' =>
      if Ascii.eqb a c then by_ ++ replace_all c by_ s'
      else String a (replace_all c by_ s')
  end.

(** [!!s] for a string. *)
Definition nonempty (s : string) : bool :=
  match s with EmptyString => false | _ => true end.

(** [s || d] where [s] is an optional string property. *)
Definition str_or (s : option string) (d : string) : string :=
  match s with
  | Some v => if nonempty v then v else d
  | None => d
  end.

(** [xs.push(x)] *)
Definition push (A : Type) (xs : list A) (x : A) : list A :=
  (xs ++ [x])%list.

(** [xs.join(sep)] *)
Definition join (sep : string) (xs : list string) : string :=
  String.concat sep xs.

(** [b.toString()] *)
Definition bool_toString (b : bool) : string :=
  if b then "true" else "false".

(** [xs.slice(i, j)] for in-range, non-negative integer bounds. *)
Definition slice (A : Type) (xs : list A) (i j : nat) : list A :=
  firstn (j - i) (skipn i xs).

(** [xs.reduce(f)] without an initial value: a [TypeError] ([None]) on the
    empty array, otherwise a left fold seeded with the first element. *)
Definition reduce (A : Type) (f : A -> A -> A) (xs : list A) : option A :=
  match xs with
  | [] => None
  | x :: rest => Some (fold_left f rest x)
  end.

(** [s.split(c)] for a one-character separator: never the empty array. *)
Fixpoint split (c : ascii) (s : string) : list string :=
  match s with
  | EmptyString => [EmptyString]
  | String x s' =>
      if Ascii.eqb x c then EmptyString :: split c s'
      else match split c s' with
           | seg :: rest => String x seg :: rest
           | [] => [String x EmptyString]
           end
  end.

(** [xs.pop()]: the last element, [undefined] on the empty array. *)
Fixpoint pop (A : Type) (xs : list A) : option A :=
  match xs with
  | [] => None
  | [x] => Some x
  | _ :: rest => pop rest
  end.

(** The lower-case form of an ASCII character: [A] to [Z] become [a] to
    [z], every other character is kept. *)
Definition lower (c : ascii) : ascii :=
  let n := nat_of_ascii c in
  if (65 <=? n)%nat && (n <=? 90)%nat then ascii_of_nat (n + 32) else c.

(** [s.toLowerCase()] on ASCII text: on a string whose characters are all
    below 128 ([ascii_only]) the method changes the letters [A] to [Z] and
    nothing else.  Beyond ASCII the method also lowers other letters, which
    this function leaves as they are; what is proved of the lowering itself
    is stated for ASCII text. *)
Fixpoint toLowerCase (s : string) : string :=
  match s with
  | EmptyString => EmptyString
  | String c s' => String (lower c) (toLowerCase s')
  end.

(** Every character of [s] is an ASCII character. *)
Fixpoint ascii_only (s : string) : bool :=
  match s with
  | EmptyString => true
  | String c s' => (nat_of_ascii c <? 128)%nat && ascii_only s'
  end.

(** [o?.f] : optional chaining. *)
Definition chain (A B : Type) (o : option A) (f : A -> option B) : option B :=
  match o with
  | Some v => f v
  | None => None
  end.

(** ** Settled promises

    [Promise.allSettled] yields, for each promise, either its value or the
    reason of its rejection ([reason] stands for [reason?.message]). *)
Inductive PromiseSettledResult (A : Type) : Type :=
| fulfilled (value : A)
| rejected (reason : string).
Arguments rejected {A} reason.

(** A computation that either returns or throws; a thrown value is an
    [Error], represented by its [message]. *)
Inductive Completion (A : Type) : Type :=
| Return (value : A)
| Throw (error : string).
Arguments Throw {A} error.

(** [`${error}`] for a thrown [Error]. *)
Definition error_toString (error : string) : string := "Error: " ++ error.

(** [xs.map((x, index) => f(x, index))] *)
Fixpoint mapi_from (A B : Type) (f : A -> nat -> B) (index : nat) (xs : list A)
  : list B :=
  match xs with
  | [] => []
  | x :: rest => f x index :: mapi_from f (S index) rest
  end.

Definition mapi (A B : Type) (f : A -> nat -> B) (xs : list A) : list B :=
  mapi_from f 0 xs.

(** A value that may be [null] or [undefined], where the source tells the
    two apart. *)
Inductive Nullable (A : Type) : Type :=
| Null
| Undefined
| Val (value : A).
Arguments Null {A}.
Arguments Undefined {A}.

(** [x ?? undefined] *)
Definition nullish_undefined (A : Type) (x : Nullable A) : option A :=
  match x with
  | Val v => Some v
  | _ => None
  end.

(** [try { body } catch (error) { handler(error) }] *)
Definition try_catch (A : Type) (body : Completion A)
    (handler : string -> Completion A) : Completion A :=
  match body with
  | Return v => Return v
  | Throw e => handler e
  end.

Definition bind (A B : Type) (m : Completion A) (k : A -> Completion B)
  : Completion B :=
  match m with
  | Return v => k v
  | Throw e => Throw e
  end.

(** An awaited promise settles to the completion of the call. *)
Definition settle (A : Type) (c : Completion A) : PromiseSettledResult A :=
  match c with
  | Return v => fulfilled v
  | Throw e => rejected e
  end.

End Js.

Notation "x <- m ;; k" := (Js.bind m (fun x => k))
  (at level 61, m at next level, right associativity).

(* ================================================================== *)
(** * The data model ([src/types/index.ts]) *)
(* ================================================================== *)

Import Js.

Module Types.

Record WhoisData : Type := {
  registrar : option string;
  registrationDate : option string;
  expirationDate : option string;
  nameServers : option (list string);
  registrantCountry : option string;
  status : option (list string)
}.

Record MxRecord : Type := {
  priority : number;
  exchange : string
}.

Record DNSData : Type := {
  a : option (list string);
  aaaa : option (list string);
  mx : option (list MxRecord);
  ns : option (list string);
  txt : option (list string);
  cname : option (list string)
}.

Record SSLData : Type := {
  issuer : option string;
  subject : option string;
  validFrom : option string;
  validTo : option string;
  fingerprint : option string;
  serialNumber : option string;
  signatureAlgorithm : option string;
  keySize : option number;
  isValid : option bool;
  daysUntilExpiry : option number
}.

Record ServiceEntry : Type := {
  port : number;
  protocol : string;
  service : string;
  version : option string
}.

Record NetworkData : Type := {
  openPorts : option (list number);
  services : option (list ServiceEntry)
}.

Record SubdomainSources : Type := {
  dnsEnumeration : list string;
  certificateTransparency : list string;
  commonNames : list string
}.

Record SubdomainData : Type := {
  subdomains : list string;
  sources : SubdomainSources;
  totalFound : number
}.

Record DomainPricing : Type := {
  provider : string;
  available : bool;
  registrationPrice : option number;
  renewalPrice : option number;
  currency : string;
  url : string;
  error : option string
}.

Record DomainAvailabilityResult : Type := {
  result_domain : string;
  isAvailable : bool;
  pricing : list DomainPricing;
  checkedAt : string
}.

(** [InspectionOptions]; an unset boolean flag is falsy.  Record members
    that share a name in the source ([subdomains], [pricing], [domain]) carry
    a prefix here. *)
Record InspectionOptions : Type := {
  verbose : bool;
  quick : bool;
  banner : bool;
  exportCsv : option string;
  exportJson : option string;
  opt_subdomains : bool;
  checkPricing : bool
}.

(** A finished [DomainInfo] as the exporters read it.  Every access to an
    optional member goes through [?.] or a truthiness test, which treat
    [null] and [undefined] alike, so both are [None] here.  ([security] and
    [dns.soa] are never written or read by the sources and are left out.) *)
Record DomainInfo : Type := {
  domain : string;
  whois : option WhoisData;
  dns : option DNSData;
  ssl : option SSLData;
  network : option NetworkData;
  info_subdomains : option SubdomainData;
  info_pricing : option DomainAvailabilityResult
}.

End Types.
Import Types.

(* ================================================================== *)
(** * [CSVExportService] ([services/csv-export], in [src/unnamed/part_000]) *)
(* ================================================================== *)

Module CSVExportService.

Section Service.

(** Host functions: [n.toString()], [n.toFixed(2)], [new Date(s).getTime()]
    and the reading of [Date.now()] during the call. *)
Variable numberToString : number -> string.
Variable toFixed2 : number -> string.
Variable Date_getTime : string -> number.
Variable Date_now : number.

Definition header : string :=
  join ","
    [ "Domain"; "Registrar"; "Registration Date"; "Expiration Date";
      "Registrant Country"; "Status"; "Name Servers"; "IPv4 Addresses";
      "IPv6 Addresses"; "MX Records"; "TXT Records"; "SSL Issuer";
      "SSL Subject"; "SSL Valid From"; "SSL Valid To";
      "SSL Days Until Expiry"; "SSL Valid"; "Open Ports"; "Services";
      "Subdomains Found"; "Sample Subdomains"; "Available for Registration";
      "Cheapest Registration Price"; "Cheapest Renewal Price";
      "Best Registration Provider"; "Best Renewal Provider";
      "All Pricing Data"; "Threat Level"; "Threats" ].

(** The service's state is its [csvData] array; the constructor pushes the
    header. *)
Definition constructor : list string := push [] header.

Definition escapeCSV (value : string) : string :=
  if negb (nonempty value) then ""
  else if includes_char value comma
          || includes_char value dquote
          || includes_char value newline
  then String dquote
         (replace_all dquote (String dquote (String dquote "")) value
          ++ String dquote "")
  else value.

Definition assessThreats (info : DomainInfo) : list string :=
  let threats : list string := [] in
  (* SSL certificate expiry *)
  let threats :=
    match chain (ssl info) daysUntilExpiry with
    | Some d =>
        if num_lt d 30%float
        then push threats ("SSL expires in " ++ numberToString d ++ " days")
        else threats
    | None => threats
    end in
  (* Missing SSL *)
  let threats :=
    match ssl info with
    | None => push threats "No SSL certificate detected"
    | Some _ => threats
    end in
  (* Recently registered domains *)
  let threats :=
    match chain (whois info) registrationDate with
    | Some date =>
        if nonempty date then
          let regDate := Date_getTime date in
          let daysSinceReg :=
            ((Date_now - regDate) / (1000 * 60 * 60 * 24))%float in
          if num_lt daysSinceReg 30%float
          then push threats "Domain registered recently"
          else threats
        else threats
    | None => threats
    end in
  (* Invalid SSL *)
  let threats :=
    match ssl info with
    | Some s =>
        match isValid s with
        | Some false => push threats "Invalid SSL certificate"
        | _ => threats
        end
    | None => threats
    end in
  threats.

Definition getThreatLevel (threats : list string) : string :=
  if Nat.eqb (List.length threats) 0 then "LOW"
  else if existsb (fun t => includes t "Invalid SSL" || includes t "No SSL")
            threats then "HIGH"
  else if existsb (fun t => includes t "expires") threats then "MEDIUM"
  else "LOW".

Record PricingColumns : Type := {
  isAvailable : string;
  cheapestRegistration : string;
  cheapestRenewal : string;
  bestRegProvider : string;
  bestRenewalProvider : string;
  allPricing : string
}.

(** [pricing.pricing?.filter((p) => p.available && p.registrationPrice)] *)
Definition validPricing (quotes : list DomainPricing) : list DomainPricing :=
  filter (fun p => available p && truthy_opt (registrationPrice p)) quotes.

(** The callbacks of the two [reduce] calls. *)
Definition cheaperReg (prev curr : DomainPricing) : DomainPricing :=
  if num_lt (num_or (registrationPrice curr) Infinity)
        (num_or (registrationPrice prev) Infinity)
  then curr else prev.

Definition cheaperRen (prev curr : DomainPricing) : DomainPricing :=
  if num_lt (num_or (renewalPrice curr) Infinity)
        (num_or (renewalPrice prev) Infinity)
  then curr else prev.

Definition cheapestReg (valid : list DomainPricing) : option DomainPricing :=
  reduce cheaperReg valid.

Definition cheapestRen (valid : list DomainPricing) : option DomainPricing :=
  reduce cheaperRen valid.

(** [`$${p?.toFixed(2) || 'N/A'}`] *)
Definition dollars (p : option number) : string :=
  "$" ++ str_or (option_map toFixed2 p) "N/A".

Definition yesNo (b : bool) : string := if b then "Yes" else "No".

(** [reduce] throws only on the empty array, which the length test has
    returned on before; the two cases are merged in the [match]. *)
Definition processPricingData (pricing : option DomainAvailabilityResult)
  : PricingColumns :=
  match pricing with
  | None =>
      {| isAvailable := "Unknown"; cheapestRegistration := "";
         cheapestRenewal := ""; bestRegProvider := "";
         bestRenewalProvider := ""; allPricing := "" |}
  | Some pricing =>
      let valid := validPricing (Types.pricing pricing) in
      match cheapestReg valid, cheapestRen valid with
      | Some cheapestReg, Some cheapestRen =>
          let allPricingText :=
            join " | "
              (map (fun p =>
                      provider p ++ ": Reg " ++ dollars (registrationPrice p)
                      ++ " / Ren " ++ dollars (renewalPrice p)) valid) in
          {| isAvailable := yesNo (Types.isAvailable pricing);
             cheapestRegistration := dollars (registrationPrice cheapestReg);
             cheapestRenewal := dollars (renewalPrice cheapestRen);
             bestRegProvider := provider cheapestReg;
             bestRenewalProvider := provider cheapestRen;
             allPricing := allPricingText |}
      | _, _ =>
          {| isAvailable := yesNo (Types.isAvailable pricing);
             cheapestRegistration := ""; cheapestRenewal := "";
             bestRegProvider := ""; bestRenewalProvider := "";
             allPricing := "" |}
      end
  end.

(** [o?.join('; ') || ''] *)
Definition joined (o : option (list string)) : string :=
  str_or (option_map (join "; ") o) "".

Definition csvRow (domainInfo : DomainInfo) : string :=
  let whois := whois domainInfo in
  let dns := dns domainInfo in
  let ssl := ssl domainInfo in
  let network := network domainInfo in
  let subdomains := info_subdomains domainInfo in
  let nameServers := joined (chain whois nameServers) in
  let ipv4Addresses := joined (chain dns a) in
  let ipv6Addresses := joined (chain dns aaaa) in
  let mxRecords :=
    joined (option_map
              (map (fun mx => numberToString (priority mx) ++ " " ++ exchange mx))
              (chain dns mx)) in
  let txtRecords := joined (option_map (firstn 3) (chain dns txt)) in
  let openPorts :=
    joined (option_map (map numberToString) (chain network openPorts)) in
  let services :=
    joined (option_map
              (map (fun s => numberToString (port s) ++ ":" ++ service s))
              (chain network services)) in
  let status := joined (chain whois status) in
  let subdomainCount :=
    str_or (option_map (fun s => numberToString (totalFound s)) subdomains) "0" in
  let sampleSubdomains :=
    joined (option_map (fun s => firstn 5 (Types.subdomains s)) subdomains) in
  let pricingData := processPricingData (info_pricing domainInfo) in
  let threats := assessThreats domainInfo in
  let threatLevel := getThreatLevel threats in
  join ","
    [ escapeCSV (domain domainInfo);
      escapeCSV (str_or (chain whois registrar) "");
      escapeCSV (str_or (chain whois registrationDate) "");
      escapeCSV (str_or (chain whois expirationDate) "");
      escapeCSV (str_or (chain whois registrantCountry) "");
      escapeCSV status;
      escapeCSV nameServers;
      escapeCSV ipv4Addresses;
      escapeCSV ipv6Addresses;
      escapeCSV mxRecords;
      escapeCSV txtRecords;
      escapeCSV (str_or (chain ssl issuer) "");
      escapeCSV (str_or (chain ssl subject) "");
      escapeCSV (str_or (chain ssl validFrom) "");
      escapeCSV (str_or (chain ssl validTo) "");
      escapeCSV (str_or (option_map numberToString (chain ssl daysUntilExpiry)) "");
      escapeCSV (str_or (option_map bool_toString (chain ssl isValid)) "");
      escapeCSV openPorts;
      escapeCSV services;
      escapeCSV subdomainCount;
      escapeCSV sampleSubdomains;
      escapeCSV (isAvailable pricingData);
      escapeCSV (cheapestRegistration pricingData);
      escapeCSV (cheapestRenewal pricingData);
      escapeCSV (bestRegProvider pricingData);
      escapeCSV (bestRenewalProvider pricingData);
      escapeCSV (allPricing pricingData);
      escapeCSV threatLevel;
      escapeCSV (join "; " threats) ].

(** [addDomain] pushes the domain's row on [csvData]. *)
Definition addDomain (csvData : list string) (domainInfo : DomainInfo)
  : list string :=
  push csvData (csvRow domainInfo).

Definition getRowCount (csvData : list string) : nat :=
  List.length csvData - 1.

(** [exportToFile] writes [csvData.join('\n')]. *)
Definition csvContent (csvData : list string) : string :=
  join (String newline "") csvData.

End Service.

End CSVExportService.

(* ================================================================== *)
(** * [PricingExportService] ([services/pricing-export], in [src/services/domain-pricing.ts]) *)
(* ================================================================== *)

Module PricingExportService.

(** The service's state is its [pricingData] array. *)
Definition constructor : list DomainAvailabilityResult := [].

Definition addDomain (pricingData : list DomainAvailabilityResult)
    (pricingResult : DomainAvailabilityResult)
  : list DomainAvailabilityResult :=
  push pricingData pricingResult.

Definition getDataCount (pricingData : list DomainAvailabilityResult) : nat :=
  List.length pricingData.

Record CheapestQuote : Type := {
  cheapest_provider : string;
  price : option number;
  cheapest_currency : string
}.

Record Range : Type := {
  min : number;
  max : number;
  spread : number
}.

Record PriceRange : Type := {
  registration : Range;
  renewal : option Range
}.

(** The object [analyzePricing] returns; [null] is [None]. *)
Record PricingAnalysis : Type := {
  cheapestRegistration : option CheapestQuote;
  cheapestRenewal : option CheapestQuote;
  priceRange : option PriceRange;
  avgRegistrationPrice : option number;
  avgRenewalPrice : option number;
  providerCount : nat
}.

(** [pricing.filter(p => p.available && p.registrationPrice)] *)
Definition validPricing (pricing : list DomainPricing) : list DomainPricing :=
  filter (fun p => available p && truthy_opt (registrationPrice p)) pricing.

(** [.filter(p => p > 0)] over prices that may be [undefined]. *)
Definition positivePrices (prices : list (option number)) : list number :=
  flat_map (fun p =>
              match p with
              | Some v => if num_lt 0%float v then [v] else []
              | None => []
              end) prices.

Definition cheaperReg (prev curr : DomainPricing) : DomainPricing :=
  if num_lt (num_or (registrationPrice curr) Infinity)
            (num_or (registrationPrice prev) Infinity)
  then curr else prev.

Definition cheaperRenewal (prev curr : DomainPricing) : DomainPricing :=
  if num_lt (num_or (renewalPrice curr) Infinity)
            (num_or (renewalPrice prev) Infinity)
  then curr else prev.

Definition cheapestReg (valid : list DomainPricing) : option DomainPricing :=
  reduce cheaperReg valid.

Definition cheapestRenewal_of (valid : list DomainPricing)
  : option DomainPricing :=
  reduce cheaperRenewal valid.

Definition range_of (prices : list number) : Range :=
  {| min := Math_min prices;
     max := Math_max prices;
     spread := (Math_max prices - Math_min prices)%float |}.

Definition average (prices : list number) : option number :=
  if (0 <? List.length prices)%nat
  then Some (Js.sum prices / length_num prices)%float
  else None.

(** The result on an empty set of valid quotes. *)
Definition unavailable : PricingAnalysis :=
  {| cheapestRegistration := None; cheapestRenewal := None;
     priceRange := None; avgRegistrationPrice := None;
     avgRenewalPrice := None; providerCount := 0 |}.

(** [reduce] throws only on the empty array, on which the length test has
    returned before; the two cases are merged in the [match]. *)
Definition analyzePricing (pricing : list DomainPricing) : PricingAnalysis :=
  let valid := validPricing pricing in
  match cheapestReg valid, cheapestRenewal_of valid with
  | Some cheapestReg, Some cheapestRenewal =>
      let regPrices := positivePrices (map registrationPrice valid) in
      let renewalPrices := positivePrices (map renewalPrice valid) in
      {| cheapestRegistration :=
           Some {| cheapest_provider := provider cheapestReg;
                   price := registrationPrice cheapestReg;
                   cheapest_currency := currency cheapestReg |};
         cheapestRenewal :=
           Some {| cheapest_provider := provider cheapestRenewal;
                   price := renewalPrice cheapestRenewal;
                   cheapest_currency := currency cheapestRenewal |};
         priceRange :=
           Some {| registration := range_of regPrices;
                   renewal :=
                     if (0 <? List.length renewalPrices)%nat
                     then Some (range_of renewalPrices) else None |};
         avgRegistrationPrice := average regPrices;
         avgRenewalPrice := average renewalPrices;
         providerCount := List.length valid |}
  | _, _ => unavailable
  end.

(** [pricing.error?.includes(word)] as a condition. *)
Definition error_includes (pricing : DomainPricing) (word : string) : bool :=
  match error pricing with
  | Some e => includes e word
  | None => false
  end.

(** [!pricing.error] *)
Definition no_error (pricing : DomainPricing) : bool :=
  match error pricing with
  | Some e => negb (nonempty e)
  | None => true
  end.

Definition getDataSource (pricing : DomainPricing) : string :=
  if error_includes pricing "fallback" then "Fallback Estimate"
  else if error_includes pricing "API" then "API Error"
  else if String.eqb (provider pricing) "Porkbun" && no_error pricing
  then "Live API"
  else if String.eqb (provider pricing) "Cloudflare" && no_error pricing
  then "Third-party API"
  else "Estimate".

Definition extractTLD (domain : string) : string :=
  str_or (option_map toLowerCase (pop (split "."%char domain))) "".

Definition escapeCSV (value : string) : string :=
  if negb (nonempty value) then ""
  else if includes_char value comma
          || includes_char value dquote
          || includes_char value newline
  then String dquote
         (replace_all dquote (String dquote (String dquote "")) value
          ++ String dquote "")
  else value.

(** ** [exportPricingCSV]: the lines of the pricing file *)
Section ExportPricingCSV.

(** Host function [n.toFixed(2)]. *)
Variable toFixed2 : number -> string.

Definition pricingHeader : string :=
  join ","
    [ "Domain"; "TLD"; "Available"; "Checked At"; "Provider";
      "Registration Price"; "Renewal Price"; "Currency"; "Registration URL";
      "Data Source"; "Error/Notes" ].

(** [price ? `$${price.toFixed(2)}` : 'N/A'] *)
Definition priceText (p : option number) : string :=
  match p with
  | Some v => if truthy v then "$" ++ toFixed2 v else "N/A"
  | None => "N/A"
  end.

Definition yesNo (b : bool) : string := if b then "Yes" else "No".

(** The row of one provider of a domain. *)
Definition providerRow (domainResult : DomainAvailabilityResult)
    (pricing : DomainPricing) : string :=
  join ","
    [ escapeCSV (result_domain domainResult);
      escapeCSV (extractTLD (result_domain domainResult));
      escapeCSV (yesNo (isAvailable domainResult));
      escapeCSV (checkedAt domainResult);
      escapeCSV (provider pricing);
      escapeCSV (priceText (registrationPrice pricing));
      escapeCSV (priceText (renewalPrice pricing));
      escapeCSV (currency pricing);
      escapeCSV (url pricing);
      escapeCSV (getDataSource pricing);
      escapeCSV (str_or (error pricing) "") ].

(** The row of a domain with no pricing data. *)
Definition placeholderRow (domainResult : DomainAvailabilityResult) : string :=
  join ","
    [ escapeCSV (result_domain domainResult);
      escapeCSV (extractTLD (result_domain domainResult));
      escapeCSV (yesNo (isAvailable domainResult));
      escapeCSV (checkedAt domainResult);
      "No Data"; "N/A"; "N/A"; "N/A"; "N/A"; "N/A";
      "No pricing providers available" ].

(** The two nested [for] loops, pushing on the local [csvData]. *)
Definition exportPricingCSV (pricingData : list DomainAvailabilityResult)
  : list string :=
  let csvData := push [] pricingHeader in
  fold_left
    (fun csvData domainResult =>
       if (0 <? List.length (pricing domainResult))%nat then
         fold_left
           (fun csvData pricing => push csvData (providerRow domainResult pricing))
           (pricing domainResult) csvData
       else push csvData (placeholderRow domainResult))
    pricingData csvData.

(** [csvData.join('\n')], the text written to the file. *)
Definition pricingCsvContent (pricingData : list DomainAvailabilityResult)
  : string :=
  join (String newline "") (exportPricingCSV pricingData).

End ExportPricingCSV.

(** ** [generateSummary] *)
Section GenerateSummary.

(** Host function [n.toFixed(1)]. *)
Variable toFixed1 : number -> string.

Record DataQuality : Type := {
  liveData : nat;
  fallbackData : nat;
  liveDataPercentage : string
}.

Record Summary : Type := {
  totalDomains : nat;
  totalProviders : nat;
  providers : list string;
  dataQuality : DataQuality;
  availableDomains : nat;
  registeredDomains : nat
}.

(** [[...new Set(names)]]: every name once, in the order of first
    appearance. *)
Definition unique (names : list string) : list string :=
  fold_left
    (fun seen name =>
       if existsb (String.eqb name) seen then seen else push seen name)
    names [].

Definition generateSummary (pricingData : list DomainAvailabilityResult)
  : Summary :=
  let allPricing := flat_map pricing pricingData in
  let providers := unique (map provider allPricing) in
  let liveDataCount :=
    List.length
      (filter (fun p => negb (error_includes p "fallback")) allPricing) in
  let fallbackCount :=
    List.length (filter (fun p => error_includes p "fallback") allPricing) in
  {| totalDomains := List.length pricingData;
     totalProviders := List.length providers;
     providers := providers;
     dataQuality :=
       {| liveData := liveDataCount;
          fallbackData := fallbackCount;
          liveDataPercentage :=
            if (0 <? List.length allPricing)%nat
            then toFixed1 (length_num (filter (fun p => negb (error_includes p "fallback")) allPricing)
                           / length_num allPricing * 100)%float
            else "0" |};
     availableDomains :=
       List.length (filter (fun d => isAvailable d) pricingData);
     registeredDomains :=
       List.length (filter (fun d => negb (isAvailable d)) pricingData) |}.

End GenerateSummary.

End PricingExportService.

(* ================================================================== *)
(** * [DomainPricingService] ([src/services/domain-pricing.ts] and [src/unnamed/part_000]) *)
(* ================================================================== *)

Module DomainPricingService.

(** The body of [response.data] of the [dns.google/resolve] lookup. *)
Record DnsAnswer : Type := {
  Status : option number;
  Answer : option (list string)
}.

(** [Status === 3 || !Answer || Answer.length === 0] on [response.data?.] *)
Definition looksUnregistered (data : option DnsAnswer) : bool :=
  match chain data Status with
  | Some s => (s =? 3)%float
  | None => false
  end
  || match chain data Answer with
     | Some answer => Nat.eqb (List.length answer) 0
     | None => true
     end.

Definition providers : list string :=
  ["Cloudflare"; "Namecheap"; "Porkbun"; "GoDaddy"; "Name.com"].

(** The callback that [checkAvailabilityAndPricing] maps over the settled
    provider calls.  [index] is below five there, so [providers[index]] is
    never [undefined]. *)
Definition settledPricing (result : PromiseSettledResult DomainPricing)
    (index : nat) : DomainPricing :=
  match result with
  | fulfilled value => value
  | rejected reason =>
      {| provider := nth index providers "";
         available := false;
         registrationPrice := None;
         renewalPrice := None;
         currency := "USD";
         url := "";
         error := Some (str_or (Some reason) "Failed to check pricing") |}
  end.

(** ** [checkAvailabilityAndPricing]

    The method has the same text in both revisions of the service; it is
    stated once over the private methods it calls. *)
Section CheckAvailabilityAndPricing.

Variable quickAvailabilityCheck : string -> Completion bool.
Variable checkCloudflare : string -> Completion DomainPricing.
Variable checkNamecheap : string -> Completion DomainPricing.
Variable checkPorkbun : string -> Completion DomainPricing.
Variable checkGoDaddy : string -> Completion DomainPricing.
Variable checkNamecom : string -> Completion DomainPricing.
(** [new Date()] at the time of the call. *)
Variable Date_new : string.

Definition pricingPromises (domain : string)
  : list (Completion DomainPricing) :=
  [ checkCloudflare domain;
    checkNamecheap domain;
    checkPorkbun domain;
    checkGoDaddy domain;
    checkNamecom domain ].

(** The trailing [.filter(pricing => pricing !== null)] keeps every element:
    the callback returns an object in both branches. *)
Definition checkAvailabilityAndPricing (domain : string)
  : Completion DomainAvailabilityResult :=
  isLikelyAvailable <- quickAvailabilityCheck domain ;;
  if isLikelyAvailable then
    let pricingResults := map (@settle _) (pricingPromises domain) in
    Return {| result_domain := domain;
              isAvailable := isLikelyAvailable;
              pricing := mapi settledPricing pricingResults;
              checkedAt := Date_new |}
  else
    Return {| result_domain := domain;
              isAvailable := isLikelyAvailable;
              pricing := [];
              checkedAt := Date_new |}.

End CheckAvailabilityAndPricing.

(** [domain.split('.').pop()?.toLowerCase()] *)
Definition tld_of (domain : string) : option string :=
  option_map toLowerCase (pop (split "."%char domain)).

(** ** The revision with estimated prices
    ([src/services/domain-pricing.ts]) *)
Module Estimated.

(** What [pricing[tld || ''] || { registration: null, renewal: null }]
    evaluates to: an own entry of the table, the fallback, or --- for a key
    that [Object.prototype] defines --- an inherited member, whose
    [registration] and [renewal] are [undefined]. *)
Record Estimate : Type := {
  registration : Nullable number;
  renewal : Nullable number
}.

Definition objectPrototypeKeys : list string :=
  [ "constructor"; "__proto__"; "hasOwnProperty"; "isPrototypeOf";
    "propertyIsEnumerable"; "toLocaleString"; "toString"; "valueOf";
    "__defineGetter__"; "__defineSetter__"; "__lookupGetter__";
    "__lookupSetter__" ].

Definition Table : Type := list (string * (number * number)).

Fixpoint own (table : Table) (key : string) : option (number * number) :=
  match table with
  | [] => None
  | (k, v) :: rest => if String.eqb k key then Some v else own rest key
  end.

Definition lookup (table : Table) (tld : option string) : Estimate :=
  let key := str_or tld "" in
  match own table key with
  | Some (reg, ren) => {| registration := Val reg; renewal := Val ren |}
  | None =>
      if existsb (String.eqb key) objectPrototypeKeys
      then {| registration := Undefined; renewal := Undefined |}
      else {| registration := Null; renewal := Null |}
  end.

Definition getCloudflareEstimatedPricing : option string -> Estimate :=
  lookup
    [ ("com", (9.77, 9.77)); ("net", (11.85, 11.85)); ("org", (12.06, 12.06));
      ("info", (4.85, 17.85)); ("biz", (4.85, 17.85)); ("us", (8.57, 8.57));
      ("co", (30.00, 30.00)); ("io", (65.00, 65.00)); ("dev", (15.00, 15.00));
      ("app", (20.00, 20.00)) ]%float.

Definition getNamecheapEstimatedPricing : option string -> Estimate :=
  lookup
    [ ("com", (10.99, 13.99)); ("net", (12.99, 15.99)); ("org", (11.99, 14.99));
      ("info", (2.99, 21.99)); ("biz", (1.99, 19.99)); ("us", (8.88, 8.88));
      ("co", (8.88, 32.99)); ("io", (39.99, 69.99)); ("dev", (12.99, 17.99));
      ("app", (14.99, 20.99)) ]%float.

Definition getPorkbunEstimatedPricing : option string -> Estimate :=
  lookup
    [ ("com", (8.97, 9.73)); ("net", (10.69, 11.84)); ("org", (9.17, 12.18));
      ("info", (3.25, 17.67)); ("biz", (4.14, 18.44)); ("us", (7.65, 8.37));
      ("co", (6.98, 30.78)); ("io", (47.20, 54.00)); ("dev", (11.48, 15.33));
      ("app", (15.33, 18.44)) ]%float.

Definition getGoDaddyEstimatedPricing : option string -> Estimate :=
  lookup
    [ ("com", (11.99, 17.99)); ("net", (12.99, 17.99)); ("org", (12.99, 17.99));
      ("info", (2.99, 19.99)); ("biz", (2.99, 19.99)); ("us", (9.99, 9.99));
      ("co", (24.99, 34.99)); ("io", (59.99, 79.99)); ("dev", (17.99, 24.99));
      ("app", (19.99, 24.99)) ]%float.

Definition getNamecomEstimatedPricing : option string -> Estimate :=
  lookup
    [ ("com", (10.99, 12.99)); ("net", (12.99, 14.99)); ("org", (11.99, 13.99));
      ("info", (4.99, 18.99)); ("biz", (4.99, 18.99)); ("us", (8.99, 8.99));
      ("co", (29.99, 31.99)); ("io", (49.99, 69.99)); ("dev", (14.99, 19.99));
      ("app", (17.99, 22.99)) ]%float.

(** The object the five [check...] methods build in their [try] block. *)
Definition estimatedQuote (name url : string) (pricing : Estimate)
  : DomainPricing :=
  {| provider := name;
     available := true;
     registrationPrice := nullish_undefined (registration pricing);
     renewalPrice := nullish_undefined (renewal pricing);
     currency := "USD";
     url := url;
     error := match registration pricing with
              | Null => Some "TLD not supported"
              | _ => None
              end |}.

(** The object they return from their [catch] block. *)
Definition failedQuote (name url message : string) : DomainPricing :=
  {| provider := name;
     available := false;
     registrationPrice := None;
     renewalPrice := None;
     currency := "USD";
     url := url;
     error := Some message |}.

Definition checkCloudflare (domain : string) : Completion DomainPricing :=
  try_catch
    (let tld := tld_of domain in
     let pricing := getCloudflareEstimatedPricing tld in
     Return (estimatedQuote "Cloudflare"
               "https://www.cloudflare.com/products/registrar/" pricing))
    (fun _ => Return (failedQuote "Cloudflare"
                        "https://www.cloudflare.com/products/registrar/"
                        "Failed to check Cloudflare pricing")).

Definition namecheapUrl (domain : string) : string :=
  "https://www.namecheap.com/domains/registration/results/?domain=" ++ domain.

Definition checkNamecheap (domain : string) : Completion DomainPricing :=
  try_catch
    (let tld := tld_of domain in
     let pricing := getNamecheapEstimatedPricing tld in
     Return (estimatedQuote "Namecheap" (namecheapUrl domain) pricing))
    (fun _ => Return (failedQuote "Namecheap" (namecheapUrl domain)
                        "Failed to check Namecheap pricing")).

Definition porkbunUrl (domain : string) : string :=
  "https://porkbun.com/checkout/search?q=" ++ domain.

Definition checkPorkbun (domain : string) : Completion DomainPricing :=
  try_catch
    (let tld := tld_of domain in
     let pricing := getPorkbunEstimatedPricing tld in
     Return (estimatedQuote "Porkbun" (porkbunUrl domain) pricing))
    (fun _ => Return (failedQuote "Porkbun" (porkbunUrl domain)
                        "Failed to check Porkbun pricing")).

Definition godaddyUrl (domain : string) : string :=
  "https://www.godaddy.com/domainsearch/find?checkAvail=1&domainToCheck="
  ++ domain.

Definition checkGoDaddy (domain : string) : Completion DomainPricing :=
  try_catch
    (let tld := tld_of domain in
     let pricing := getGoDaddyEstimatedPricing tld in
     Return (estimatedQuote "GoDaddy" (godaddyUrl domain) pricing))
    (fun _ => Return (failedQuote "GoDaddy" (godaddyUrl domain)
                        "Failed to check GoDaddy pricing")).

Definition namecomUrl (domain : string) : string :=
  "https://www.name.com/domain/search/" ++ domain.

Definition checkNamecom (domain : string) : Completion DomainPricing :=
  try_catch
    (let tld := tld_of domain in
     let pricing := getNamecomEstimatedPricing tld in
     Return (estimatedQuote "Name.com" (namecomUrl domain) pricing))
    (fun _ => Return (failedQuote "Name.com" (namecomUrl domain)
                        "Failed to check Name.com pricing")).

Section Network.

(** [axios.get] on the [dns.google/resolve] URL of a domain: the
    [response.data] it resolves with, or the error it rejects with. *)
Variable axios_get_dns : string -> Completion (option DnsAnswer).
Variable Date_new : string.

Definition quickAvailabilityCheck (domain : string) : Completion bool :=
  try_catch
    (response_data <- axios_get_dns domain ;;
     Return (looksUnregistered response_data))
    (fun _ => Return true).

Definition checkAvailabilityAndPricing
  : string -> Completion DomainAvailabilityResult :=
  DomainPricingService.checkAvailabilityAndPricing
    quickAvailabilityCheck checkCloudflare checkNamecheap checkPorkbun
    checkGoDaddy checkNamecom Date_new.

End Network.

End Estimated.

(** ** The revision with live prices ([src/unnamed/part_000]) *)
Module Live.

(** What the price helpers resolve with; [null] is [None]. *)
Record LivePricing : Type := {
  registration : option number;
  renewal : option number
}.

(** The body of [response.data] of Porkbun's [checkDomain] call.  The
    method tells an [avail] that is missing ([Undefined]) from one that is
    there; [Null] stands for [null] and for every other value that is not a
    string, none of which is [=== 'yes']. *)
Record PorkbunCheck : Type := {
  status : option string;
  avail : Nullable string
}.

Definition liveQuote (name url : string) (registrationPrice : option number)
    (renewalPrice : option number) (error : option string) : DomainPricing :=
  {| provider := name;
     available := true;
     registrationPrice := registrationPrice;
     renewalPrice := renewalPrice;
     currency := "USD";
     url := url;
     error := error |}.

Definition failedQuote (name url : string) (error : string) : DomainPricing :=
  {| provider := name;
     available := false;
     registrationPrice := None;
     renewalPrice := None;
     currency := "USD";
     url := url;
     error := Some ("Failed to get live pricing: " ++ error_toString error) |}.

Definition cloudflareUrl : string :=
  "https://www.cloudflare.com/products/registrar/".

Definition namecheapUrl (domain : string) : string :=
  "https://www.namecheap.com/domains/registration/results/?domain=" ++ domain.

Definition porkbunUrl (domain : string) : string :=
  "https://porkbun.com/checkout/search?q=" ++ domain.

Definition godaddyUrl (domain : string) : string :=
  "https://www.godaddy.com/domainsearch/find?checkAvail=1&domainToCheck="
  ++ domain.

Definition namecomUrl (domain : string) : string :=
  "https://www.name.com/domain/search/" ++ domain.

(** The Namecheap API is not queried: the method returns [null]. *)
Definition getNamecheapLivePricing (domain : string)
  : Completion (option LivePricing) :=
  Return None.

Section Network.

(** The network.  [axios_post_porkbun] and [axios_get_dns] give the
    [response.data] of the two availability requests, or the error they
    reject with.  The price helpers, which query and parse the registrars'
    pages, are represented by what they settle to. *)
Variable axios_post_porkbun : string -> Completion (option PorkbunCheck).
Variable axios_get_dns : string -> Completion (option DnsAnswer).
Variable getCloudflareLivePricing : option string -> Completion (option LivePricing).
Variable scrapeNamecheapPricing : string -> Completion (option LivePricing).
Variable getPorkbunLivePricing : option string -> Completion (option LivePricing).
Variable scrapeGoDaddyPricing : string -> Completion (option LivePricing).
Variable getNamecomLivePricing : string -> Completion (option LivePricing).
Variable scrapeNamecomPricing : string -> Completion (option LivePricing).
Variable Date_new : string.

(** Resolves with [true], [false] or [null] ([None]). *)
Definition checkPorkbunAvailability (domain : string)
  : Completion (option bool) :=
  try_catch
    (response_data <- axios_post_porkbun domain ;;
     match response_data with
     | Some data =>
         if match status data with
            | Some st => String.eqb st "SUCCESS"
            | None => false
            end
         then match avail data with
              | Undefined => Return None
              | Null => Return (Some false)
              | Val av => Return (Some (String.eqb av "yes"))
              end
         else Return None
     | None => Return None
     end)
    (fun _ => Return None).

Definition quickAvailabilityCheck (domain : string) : Completion bool :=
  try_catch
    (porkbunAvailability <- checkPorkbunAvailability domain ;;
     match porkbunAvailability with
     | Some answer => Return answer
     | None =>
         response_data <- axios_get_dns domain ;;
         Return (looksUnregistered response_data)
     end)
    (fun _ => Return true).

Definition checkCloudflare (domain : string) : Completion DomainPricing :=
  try_catch
    (let tld := tld_of domain in
     livePricing <- getCloudflareLivePricing tld ;;
     match livePricing with
     | Some {| registration := Some reg; renewal := ren |} =>
         Return (liveQuote "Cloudflare" cloudflareUrl (Some reg) ren None)
     | _ => Throw "Live API returned no pricing data"
     end)
    (fun error => Return (failedQuote "Cloudflare" cloudflareUrl error)).

Definition checkNamecheap (domain : string) : Completion DomainPricing :=
  try_catch
    (livePricing <- getNamecheapLivePricing domain ;;
     match livePricing with
     | Some live =>
         Return (liveQuote "Namecheap" (namecheapUrl domain)
                   (registration live) (renewal live) None)
     | None =>
         scrapedPricing <- scrapeNamecheapPricing domain ;;
         match scrapedPricing with
         | Some scraped =>
             Return (liveQuote "Namecheap" (namecheapUrl domain)
                       (registration scraped) (renewal scraped)
                       (Some "Live pricing via web scraping"))
         | None => Throw "No live pricing available"
         end
     end)
    (fun error => Return (failedQuote "Namecheap" (namecheapUrl domain) error)).

Definition checkPorkbun (domain : string) : Completion DomainPricing :=
  try_catch
    (let tld := tld_of domain in
     livePricing <- getPorkbunLivePricing tld ;;
     match livePricing with
     | Some {| registration := Some reg; renewal := ren |} =>
         Return (liveQuote "Porkbun" (porkbunUrl domain) (Some reg) ren None)
     | _ => Throw "Live API returned no pricing data"
     end)
    (fun error => Return (failedQuote "Porkbun" (porkbunUrl domain) error)).

Definition checkGoDaddy (domain : string) : Completion DomainPricing :=
  try_catch
    (livePricing <- scrapeGoDaddyPricing domain ;;
     match livePricing with
     | Some live =>
         Return (liveQuote "GoDaddy" (godaddyUrl domain)
                   (registration live) (renewal live) None)
     | None => Throw "No live pricing available"
     end)
    (fun error => Return (failedQuote "GoDaddy" (godaddyUrl domain) error)).

Definition checkNamecom (domain : string) : Completion DomainPricing :=
  try_catch
    (livePricing <- getNamecomLivePricing domain ;;
     match livePricing with
     | Some live =>
         Return (liveQuote "Name.com" (namecomUrl domain)
                   (registration live) (renewal live) None)
     | None =>
         scrapedPricing <- scrapeNamecomPricing domain ;;
         match scrapedPricing with
         | Some scraped =>
             Return (liveQuote "Name.com" (namecomUrl domain)
                       (registration scraped) (renewal scraped)
                       (Some "Live pricing via web scraping"))
         | None => Throw "No live pricing available"
         end
     end)
    (fun error => Return (failedQuote "Name.com" (namecomUrl domain) error)).

Definition checkAvailabilityAndPricing
  : string -> Completion DomainAvailabilityResult :=
  DomainPricingService.checkAvailabilityAndPricing
    quickAvailabilityCheck checkCloudflare checkNamecheap checkPorkbun
    checkGoDaddy checkNamecom Date_new.

End Network.

End Live.

End DomainPricingService.

(* ================================================================== *)
(** * [DomainInspector] ([src/domain-inspector.ts]) *)
(* ================================================================== *)

Module DomainInspector.

(** The data sources the inspector owns a service for. *)
Inductive Source : Type :=
| Whois | Dns | Ssl | Network | Subdomains | Pricing.

Section Orchestrator.

(** The values the services resolve with ([any] in the source). *)
Variable any : Type.

(** A property of the [DomainInfo] under construction: never written, or
    written with a value or with [null] ([None]). *)
Inductive Slot : Type :=
| Unset
| Assigned (value : option any).

Record DomainInfo : Type := {
  domain : string;
  whois : Slot;
  dns : Slot;
  ssl : Slot;
  network : Slot;
  subdomains : Slot;
  pricing : Slot
}.

(** [const domainInfo: DomainInfo = { domain }] *)
Definition fresh (domain : string) : DomainInfo :=
  {| domain := domain; whois := Unset; dns := Unset; ssl := Unset;
     network := Unset; subdomains := Unset; pricing := Unset |}.

Definition set_whois (v : option any) (d : DomainInfo) : DomainInfo :=
  {| domain := domain d; whois := Assigned v; dns := dns d; ssl := ssl d;
     network := network d; subdomains := subdomains d; pricing := pricing d |}.
Definition set_dns (v : option any) (d : DomainInfo) : DomainInfo :=
  {| domain := domain d; whois := whois d; dns := Assigned v; ssl := ssl d;
     network := network d; subdomains := subdomains d; pricing := pricing d |}.
Definition set_ssl (v : option any) (d : DomainInfo) : DomainInfo :=
  {| domain := domain d; whois := whois d; dns := dns d; ssl := Assigned v;
     network := network d; subdomains := subdomains d; pricing := pricing d |}.
Definition set_network (v : option any) (d : DomainInfo) : DomainInfo :=
  {| domain := domain d; whois := whois d; dns := dns d; ssl := ssl d;
     network := Assigned v; subdomains := subdomains d; pricing := pricing d |}.
Definition set_subdomains (v : option any) (d : DomainInfo) : DomainInfo :=
  {| domain := domain d; whois := whois d; dns := dns d; ssl := ssl d;
     network := network d; subdomains := Assigned v; pricing := pricing d |}.
Definition set_pricing (v : option any) (d : DomainInfo) : DomainInfo :=
  {| domain := domain d; whois := whois d; dns := dns d; ssl := ssl d;
     network := network d; subdomains := subdomains d; pricing := Assigned v |}.

(** The services' calls ([whoisService.lookup], [dnsService.lookup],
    [sslService.getCertificate], [networkService.getNetworkInfo],
    [subdomainService.discoverSubdomains] and
    [pricingService.checkAvailabilityAndPricing]): each resolves with a
    value, possibly [null], or rejects. *)
Variable service : Source -> string -> Completion (option any).

(** The six [gather...Intelligence] methods: the value of the service, and
    [null] when anything in the [try] block throws. *)
Definition gatherIntelligence (source : Source) (domain : string)
  : Completion (option any) :=
  try_catch (service source domain) (fun _ => Return None).

(** [results[resultIndex].status === 'fulfilled' ? results[resultIndex].value
    : null]; reading past the end of [results] throws a [TypeError]. *)
Definition valueOrNull (results : list (PromiseSettledResult (option any)))
    (resultIndex : nat) : Completion (option any) :=
  match nth_error results resultIndex with
  | Some (fulfilled value) => Return value
  | Some (rejected _) => Return None
  | None => Throw "Cannot read properties of undefined (reading 'status')"
  end.

Variable options : InspectionOptions.

(** ** [investigate]: the single-domain path, up to the finished
    [domainInfo] that is handed to the report and to the exporters.  A
    throw is caught by the method's [catch], which reports the failure and
    hands nothing on. *)
Definition investigate_promises (domain : string)
  : list (Completion (option any)) :=
  ([ gatherIntelligence Whois domain;
     gatherIntelligence Dns domain;
     gatherIntelligence Ssl domain ]
   ++ (if quick options then [] else [gatherIntelligence Network domain])
   ++ (if opt_subdomains options
       then [gatherIntelligence Subdomains domain] else [])
   ++ (if checkPricing options
       then [gatherIntelligence Pricing domain] else []))%list.

Definition investigate (domain : string) : Completion DomainInfo :=
  let domainInfo := fresh domain in
  let results := map (@settle _) (investigate_promises domain) in
  let resultIndex := 0 in
  v <- valueOrNull results resultIndex ;;
  let domainInfo := set_whois v domainInfo in
  let resultIndex := S resultIndex in
  v <- valueOrNull results resultIndex ;;
  let domainInfo := set_dns v domainInfo in
  let resultIndex := S resultIndex in
  v <- valueOrNull results resultIndex ;;
  let domainInfo := set_ssl v domainInfo in
  let resultIndex := S resultIndex in
  state <- (if negb (quick options) then
              v <- valueOrNull results resultIndex ;;
              Return (set_network v domainInfo, S resultIndex)
            else Return (domainInfo, resultIndex)) ;;
  let '(domainInfo, resultIndex) := state in
  state <- (if opt_subdomains options then
              v <- valueOrNull results resultIndex ;;
              Return (set_subdomains v domainInfo, S resultIndex)
            else Return (domainInfo, resultIndex)) ;;
  let '(domainInfo, resultIndex) := state in
  domainInfo <- (if checkPricing options then
                   v <- valueOrNull results resultIndex ;;
                   Return (set_pricing v domainInfo)
                 else Return domainInfo) ;;
  Return domainInfo.

(** ** [investigateSingle]: the per-domain step of the multi-domain path. *)
Definition investigateSingle_promises (domain : string)
  : list (Completion (option any)) :=
  ([ gatherIntelligence Whois domain;
     gatherIntelligence Dns domain;
     gatherIntelligence Ssl domain ]
   ++ (if quick options then [] else [gatherIntelligence Network domain])
   ++ (if opt_subdomains options
       then [gatherIntelligence Subdomains domain] else []))%list.

Definition investigateSingle (domain : string) : Completion DomainInfo :=
  let domainInfo := fresh domain in
  let results := map (@settle _) (investigateSingle_promises domain) in
  let resultIndex := 0 in
  v <- valueOrNull results resultIndex ;;
  let domainInfo := set_whois v domainInfo in
  let resultIndex := S resultIndex in
  v <- valueOrNull results resultIndex ;;
  let domainInfo := set_dns v domainInfo in
  let resultIndex := S resultIndex in
  v <- valueOrNull results resultIndex ;;
  let domainInfo := set_ssl v domainInfo in
  let resultIndex := S resultIndex in
  state <- (if negb (quick options) then
              v <- valueOrNull results resultIndex ;;
              Return (set_network v domainInfo, S resultIndex)
            else Return (domainInfo, resultIndex)) ;;
  let '(domainInfo, resultIndex) := state in
  domainInfo <- (if opt_subdomains options then
                   v <- valueOrNull results resultIndex ;;
                   Return (set_subdomains v domainInfo)
                 else Return domainInfo) ;;
  Return domainInfo.

End Orchestrator.

Arguments Unset {any}.

(** ** [investigateMultiple]: the batch loop

    What the loop does, in order: a batch is dispatched (with the numbers
    of its log line) and awaited, or the scheduler pauses. *)
Inductive Event : Type :=
| ProcessBatch (batchNum totalBatches : nat) (batch : list string)
| Pause (milliseconds : nat).

(** The [for] loop from index [i] on.  [parallelLimit] is a non-negative
    integer; with [parallelLimit = 0] the index never advances, so the loop
    is bounded by [fuel] and [None] stands for a loop still running. *)
Fixpoint investigateMultiple_from (fuel : nat) (domains : list string)
    (parallelLimit : nat) (i : nat) : option (list Event) :=
  match fuel with
  | 0 => None
  | S fuel' =>
      if (i <? List.length domains)%nat then
        let batch := slice domains i (i + parallelLimit) in
        let batchNum := floor_div i parallelLimit + 1 in
        let totalBatches := ceil_div (List.length domains) parallelLimit in
        let pause :=
          if (i + parallelLimit <? List.length domains)%nat
          then [Pause 1500] else [] in
        match investigateMultiple_from fuel' domains parallelLimit
                (i + parallelLimit) with
        | Some rest =>
            Some (ProcessBatch batchNum totalBatches batch :: pause ++ rest)%list
        | None => None
        end
      else Some []
  end.

Definition investigateMultiple (fuel : nat) (domains : list string)
    (parallelLimit : nat) : option (list Event) :=
  investigateMultiple_from fuel domains parallelLimit 0.

(** ** [displayThreatAssessment]: the threats the console report lists *)
Section DisplayThreatAssessment.

(** [new Date(s).getTime()] and the reading of the clock during the call. *)
Variable Date_getTime : string -> number.
Variable Date_now : number.


End DisplayThreatAssessment.

(** ** The pricing part of [generateIntelligenceReport]: the quotes of the
    price table, and the quotes listed as not checked *)

(** [info.pricing.pricing.filter(p => p.available && !p.error)] *)
Definition validPricing (quotes : list DomainPricing) : list DomainPricing :=
  filter (fun p => Types.available p && PricingExportService.no_error p)
    quotes.

(** [info.pricing.pricing.filter(p => p.error)] *)
Definition errorPricing (quotes : list DomainPricing) : list DomainPricing :=
  filter (fun p => negb (PricingExportService.no_error p)) quotes.

End DomainInspector.

(* ================================================================== *)
(** * Reference notions of the specification *)
(* ================================================================== *)

Module Spec.

(** [needle] occurs in [s]. *)
Definition occurs (needle s : string) : Prop :=
  exists before after, s = before ++ needle ++ after.

Definition carriage_return : ascii := "013"%char.

(** A reader of one CSV field in the sense of RFC 4180.  [unquote] reads
    the text after an opening quote: a doubled quote is a quote, a single one
    must end the field. *)
Fixpoint unquote (s : string) : option string :=
  match s with
  | EmptyString => None
  | String c rest =>
      if Ascii.eqb c dquote then
        match rest with
        | EmptyString => Some EmptyString
        | String c' rest' =>
            if Ascii.eqb c' dquote
            then option_map (String dquote) (unquote rest')
            else None
        end
      else option_map (String c) (unquote rest)
  end.

(** A field that does not open with a quote is taken as it stands, and may
    hold no separator, quote or line break. *)
Definition readField (field : string) : option string :=
  match field with
  | EmptyString => Some EmptyString
  | String c rest =>
      if Ascii.eqb c dquote then unquote rest
      else if includes_char field comma || includes_char field dquote
              || includes_char field newline
              || includes_char field carriage_return
      then None
      else Some field
  end.

(** [best] is the quote of [quotes] with the least price on an axis, the
    first of them on a tie: it has a price, no priced quote before it is as
    cheap, and no priced quote after it is cheaper. *)
Definition cheapestOn (price : DomainPricing -> option number)
    (quotes : list DomainPricing) (best : DomainPricing) : Prop :=
  exists before after p,
    quotes = (before ++ best :: after)%list
    /\ price best = Some p
    /\ (forall q pq, In q before -> price q = Some pq -> num_lt p pq = true)
    /\ (forall q pq, In q after -> price q = Some pq -> num_lt pq p = false).

(** A valid quote in the words of the specification: available, no error
    annotation, registration price present. *)
Definition validQuote (q : DomainPricing) : bool :=
  available q
  && match error q with None => true | Some _ => false end
  && match registrationPrice q with Some _ => true | None => false end.

End Spec.

(* ================================================================== *)
(** * Notions used in the statements *)
(* ================================================================== *)

(** ** CSV fields *)

Definition doubled_quote : string := String dquote (String dquote "").

(** The value between two double quotes, every double quote inside it
    replaced by two. *)
Definition wrapped (value : string) : string :=
  String dquote (replace_all dquote doubled_quote value ++ String dquote "").

(** The input of the specification's example --- Acme, Inc. followed by a
    double quote --- and its escaped form: the same between two double
    quotes, with the inner quote doubled. *)
Definition acme : string := "Acme, Inc." ++ String dquote "".
Definition acme_escaped : string :=
  String dquote ("Acme, Inc." ++ String dquote doubled_quote).

(** ** Threats *)

Definition mentions_high (t : string) : Prop :=
  Spec.occurs "Invalid SSL" t \/ Spec.occurs "No SSL" t.

Definition mentions_medium (t : string) : Prop := Spec.occurs "expires" t.

Module ThreatRules.

Section Rules.

Variable numberToString : number -> string.
Variable Date_getTime : string -> number.
Variable Date_now : number.

(** The four rules in the words of the specification: each yields its
    finding when it applies. *)
Definition Rule : Type := DomainInfo -> option string.

(** Certificate present and [daysUntilExpiry < 30]. *)
Definition expiresSoon : Rule := fun info =>
  match ssl info with
  | Some certificate =>
      match daysUntilExpiry certificate with
      | Some days =>
          if (days <? 30)%float
          then Some ("SSL expires in " ++ numberToString days ++ " days")
          else None
      | None => None
      end
  | None => None
  end.

(** No certificate present at all. *)
Definition noCertificate : Rule := fun info =>
  match ssl info with
  | None => Some "No SSL certificate detected"
  | Some _ => None
  end.

(** Certificate present and explicitly marked invalid. *)
Definition invalidCertificate : Rule := fun info =>
  match ssl info with
  | Some certificate =>
      match isValid certificate with
      | Some false => Some "Invalid SSL certificate"
      | _ => None
      end
  | None => None
  end.

(** Registration date present (a non-empty string) and less than thirty
    days before now. *)
Definition registeredRecently : Rule := fun info =>
  match whois info with
  | Some record =>
      match registrationDate record with
      | Some date =>
          if nonempty date
             && ((Date_now - Date_getTime date) / 86400000 <? 30)%float
          then Some "Domain registered recently"
          else None
      | None => None
      end
  | None => None
  end.

(** The findings of a list of rules, in the order of the list. *)
Definition findings (rules : list Rule) (info : DomainInfo) : list string :=
  flat_map (fun rule : Rule =>
              match rule info with Some f => [f] | None => [] end) rules.

(** The order the specification gives, and the order of the code. *)
Definition specifiedOrder : list Rule :=
  [expiresSoon; noCertificate; invalidCertificate; registeredRecently].

Definition codeOrder : list Rule :=
  [expiresSoon; noCertificate; registeredRecently; invalidCertificate].

End Rules.

(** An invalid certificate on a domain registered the day before. *)
Definition invalidAndRecent : DomainInfo :=
  {| domain := "example.com";
     whois := Some {| registrar := None;
                      registrationDate := Some "2025-01-01";
                      expirationDate := None; nameServers := None;
                      registrantCountry := None; status := None |};
     dns := None;
     ssl := Some {| issuer := None; subject := None; validFrom := None;
                    validTo := None; fingerprint := None;
                    serialNumber := None; signatureAlgorithm := None;
                    keySize := None; isValid := Some false;
                    daysUntilExpiry := Some 200%float |};
     network := None; info_subdomains := None; info_pricing := None |}.

(** A host on 2 January 2025, midnight UTC, that reads every date as
    1 January 2025, and a number printer for the examples. *)
Definition dayAfter_getTime (date : string) : number := 1735689600000%float.
Definition dayAfter_now : number := 1735776000000%float.
Definition plainNumber (n : number) : string := "N".

End ThreatRules.

(** ** Prices *)

Definition sf_not_nan (x : spec_float) : bool :=
  match x with S754_nan => false | _ => true end.

(** A price above zero: the test of the range and of the mean. *)
Definition above_zero (p : option number) : bool :=
  match p with
  | Some v => num_lt 0%float v
  | None => false
  end.

(** The quotes whose price on an axis enters the range and the mean of
    that axis: compared, and priced above zero on the axis. *)
Definition inRegistrationRange (q : DomainPricing) : bool :=
  available q && truthy_opt (registrationPrice q)
  && above_zero (registrationPrice q).

Definition inRenewalRange (q : DomainPricing) : bool :=
  available q && truthy_opt (registrationPrice q)
  && above_zero (renewalPrice q).

(** A usable price: present and truthy, that is neither zero nor NaN. *)
Definition usable (p : option number) : option number :=
  match p with
  | Some v => if truthy v then Some v else None
  | None => None
  end.

(** The price a quote competes with on an axis: its price when it has a
    usable one, [Infinity] otherwise. *)
Definition regKey (q : DomainPricing) : number :=
  num_or (registrationPrice q) Infinity.
Definition renKey (q : DomainPricing) : number :=
  num_or (renewalPrice q) Infinity.

(** [best] is the first quote of [quotes] with the least key: strictly
    below every quote before it, and no quote after it is strictly below. *)
Definition first_minimum (key : DomainPricing -> number)
    (quotes : list DomainPricing) (best : DomainPricing) : Prop :=
  exists before after,
    quotes = (before ++ best :: after)%list
    /\ (forall q, In q before -> num_lt (key best) (key q) = true)
    /\ (forall q, In q after -> num_lt (key q) (key best) = false).

(** The callback of the four [reduce] calls, over the key of its axis. *)
Definition cheaper (key : DomainPricing -> number)
    (prev curr : DomainPricing) : DomainPricing :=
  if num_lt (key curr) (key prev) then curr else prev.

(** The quote that stands in for a provider call that rejected. *)
Definition rejectedQuote (index : nat) (reason : string) : DomainPricing :=
  {| provider := nth index DomainPricingService.providers "";
     available := false;
     registrationPrice := None;
     renewalPrice := None;
     currency := "USD";
     url := "";
     error := Some (if nonempty reason then reason
                    else "Failed to check pricing") |}.

(** ** Reports, batches and slots *)

(** A report of a domain on which every source failed. *)
Definition blankReport (name : string) : DomainInfo :=
  {| domain := name; whois := None; dns := None; ssl := None;
     network := None; info_subdomains := None; info_pricing := None |}.

(** A sequence of events with a pause between every two consecutive ones,
    and none after the last. *)
Fixpoint paced (events : list DomainInspector.Event)
  : list DomainInspector.Event :=
  match events with
  | [] => []
  | e :: rest =>
      match rest with
      | [] => [e]
      | _ :: _ => e :: DomainInspector.Pause 1500 :: paced rest
      end
  end.

(** The [j]-th batch under limit [k]: the [k] domains from position
    [j * k] on, as far as there are that many; and the event of processing
    it. *)
Definition batch_at (domains : list string) (k j : nat) : list string :=
  slice domains (j * k) (j * k + k).

Definition event_at (domains : list string) (k j : nat)
  : DomainInspector.Event :=
  DomainInspector.ProcessBatch (j + 1) (ceil_div (List.length domains) k)
    (batch_at domains k j).

(** What the gathering of a source resolves with: the service's value, or
    [null] when the service failed. *)
Definition gathered (any : Type)
    (service : DomainInspector.Source -> string -> Completion (option any))
    (domain : string) (source : DomainInspector.Source) : option any :=
  match service source domain with
  | Return value => value
  | Throw _ => None
  end.

(* ================================================================== *)
(** * Example runs *)
(* ================================================================== *)

Module Examples.

Import DomainPricingService.

(** The value a completed call returned, when it returned. *)
Definition returned (A : Type) (c : Completion A) : option A :=
  match c with
  | Return v => Some v
  | Throw _ => None
  end.

(** A resolver that answers NXDOMAIN. *)
Definition nxdomain (domain : string) : Completion (option DnsAnswer) :=
  Return (Some {| Status := Some 3%float; Answer := None |}).

Definition noon : string := "2025-06-01T12:00:00.000Z".

(** The estimated-price service on [example.com]: five priced quotes. *)
Definition estimatedCom : option DomainAvailabilityResult :=
  returned (Estimated.checkAvailabilityAndPricing nxdomain noon "example.com").

Definition estimatedComQuotes : list DomainPricing :=
  match estimatedCom with
  | Some result => pricing result
  | None => []
  end.

Definition estimatedComResult : DomainAvailabilityResult :=
  {| result_domain := "example.com"; isAvailable := true;
     pricing := estimatedComQuotes; checkedAt := noon |}.

(** A network on which Porkbun's availability call is refused, Porkbun's
    price list answers, Namecheap's search page is scraped, and the other
    registrars give nothing. *)
Definition refused (A : Type) (request : string) : Completion A :=
  Throw "Request failed with status code 403".

Definition nothing (A : Type) (request : A)
  : Completion (option Live.LivePricing) :=
  Return None.

Definition porkbunList (tld : option string)
  : Completion (option Live.LivePricing) :=
  Return (Some {| Live.registration := Some 9.13%float;
                  Live.renewal := Some 10.91%float |}).

Definition namecheapPage (domain : string)
  : Completion (option Live.LivePricing) :=
  Return (Some {| Live.registration := Some 8.88%float;
                  Live.renewal := Some 12.98%float |}).

Definition scrapedRun : option DomainAvailabilityResult :=
  returned
    (Live.checkAvailabilityAndPricing (@refused _) nxdomain (@nothing _)
       namecheapPage porkbunList (@nothing _) (@nothing _) (@nothing _)
       noon "example.com").

Definition scrapedQuotes : list DomainPricing :=
  match scrapedRun with
  | Some result => pricing result
  | None => []
  end.

(** The same network without Porkbun's price list. *)
Definition scrapedOnlyRun : option DomainAvailabilityResult :=
  returned
    (Live.checkAvailabilityAndPricing (@refused _) nxdomain (@nothing _)
       namecheapPage (@nothing _) (@nothing _) (@nothing _) (@nothing _)
       noon "example.com").

Definition scrapedOnlyQuotes : list DomainPricing :=
  match scrapedOnlyRun with
  | Some result => pricing result
  | None => []
  end.

(** The quote the live service builds from Namecheap's scraped page. *)
Definition namecheapScraped : DomainPricing :=
  {| provider := "Namecheap";
     available := true;
     registrationPrice := Some 8.88%float;
     renewalPrice := Some 12.98%float;
     currency := "USD";
     url := "https://www.namecheap.com/domains/registration/results/?domain=example.com";
     error := Some "Live pricing via web scraping" |}.

(** Two live quotes, the first with a renewal price of zero. *)
Definition freeRenewal : DomainPricing :=
  {| provider := "Porkbun"; available := true;
     registrationPrice := Some 9.13%float; renewalPrice := Some 0%float;
     currency := "USD"; url := "https://porkbun.com/checkout/search?q=example.com";
     error := None |}.

Definition paidRenewal : DomainPricing :=
  {| provider := "Cloudflare"; available := true;
     registrationPrice := Some 9.77%float; renewalPrice := Some 9.77%float;
     currency := "USD"; url := "https://www.cloudflare.com/products/registrar/";
     error := None |}.

(** A quote with a negative price. *)
Definition refund : DomainPricing :=
  {| provider := "Porkbun"; available := true;
     registrationPrice := Some (-5)%float; renewalPrice := Some (-5)%float;
     currency := "USD"; url := "https://porkbun.com/checkout/search?q=example.com";
     error := None |}.

End Examples.

(* ================================================================== *)
(** * Reading CSV text *)
(* ================================================================== *)

(** A reader of CSV text in the sense of RFC 4180: records are separated by
    line feeds, fields by commas; a field that opens with a double quote runs
    to the matching single double quote, a doubled one standing for a quote;
    any other field holds no quote and no carriage return. *)
Module Csv.

Inductive Mode : Type :=
| Start      (* at the beginning of a field *)
| Plain      (* inside an unquoted field *)
| Quoted     (* inside a quoted field *)
| Closing.   (* after a double quote inside a quoted field *)

(** The records read from the text that is left: the first field of the
    first record is the one being read. *)
Definition Records : Type := list (list string).

Definition add_char (c : ascii) (records : Records) : Records :=
  match records with
  | (field :: fields) :: rest => (String c field :: fields) :: rest
  | [] :: rest => [String c ""] :: rest
  | [] => [[String c ""]]
  end.

Definition new_field (records : Records) : Records :=
  match records with
  | fields :: rest => ("" :: fields) :: rest
  | [] => [[""; ""]]
  end.

Definition new_record (records : Records) : Records := [""] :: records.

Definition end_of_text : Records := [[""]].

Fixpoint read (mode : Mode) (text : string) : option Records :=
  match text with
  | EmptyString =>
      match mode with
      | Quoted => None
      | _ => Some end_of_text
      end
  | String c rest =>
      match mode with
      | Start =>
          if Ascii.eqb c dquote then read Quoted rest
          else if Ascii.eqb c comma then option_map new_field (read Start rest)
          else if Ascii.eqb c newline
          then option_map new_record (read Start rest)
          else if Ascii.eqb c Spec.carriage_return then None
          else option_map (add_char c) (read Plain rest)
      | Plain =>
          if Ascii.eqb c dquote then None
          else if Ascii.eqb c comma then option_map new_field (read Start rest)
          else if Ascii.eqb c newline
          then option_map new_record (read Start rest)
          else if Ascii.eqb c Spec.carriage_return then None
          else option_map (add_char c) (read Plain rest)
      | Quoted =>
          if Ascii.eqb c dquote then read Closing rest
          else option_map (add_char c) (read Quoted rest)
      | Closing =>
          if Ascii.eqb c dquote
          then option_map (add_char dquote) (read Quoted rest)
          else if Ascii.eqb c comma then option_map new_field (read Start rest)
          else if Ascii.eqb c newline
          then option_map new_record (read Start rest)
          else None
      end
  end.

Definition parse (text : string) : option Records := read Start text.

(** A value without a carriage return. *)
Definition noCR (value : string) : Prop :=
  includes_char value Spec.carriage_return = false.

(** The characters of a value, then the fields of a record, put in front
    of the records read from the rest of the text. *)
Fixpoint add_string (value : string) (records : Records) : Records :=
  match value with
  | EmptyString => records
  | String c value' => add_char c (add_string value' records)
  end.

Fixpoint add_fields (fields : list string) (records : Records) : Records :=
  match fields with
  | [] => records
  | [field] => add_string field records
  | field :: fields' => add_string field (new_field (add_fields fields' records))
  end.

(** The text is at the end of a field. *)
Definition at_field_end (text : string) : Prop :=
  text = "" \/ (exists rest, text = String comma rest)
  \/ (exists rest, text = String newline rest).

(** The text is at the end of a record. *)
Definition at_record_end (text : string) : Prop :=
  text = "" \/ (exists rest, text = String newline rest).

End Csv.

(** ** The values behind the lines of the exported files *)

Definition headerFields : list string :=
  [ "Domain"; "Registrar"; "Registration Date"; "Expiration Date";
    "Registrant Country"; "Status"; "Name Servers"; "IPv4 Addresses";
    "IPv6 Addresses"; "MX Records"; "TXT Records"; "SSL Issuer";
    "SSL Subject"; "SSL Valid From"; "SSL Valid To";
    "SSL Days Until Expiry"; "SSL Valid"; "Open Ports"; "Services";
    "Subdomains Found"; "Sample Subdomains"; "Available for Registration";
    "Cheapest Registration Price"; "Cheapest Renewal Price";
    "Best Registration Provider"; "Best Renewal Provider";
    "All Pricing Data"; "Threat Level"; "Threats" ].

(** The twenty-nine values [addDomain] escapes and joins, in column
    order. *)
Definition rowFields (numberToString toFixed2 : number -> string)
    (Date_getTime : string -> number) (Date_now : number)
    (info : DomainInfo) : list string :=
  let pricingData :=
    CSVExportService.processPricingData toFixed2 (info_pricing info) in
  let threats :=
    CSVExportService.assessThreats numberToString Date_getTime Date_now info in
  [ domain info;
    str_or (chain (whois info) registrar) "";
    str_or (chain (whois info) registrationDate) "";
    str_or (chain (whois info) expirationDate) "";
    str_or (chain (whois info) registrantCountry) "";
    CSVExportService.joined (chain (whois info) status);
    CSVExportService.joined (chain (whois info) nameServers);
    CSVExportService.joined (chain (dns info) a);
    CSVExportService.joined (chain (dns info) aaaa);
    CSVExportService.joined
      (option_map
         (map (fun mx => numberToString (priority mx) ++ " " ++ exchange mx))
         (chain (dns info) mx));
    CSVExportService.joined (option_map (firstn 3) (chain (dns info) txt));
    str_or (chain (ssl info) issuer) "";
    str_or (chain (ssl info) subject) "";
    str_or (chain (ssl info) validFrom) "";
    str_or (chain (ssl info) validTo) "";
    str_or (option_map numberToString (chain (ssl info) daysUntilExpiry)) "";
    str_or (option_map bool_toString (chain (ssl info) isValid)) "";
    CSVExportService.joined
      (option_map (map numberToString) (chain (network info) openPorts));
    CSVExportService.joined
      (option_map
         (map (fun s => numberToString (port s) ++ ":" ++ service s))
         (chain (network info) services));
    str_or (option_map (fun s => numberToString (totalFound s))
              (info_subdomains info)) "0";
    CSVExportService.joined
      (option_map (fun s => firstn 5 (subdomains s)) (info_subdomains info));
    CSVExportService.isAvailable pricingData;
    CSVExportService.cheapestRegistration pricingData;
    CSVExportService.cheapestRenewal pricingData;
    CSVExportService.bestRegProvider pricingData;
    CSVExportService.bestRenewalProvider pricingData;
    CSVExportService.allPricing pricingData;
    CSVExportService.getThreatLevel threats;
    join "; " threats ].

Definition pricingHeaderFields : list string :=
  [ "Domain"; "TLD"; "Available"; "Checked At"; "Provider";
    "Registration Price"; "Renewal Price"; "Currency"; "Registration URL";
    "Data Source"; "Error/Notes" ].

(** The eleven values of a provider's row of the pricing file, and those of
    the row of a domain without pricing data. *)
Definition providerFields (toFixed2 : number -> string)
    (domainResult : DomainAvailabilityResult) (quote : DomainPricing)
  : list string :=
  [ result_domain domainResult;
    PricingExportService.extractTLD (result_domain domainResult);
    PricingExportService.yesNo (isAvailable domainResult);
    checkedAt domainResult;
    provider quote;
    PricingExportService.priceText toFixed2 (registrationPrice quote);
    PricingExportService.priceText toFixed2 (renewalPrice quote);
    currency quote;
    url quote;
    PricingExportService.getDataSource quote;
    str_or (error quote) "" ].

Definition placeholderFields (domainResult : DomainAvailabilityResult)
  : list string :=
  [ result_domain domainResult;
    PricingExportService.extractTLD (result_domain domainResult);
    PricingExportService.yesNo (isAvailable domainResult);
    checkedAt domainResult;
    "No Data"; "N/A"; "N/A"; "N/A"; "N/A"; "N/A";
    "No pricing providers available" ].

(** The records of the pricing file for one domain. *)
Definition pricingRecords (toFixed2 : number -> string)
    (domainResult : DomainAvailabilityResult) : list (list string) :=
  match pricing domainResult with
  | [] => [placeholderFields domainResult]
  | quotes => map (providerFields toFixed2 domainResult) quotes
  end.

(** The line of a record: its values escaped and joined by commas. *)
Definition line (fields : list string) : string :=
  join "," (map CSVExportService.escapeCSV fields).

(** ** Further notions *)

(** The slot of a report that belongs to a source. *)
Definition slot_of (any : Type) (source : DomainInspector.Source)
    (report : DomainInspector.DomainInfo any) : DomainInspector.Slot any :=
  match source with
  | DomainInspector.Whois => DomainInspector.whois report
  | DomainInspector.Dns => DomainInspector.dns report
  | DomainInspector.Ssl => DomainInspector.ssl report
  | DomainInspector.Network => DomainInspector.network report
  | DomainInspector.Subdomains => DomainInspector.subdomains report
  | DomainInspector.Pricing => DomainInspector.pricing report
  end.

(** The threat level by the state of the certificate: HIGH without a
    certificate or with one marked invalid, MEDIUM with one that expires
    in less than thirty days, LOW otherwise. *)
Definition levelByCertificate (info : DomainInfo) : string :=
  match ssl info with
  | None => "HIGH"
  | Some certificate =>
      match isValid certificate with
      | Some false => "HIGH"
      | _ =>
          match daysUntilExpiry certificate with
          | Some days => if num_lt days 30%float then "MEDIUM" else "LOW"
          | None => "LOW"
          end
      end
  end.

(** The top-level domains the tables of the estimated-price service
    know. *)
Definition supportedTlds : list string :=
  ["com"; "net"; "org"; "info"; "biz"; "us"; "co"; "io"; "dev"; "app"].

(** The two shapes of a quote of the live-price service: the quote of a
    provider that answered, and the quote of a provider that failed. *)
Definition answeredQuote (q : DomainPricing) : Prop :=
  available q = true
  /\ (provider q = "Namecheap" ->
      error q = Some "Live pricing via web scraping")
  /\ (provider q = "Cloudflare" \/ provider q = "Porkbun" ->
      error q = None /\ registrationPrice q <> None).

Definition failedLiveQuote (q : DomainPricing) : Prop :=
  available q = false
  /\ registrationPrice q = None /\ renewalPrice q = None
  /\ exists reason,
       error q = Some ("Failed to get live pricing: " ++ reason).

(* ================================================================== *)
(** * Strings *)
(* ================================================================== *)

Section StringFacts.

Lemma prefix_nil (s : string) : String.prefix EmptyString s = true.
Proof. now destruct s. Qed.

Lemma prefix_cons (c d : ascii) (p s : string) :
  String.prefix (String c p) (String d s)
  = if ascii_dec c d then String.prefix p s else false.
Proof. reflexivity. Qed.

Lemma prefix_spec (p s : string) :
  String.prefix p s = true <-> exists rest, s = p ++ rest.
Proof.
  revert s. induction p as [|c p IH]; intros s.
  - rewrite prefix_nil. split; [intros _; now exists s | reflexivity].
  - destruct s as [|d s].
    + split; [discriminate | intros [rest H]; discriminate].
    + rewrite prefix_cons. destruct (ascii_dec c d) as [->|Hne].
      * rewrite IH. split; intros [rest H]; exists rest.
        -- simpl. now rewrite H.
        -- simpl in H. now injection H.
      * split; [discriminate | intros [rest H]; simpl in H; injection H; congruence].
Qed.

Lemma includes_spec (s needle : string) :
  includes s needle = true <-> Spec.occurs needle s.
Proof.
  unfold Spec.occurs. induction s as [|c s IH].
  - cbn [includes]. rewrite orb_false_r, prefix_spec. split.
    + intros [rest H]. now exists EmptyString, rest.
    + intros [[|b before] [after H]]; [now exists after | discriminate].
  - cbn [includes]. rewrite orb_true_iff, prefix_spec, IH. split.
    + intros [[rest H] | (before & after & H)].
      * now exists EmptyString, rest.
      * exists (String c before), after. now rewrite H.
    + intros ([|b before] & after & H).
      * left. now exists after.
      * right. injection H as _ H. now exists before, after.
Qed.

Lemma includes_char_cons (c x : ascii) (s : string) :
  includes_char (String x s) c = Ascii.eqb x c || includes_char s c.
Proof.
  unfold includes_char. cbn [includes]. rewrite prefix_cons, prefix_nil.
  destruct (ascii_dec c x) as [->|Hne].
  - now rewrite Ascii.eqb_refl.
  - destruct (Ascii.eqb_spec x c); [congruence | reflexivity].
Qed.

Lemma includes_char_nil (c : ascii) : includes_char EmptyString c = false.
Proof. reflexivity. Qed.

End StringFacts.

(* ================================================================== *)
(** * CSV escaping *)
(* ================================================================== *)

Section EscapeCSV.

Lemma includes_false_not_occurs (s needle : string) :
  includes s needle = false -> ~ Spec.occurs needle s.
Proof.
  intros H Hocc. apply includes_spec in Hocc. congruence.
Qed.

Lemma occurs_char_iff (c : ascii) (s : string) :
  includes_char s c = true <-> Spec.occurs (String c "") s.
Proof. apply includes_spec. Qed.

Lemma unquote_wrapped_tail (s : string) :
  Spec.unquote (replace_all dquote doubled_quote s ++ String dquote "")
  = Some s.
Proof.
  induction s as [|c s IH].
  - reflexivity.
  - cbn [replace_all]. destruct (Ascii.eqb_spec c dquote) as [->|Hne].
    + change (doubled_quote ++ replace_all dquote doubled_quote s)
        with (String dquote (String dquote (replace_all dquote doubled_quote s))).
      cbn [append Spec.unquote]. rewrite Ascii.eqb_refl.
      cbn [append] in IH. now rewrite IH.
    + cbn [append Spec.unquote].
      destruct (Ascii.eqb_spec c dquote); [contradiction|].
      now rewrite IH.
Qed.

Lemma readField_wrapped (s : string) : Spec.readField (wrapped s) = Some s.
Proof.
  unfold wrapped, Spec.readField. rewrite Ascii.eqb_refl.
  apply unquote_wrapped_tail.
Qed.

Lemma readField_plain (s : string) :
  includes_char s comma = false ->
  includes_char s dquote = false ->
  includes_char s newline = false ->
  includes_char s Spec.carriage_return = false ->
  Spec.readField s = Some s.
Proof.
  intros Hc Hq Hn Hr. destruct s as [|c s]; [reflexivity|].
  unfold Spec.readField. rewrite Hc, Hq, Hn, Hr.
  rewrite includes_char_cons in Hq. apply orb_false_iff in Hq as [Hq _].
  now rewrite Hq.
Qed.

Lemma escapeCSV_cases (value : string) :
  CSVExportService.escapeCSV value
  = if includes_char value comma || includes_char value dquote
       || includes_char value newline
    then wrapped value else value.
Proof.
  unfold CSVExportService.escapeCSV. destruct value; reflexivity.
Qed.

End EscapeCSV.

(** C8.  [escapeCSV], in the CSV exporter and in the pricing exporter
    alike, wraps a value in double quotes, doubling the quotes inside, exactly
    when a comma, a double quote or a newline occurs in it, and returns it
    unchanged otherwise.  The example value [acme] becomes [acme_escaped],
    and an RFC 4180 field reader recovers the value from the escaped field
    (for every value that holds no bare carriage return, which [escapeCSV]
    leaves unquoted). *)
Theorem escapeCSV_wraps_iff_special_and_round_trips (value : string) :
  let special :=
    Spec.occurs "," value \/ Spec.occurs (String dquote "") value
    \/ Spec.occurs (String newline "") value in
  (special -> CSVExportService.escapeCSV value = wrapped value)
  /\ (~ special -> CSVExportService.escapeCSV value = value)
  /\ PricingExportService.escapeCSV value = CSVExportService.escapeCSV value
  /\ (~ Spec.occurs (String Spec.carriage_return "") value ->
      Spec.readField (CSVExportService.escapeCSV value) = Some value)
  /\ CSVExportService.escapeCSV acme = acme_escaped
  /\ Spec.readField acme_escaped = Some acme.
Proof.
  intros special.
  assert (Hsp : special <->
                includes_char value comma || includes_char value dquote
                || includes_char value newline = true).
  { unfold special. rewrite !orb_true_iff, !occurs_char_iff.
    unfold comma. tauto. }
  repeat split.
  - intros H. apply Hsp in H. now rewrite escapeCSV_cases, H.
  - intros H. rewrite escapeCSV_cases.
    destruct (includes_char value comma || includes_char value dquote
              || includes_char value newline); [|reflexivity].
    exfalso. apply H, Hsp. reflexivity.
  - intros Hcr. rewrite escapeCSV_cases.
    destruct (includes_char value comma || includes_char value dquote
              || includes_char value newline) eqn:E.
    + apply readField_wrapped.
    + apply orb_false_iff in E as [E Hn]. apply orb_false_iff in E as [Hc Hq].
      apply readField_plain; try assumption.
      destruct (includes_char value Spec.carriage_return) eqn:R; [|reflexivity].
      exfalso. apply Hcr. now apply occurs_char_iff.
Qed.

(** The round trip of C8 at the specification's example. *)
Lemma escapeCSV_round_trip_acme :
  Spec.readField (CSVExportService.escapeCSV acme) = Some acme.
Proof.
  apply (proj1 (proj2 (proj2 (proj2
           (escapeCSV_wraps_iff_special_and_round_trips acme))))).
  apply includes_false_not_occurs. reflexivity.
Defined.

(* ================================================================== *)
(** * Threat level *)
(* ================================================================== *)

Section ThreatLevel.

Lemma existsb_high (threats : list string) :
  existsb (fun t => includes t "Invalid SSL" || includes t "No SSL") threats
  = true <-> Exists mentions_high threats.
Proof.
  rewrite existsb_exists, Exists_exists. unfold mentions_high.
  split; intros (t & Hin & H); exists t; split; trivial.
  - apply orb_true_iff in H. now rewrite <- !includes_spec.
  - apply orb_true_iff. now rewrite !includes_spec.
Qed.

Lemma existsb_medium (threats : list string) :
  existsb (fun t => includes t "expires") threats = true
  <-> Exists mentions_medium threats.
Proof.
  rewrite existsb_exists, Exists_exists. unfold mentions_medium.
  split; intros (t & Hin & H); exists t; split; trivial;
    now apply includes_spec.
Qed.

End ThreatLevel.

(** C4.  The threat level derived from a list of findings is LOW for the
    empty list, HIGH when some finding contains the text Invalid SSL or
    No SSL, otherwise MEDIUM when some finding contains expires, and LOW
    otherwise. *)
Theorem getThreatLevel_by_finding_text (threats : list string) :
  (threats = [] -> CSVExportService.getThreatLevel threats = "LOW")
  /\ (Exists mentions_high threats ->
      CSVExportService.getThreatLevel threats = "HIGH")
  /\ (~ Exists mentions_high threats -> Exists mentions_medium threats ->
      CSVExportService.getThreatLevel threats = "MEDIUM")
  /\ (~ Exists mentions_high threats -> ~ Exists mentions_medium threats ->
      CSVExportService.getThreatLevel threats = "LOW").
Proof.
  assert (Hne : forall P : string -> Prop, Exists P threats ->
                  Nat.eqb (List.length threats) 0 = false).
  { intros P H. destruct threats; [inversion H | reflexivity]. }
  assert (Hhigh : ~ Exists mentions_high threats ->
            existsb (fun t => includes t "Invalid SSL" || includes t "No SSL")
              threats = false).
  { intros H. apply not_true_is_false. now rewrite existsb_high. }
  unfold CSVExportService.getThreatLevel. repeat split.
  - now intros ->.
  - intros H. rewrite (Hne _ H). apply existsb_high in H. now rewrite H.
  - intros Hh Hm. rewrite (Hne _ Hm), (Hhigh Hh).
    apply existsb_medium in Hm. now rewrite Hm.
  - intros Hh Hm. rewrite (Hhigh Hh).
    replace (existsb (fun t => includes t "expires") threats) with false.
    + now destruct (Nat.eqb (List.length threats) 0).
    + symmetry. apply not_true_is_false. now rewrite existsb_medium.
Qed.

(** C4 on the findings of a certificate that expires in ten days. *)
Lemma getThreatLevel_medium_example :
  CSVExportService.getThreatLevel ["SSL expires in 10 days"] = "MEDIUM".
Proof.
  apply (proj1 (proj2 (proj2
           (getThreatLevel_by_finding_text ["SSL expires in 10 days"])))).
  - intros H. apply existsb_high in H. discriminate H.
  - apply existsb_medium. reflexivity.
Defined.

(* ================================================================== *)
(** * Threat findings *)
(* ================================================================== *)


Lemma day_in_milliseconds : (1000 * 60 * 60 * 24)%float = 86400000%float.
Proof. reflexivity. Qed.

(** C3 (as the code has it).  The findings of a report are those of the
    four rules evaluated in the order: certificate about to expire, no
    certificate, domain registered recently, certificate marked invalid;
    every rule that applies contributes its finding, in that order. *)
Theorem assessThreats_follows_code_order
    (numberToString : number -> string) (Date_getTime : string -> number)
    (Date_now : number) (info : DomainInfo) :
  CSVExportService.assessThreats numberToString Date_getTime Date_now info
  = ThreatRules.findings
      (ThreatRules.codeOrder numberToString Date_getTime Date_now) info.
Proof.
  unfold CSVExportService.assessThreats, ThreatRules.findings,
    ThreatRules.codeOrder, ThreatRules.expiresSoon, ThreatRules.noCertificate,
    ThreatRules.registeredRecently, ThreatRules.invalidCertificate, push,
    chain, num_lt.
  cbn [flat_map]. rewrite day_in_milliseconds.
  destruct (ssl info) as [certificate|];
    [destruct (daysUntilExpiry certificate) as [days|];
     [destruct (days <? 30)%float|];
     destruct (isValid certificate) as [[|]|] |];
  (destruct (whois info) as [record|];
   [destruct (registrationDate record) as [date|];
    [destruct (nonempty date);
     [destruct ((Date_now - Date_getTime date) / 86400000 <? 30)%float|]|]|]);
  reflexivity.
Qed.

(** C3 fails as stated: on an invalid certificate of a recently registered
    domain the code reports the registration before the certificate,
    the specified order the certificate before the registration. *)
Lemma assessThreats_not_in_specified_order :
  CSVExportService.assessThreats ThreatRules.plainNumber
    ThreatRules.dayAfter_getTime ThreatRules.dayAfter_now
    ThreatRules.invalidAndRecent
  = ["Domain registered recently"; "Invalid SSL certificate"]
  /\ ThreatRules.findings
       (ThreatRules.specifiedOrder ThreatRules.plainNumber
          ThreatRules.dayAfter_getTime ThreatRules.dayAfter_now)
       ThreatRules.invalidAndRecent
     = ["Invalid SSL certificate"; "Domain registered recently"]
  /\ CSVExportService.assessThreats ThreatRules.plainNumber
       ThreatRules.dayAfter_getTime ThreatRules.dayAfter_now
       ThreatRules.invalidAndRecent
     <> ThreatRules.findings
          (ThreatRules.specifiedOrder ThreatRules.plainNumber
             ThreatRules.dayAfter_getTime ThreatRules.dayAfter_now)
          ThreatRules.invalidAndRecent.
Proof.
  repeat split; try (vm_compute; reflexivity).
  vm_compute. discriminate.
Qed.

(* ================================================================== *)
(** * Ordering of numbers *)
(* ================================================================== *)

Section NumberOrder.

Lemma SFltb_trans (x y z : spec_float) :
  SFltb x y = true -> SFltb y z = true -> SFltb x z = true.
Proof.
  unfold SFltb, SFcompare.
  destruct x as [[]|[]| |[] mx ex], y as [[]|[]| |[] my ey],
           z as [[]|[]| |[] mz ez];
    try discriminate; try reflexivity;
    rewrite ?Pos.compare_cont_spec; simpl;
    destruct (Z.compare_spec ex ey), (Z.compare_spec ey ez),
             (Z.compare_spec ex ez);
    try discriminate; try reflexivity; try lia; subst;
    destruct (Pos.compare_spec mx my), (Pos.compare_spec my mz),
             (Pos.compare_spec mx mz);
    simpl; try discriminate; try reflexivity; try lia.
Qed.

Lemma SFltb_below_not_above (x y z : spec_float) :
  sf_not_nan z = true ->
  SFltb x y = true -> SFltb z y = false -> SFltb x z = true.
Proof.
  unfold SFltb, SFcompare.
  destruct x as [[]|[]| |[] mx ex], y as [[]|[]| |[] my ey],
           z as [[]|[]| |[] mz ez];
    try discriminate; try reflexivity;
    rewrite ?Pos.compare_cont_spec; simpl;
    destruct (Z.compare_spec ex ey), (Z.compare_spec ez ey),
             (Z.compare_spec ex ez);
    try discriminate; try reflexivity; try lia; subst;
    destruct (Pos.compare_spec mx my), (Pos.compare_spec mz my),
             (Pos.compare_spec mx mz);
    simpl; try discriminate; try reflexivity; try lia.
Qed.

Lemma SFltb_not_above_below (x y z : spec_float) :
  sf_not_nan z = true ->
  SFltb x z = false -> SFltb x y = true -> SFltb z y = true.
Proof.
  unfold SFltb, SFcompare.
  destruct x as [[]|[]| |[] mx ex], y as [[]|[]| |[] my ey],
           z as [[]|[]| |[] mz ez];
    try discriminate; try reflexivity;
    rewrite ?Pos.compare_cont_spec; simpl;
    destruct (Z.compare_spec ex ez), (Z.compare_spec ex ey),
             (Z.compare_spec ez ey);
    try discriminate; try reflexivity; try lia; subst;
    destruct (Pos.compare_spec mx mz), (Pos.compare_spec mx my),
             (Pos.compare_spec mz my);
    simpl; try discriminate; try reflexivity; try lia.
Qed.

Lemma SFltb_irrefl (x : spec_float) : SFltb x x = false.
Proof.
  unfold SFltb, SFcompare.
  destruct x as [[]|[]| |[] m e]; try reflexivity;
    rewrite Z.compare_refl, Pos.compare_cont_refl; reflexivity.
Qed.

Lemma not_nan_Prim2SF (x : number) :
  is_nan x = false -> sf_not_nan (Prim2SF x) = true.
Proof.
  unfold is_nan. rewrite FloatAxioms.eqb_spec. unfold SFeqb, SFcompare.
  destruct (Prim2SF x); try reflexivity. discriminate.
Qed.

Lemma num_lt_trans (x y z : number) :
  num_lt x y = true -> num_lt y z = true -> num_lt x z = true.
Proof. unfold num_lt. rewrite !ltb_spec. apply SFltb_trans. Qed.

Lemma num_lt_below_not_above (x y z : number) :
  is_nan z = false ->
  num_lt x y = true -> num_lt z y = false -> num_lt x z = true.
Proof.
  unfold num_lt. rewrite !ltb_spec. intros Hz.
  apply SFltb_below_not_above. now apply not_nan_Prim2SF.
Qed.

Lemma num_lt_not_above_below (x y z : number) :
  is_nan z = false ->
  num_lt x z = false -> num_lt x y = true -> num_lt z y = true.
Proof.
  unfold num_lt. rewrite !ltb_spec. intros Hz.
  apply SFltb_not_above_below. now apply not_nan_Prim2SF.
Qed.

Lemma num_lt_irrefl (x : number) : num_lt x x = false.
Proof. unfold num_lt. rewrite ltb_spec. apply SFltb_irrefl. Qed.

Lemma truthy_not_nan (v : number) : truthy v = true -> is_nan v = false.
Proof.
  unfold truthy. intros H. apply negb_true_iff, orb_false_iff in H. tauto.
Qed.

Lemma num_or_Infinity_not_nan (p : option number) :
  is_nan (num_or p Infinity) = false.
Proof.
  destruct p as [v|]; simpl; [|reflexivity].
  destruct (truthy v) eqn:E; [now apply truthy_not_nan | reflexivity].
Qed.

End NumberOrder.

(* ================================================================== *)
(** * Cheapest quote *)
(* ================================================================== *)

Section FirstMinimum.

Variable key : DomainPricing -> number.
Hypothesis key_not_nan : forall q, is_nan (key q) = false.

Lemma fold_cheaper_first_minimum (rest before after : list DomainPricing)
    (acc : DomainPricing) :
  (forall q, In q before -> num_lt (key acc) (key q) = true) ->
  (forall q, In q after -> num_lt (key q) (key acc) = false) ->
  first_minimum key (before ++ acc :: after ++ rest)%list
    (fold_left (cheaper key) rest acc).
Proof.
  revert before after acc.
  induction rest as [|c rest IH]; intros before after acc Hb Ha.
  - rewrite app_nil_r. now exists before, after.
  - cbn [fold_left]. unfold cheaper at 2.
    destruct (num_lt (key c) (key acc)) eqn:E.
    + replace (before ++ acc :: after ++ c :: rest)%list
        with ((before ++ acc :: after) ++ c :: [] ++ rest)%list
        by (rewrite <- app_assoc; reflexivity).
      apply IH.
      * intros q Hq. apply in_app_or in Hq as [Hq | [<- | Hq]].
        -- apply num_lt_trans with (key acc); auto.
        -- exact E.
        -- apply num_lt_below_not_above with (key acc); auto.
      * intros q [].
    + replace (before ++ acc :: after ++ c :: rest)%list
        with (before ++ acc :: (after ++ [c]) ++ rest)%list
        by (rewrite <- (app_assoc after); reflexivity).
      apply IH; [exact Hb|].
      intros q Hq. apply in_app_or in Hq as [Hq | [<- | []]]; auto.
Qed.

Lemma reduce_cheaper_first_minimum (quotes : list DomainPricing) :
  quotes <> [] ->
  exists best, reduce (cheaper key) quotes = Some best
               /\ first_minimum key quotes best.
Proof.
  destruct quotes as [|first rest]; [congruence|]. intros _.
  exists (fold_left (cheaper key) rest first). split; [reflexivity|].
  apply (fold_cheaper_first_minimum rest [] []); intros q [].
Qed.

(** The first minimum is unique: two quotes with the property are the
    same element of the list. *)
Lemma first_minimum_unique (quotes : list DomainPricing)
    (b1 b2 : DomainPricing) :
  first_minimum key quotes b1 -> first_minimum key quotes b2 -> b1 = b2.
Proof.
  intros (p1 & s1 & E1 & Hb1 & Ha1) (p2 & s2 & E2 & Hb2 & Ha2).
  rewrite E1 in E2. apply app_eq_app in E2 as [l [[Hp Hs] | [Hp Hs]]].
  - destruct l as [|x l].
    + simpl in Hs. now injection Hs.
    + injection Hs as -> Hs. exfalso.
      assert (In x p1) as Hin
        by (rewrite Hp; apply in_or_app; right; now left).
      assert (In b1 s2) as Hin'
        by (rewrite Hs; apply in_or_app; right; now left).
      specialize (Hb1 _ Hin). specialize (Ha2 _ Hin'). congruence.
  - destruct l as [|x l].
    + simpl in Hs. now injection Hs.
    + injection Hs as -> Hs. exfalso.
      assert (In x p2) as Hin
        by (rewrite Hp; apply in_or_app; right; now left).
      assert (In b2 s1) as Hin'
        by (rewrite Hs; apply in_or_app; right; now left).
      specialize (Hb2 _ Hin). specialize (Ha1 _ Hin'). congruence.
Qed.

End FirstMinimum.

Section Cheapest.

Lemma validPricing_same (pricing : list DomainPricing) :
  CSVExportService.validPricing pricing
  = PricingExportService.validPricing pricing.
Proof. reflexivity. Qed.

Lemma validPricing_In (pricing : list DomainPricing) (q : DomainPricing) :
  In q (PricingExportService.validPricing pricing)
  <-> In q pricing /\ available q = true
      /\ truthy_opt (registrationPrice q) = true.
Proof.
  unfold PricingExportService.validPricing.
  rewrite filter_In, andb_true_iff. tauto.
Qed.

Lemma valid_regKey (pricing : list DomainPricing) (q : DomainPricing) :
  In q (PricingExportService.validPricing pricing) ->
  registrationPrice q = Some (regKey q) /\ truthy (regKey q) = true.
Proof.
  intros H. apply validPricing_In in H as (_ & _ & H).
  unfold regKey. destruct (registrationPrice q) as [v|]; [|discriminate].
  simpl in *. now rewrite H.
Qed.

Lemma cheapestReg_first_minimum (valid : list DomainPricing) :
  valid <> [] ->
  exists reg, PricingExportService.cheapestReg valid = Some reg
              /\ CSVExportService.cheapestReg valid = Some reg
              /\ first_minimum regKey valid reg.
Proof.
  intros H.
  destruct (reduce_cheaper_first_minimum regKey
              (fun q => num_or_Infinity_not_nan _) H) as (reg & E & M).
  exists reg. repeat split; assumption.
Qed.

Lemma cheapestRenewal_first_minimum (valid : list DomainPricing) :
  valid <> [] ->
  exists ren, PricingExportService.cheapestRenewal_of valid = Some ren
              /\ CSVExportService.cheapestRen valid = Some ren
              /\ first_minimum renKey valid ren.
Proof.
  intros H.
  destruct (reduce_cheaper_first_minimum renKey
              (fun q => num_or_Infinity_not_nan _) H) as (ren & E & M).
  exists ren. repeat split; assumption.
Qed.

Lemma renKey_usable (q : DomainPricing) :
  renKey q = match usable (renewalPrice q) with
             | Some p => p
             | None => Infinity
             end.
Proof.
  unfold renKey, usable, num_or.
  destruct (renewalPrice q) as [v|]; [destruct (truthy v)|]; reflexivity.
Qed.

(** On the registration axis the first minimum of the keys is the cheapest
    quote by the registration prices themselves. *)
Lemma first_minimum_regKey_cheapestOn (pricing : list DomainPricing)
    (reg : DomainPricing) :
  first_minimum regKey (PricingExportService.validPricing pricing) reg ->
  Spec.cheapestOn registrationPrice
    (PricingExportService.validPricing pricing) reg.
Proof.
  intros (before & after & E & Hb & Ha).
  assert (Hkey : forall q pq,
             In q (PricingExportService.validPricing pricing) ->
             registrationPrice q = Some pq -> pq = regKey q).
  { intros q pq Hin Hp. apply valid_regKey in Hin as [Hin _]. congruence. }
  exists before, after, (regKey reg). split; [exact E|]. split.
  - apply (valid_regKey pricing). rewrite E. apply in_elt.
  - split; intros q pq Hin Hp.
    + rewrite (Hkey q pq); auto. rewrite E. apply in_or_app. now left.
    + rewrite (Hkey q pq); auto. rewrite E. apply in_or_app. right. now right.
Qed.

(** On the renewal axis it is the cheapest quote by the usable renewal
    prices, as soon as one of them is below [Infinity]. *)
Lemma first_minimum_renKey_cheapestOn (valid : list DomainPricing)
    (ren : DomainPricing) :
  first_minimum renKey valid ren ->
  (exists q p, In q valid /\ usable (renewalPrice q) = Some p
               /\ num_lt p Infinity = true) ->
  Spec.cheapestOn (fun q => usable (renewalPrice q)) valid ren.
Proof.
  intros (before & after & E & Hb & Ha) (q0 & p0 & Hin0 & Hp0 & Hfin).
  assert (Hk0 : renKey q0 = p0) by (rewrite renKey_usable, Hp0; reflexivity).
  assert (Hren : num_lt (renKey ren) Infinity = true).
  { rewrite E in Hin0. apply in_app_or in Hin0 as [Hin0 | [<- | Hin0]].
    - apply num_lt_trans with p0; [|exact Hfin].
      rewrite <- Hk0. now apply Hb.
    - now rewrite Hk0.
    - apply num_lt_not_above_below with p0; trivial.
      + apply num_or_Infinity_not_nan.
      + rewrite <- Hk0. now apply Ha. }
  destruct (usable (renewalPrice ren)) as [p|] eqn:Hp.
  - assert (Hk : renKey ren = p) by (rewrite renKey_usable, Hp; reflexivity).
    exists before, after, p. split; [exact E|]. split; [exact Hp|].
    split; intros q pq Hin Hq.
    + rewrite <- Hk. replace pq with (renKey q)
        by (rewrite renKey_usable, Hq; reflexivity).
      now apply Hb.
    + rewrite <- Hk. replace pq with (renKey q)
        by (rewrite renKey_usable, Hq; reflexivity).
      now apply Ha.
  - rewrite renKey_usable, Hp, num_lt_irrefl in Hren. discriminate.
Qed.

End Cheapest.

(** C5 (as the code has it).  On a non-empty list of valid quotes the
    cheapest registration and the cheapest renewal are, in the pricing
    exporter and in the CSV exporter alike, the first quote of the list with
    the least price on that axis, where a price that is absent, zero or NaN
    counts as [Infinity]: the quote is strictly below every quote before it,
    and no quote after it is strictly below.  The property determines the
    quote, so the choice is a function of the list alone.  Every valid quote
    has a usable registration price, so the cheapest registration is the first
    minimum of the registration prices themselves; the cheapest renewal is the
    first minimum of the usable renewal prices, when there is one. *)
Theorem cheapest_is_first_minimum (toFixed2 : number -> string)
    (result : DomainAvailabilityResult) :
  let valid := PricingExportService.validPricing (pricing result) in
  valid <> [] ->
  exists reg ren,
    first_minimum regKey valid reg
    /\ first_minimum renKey valid ren
    /\ (forall q, first_minimum regKey valid q -> q = reg)
    /\ (forall q, first_minimum renKey valid q -> q = ren)
    /\ Spec.cheapestOn registrationPrice valid reg
    /\ ((exists q p, In q valid /\ usable (renewalPrice q) = Some p
                     /\ num_lt p Infinity = true) ->
        Spec.cheapestOn (fun q => usable (renewalPrice q)) valid ren)
    /\ PricingExportService.cheapestRegistration
         (PricingExportService.analyzePricing (pricing result))
       = Some {| PricingExportService.cheapest_provider := provider reg;
                 PricingExportService.price := registrationPrice reg;
                 PricingExportService.cheapest_currency := currency reg |}
    /\ PricingExportService.cheapestRenewal
         (PricingExportService.analyzePricing (pricing result))
       = Some {| PricingExportService.cheapest_provider := provider ren;
                 PricingExportService.price := renewalPrice ren;
                 PricingExportService.cheapest_currency := currency ren |}
    /\ CSVExportService.bestRegProvider
         (CSVExportService.processPricingData toFixed2 (Some result))
       = provider reg
    /\ CSVExportService.bestRenewalProvider
         (CSVExportService.processPricingData toFixed2 (Some result))
       = provider ren
    /\ CSVExportService.cheapestRegistration
         (CSVExportService.processPricingData toFixed2 (Some result))
       = CSVExportService.dollars toFixed2 (registrationPrice reg)
    /\ CSVExportService.cheapestRenewal
         (CSVExportService.processPricingData toFixed2 (Some result))
       = CSVExportService.dollars toFixed2 (renewalPrice ren).
Proof.
  intros valid Hne.
  destruct (cheapestReg_first_minimum Hne) as (reg & Ereg & Ereg' & Mreg).
  destruct (cheapestRenewal_first_minimum Hne) as (ren & Eren & Eren' & Mren).
  exists reg, ren.
  split; [exact Mreg|]. split; [exact Mren|].
  split.
  { intros q Hq.
    exact (first_minimum_unique Hq Mreg). }
  split.
  { intros q Hq.
    exact (first_minimum_unique Hq Mren). }
  split; [now apply first_minimum_regKey_cheapestOn|].
  split; [now apply first_minimum_renKey_cheapestOn|].
  unfold PricingExportService.analyzePricing,
    CSVExportService.processPricingData.
  change (CSVExportService.validPricing (pricing result)) with valid.
  change (PricingExportService.validPricing (pricing result)) with valid.
  rewrite Ereg, Eren, Ereg', Eren'. cbn. repeat split.
Qed.

(* ================================================================== *)
(** * Example runs *)
(* ================================================================== *)

Section ExampleRuns.

Lemma estimatedCom_providers :
  map (fun q => (provider q, registrationPrice q, renewalPrice q))
      Examples.estimatedComQuotes
  = [ ("Cloudflare", Some 9.77, Some 9.77);
      ("Namecheap", Some 10.99, Some 13.99);
      ("Porkbun", Some 8.97, Some 9.73);
      ("GoDaddy", Some 11.99, Some 17.99);
      ("Name.com", Some 10.99, Some 12.99) ]%float.
Proof. vm_compute. reflexivity. Qed.

Lemma scrapedQuotes_shape :
  map (fun q => (provider q, available q, registrationPrice q))
      Examples.scrapedQuotes
  = [ ("Cloudflare", false, None);
      ("Namecheap", true, Some 8.88%float);
      ("Porkbun", true, Some 9.13%float);
      ("GoDaddy", false, None);
      ("Name.com", false, None) ]
  /\ nth_error Examples.scrapedQuotes 1 = Some Examples.namecheapScraped
  /\ nth_error Examples.scrapedOnlyQuotes 1 = Some Examples.namecheapScraped.
Proof. vm_compute. repeat split. Qed.

End ExampleRuns.

(** C5 on the five estimated quotes for [example.com]: Porkbun is the
    cheapest on both axes. *)
Lemma cheapest_is_first_minimum_estimatedCom :
  exists reg ren,
    first_minimum regKey
      (PricingExportService.validPricing Examples.estimatedComQuotes) reg
    /\ first_minimum renKey
         (PricingExportService.validPricing Examples.estimatedComQuotes) ren
    /\ provider reg = "Porkbun" /\ registrationPrice reg = Some 8.97%float
    /\ provider ren = "Porkbun" /\ renewalPrice ren = Some 9.73%float.
Proof.
  destruct (cheapest_is_first_minimum ThreatRules.plainNumber
              Examples.estimatedComResult)
    as (reg & ren & Mreg & Mren & _ & _ & _ & _ & Areg & Aren & _).
  - vm_compute. discriminate.
  - exists reg, ren. split; [exact Mreg|]. split; [exact Mren|].
    assert (Ereg : PricingExportService.cheapestRegistration
                     (PricingExportService.analyzePricing
                        (pricing Examples.estimatedComResult))
                   = Some {| PricingExportService.cheapest_provider := "Porkbun";
                             PricingExportService.price := Some 8.97%float;
                             PricingExportService.cheapest_currency := "USD" |})
      by (vm_compute; reflexivity).
    assert (Eren : PricingExportService.cheapestRenewal
                     (PricingExportService.analyzePricing
                        (pricing Examples.estimatedComResult))
                   = Some {| PricingExportService.cheapest_provider := "Porkbun";
                             PricingExportService.price := Some 9.73%float;
                             PricingExportService.cheapest_currency := "USD" |})
      by (vm_compute; reflexivity).
    rewrite Ereg in Areg. rewrite Eren in Aren.
    injection Areg as H1 H2 _. injection Aren as H3 H4 _.
    repeat split; symmetry; assumption.
Defined.

(** C5 fails as stated on the renewal axis: of two valid quotes the first
    renews at zero, and the second, which renews at 9.77, is reported as the
    cheapest renewal. *)
Lemma cheapest_renewal_skips_zero_price :
  let quotes := [Examples.freeRenewal; Examples.paidRenewal] in
  PricingExportService.validPricing quotes = quotes
  /\ renewalPrice Examples.freeRenewal = Some 0%float
  /\ renewalPrice Examples.paidRenewal = Some 9.77%float
  /\ num_lt 0%float 9.77%float = true
  /\ PricingExportService.cheapestRenewal
       (PricingExportService.analyzePricing quotes)
     = Some {| PricingExportService.cheapest_provider := "Cloudflare";
               PricingExportService.price := Some 9.77%float;
               PricingExportService.cheapest_currency := "USD" |}
  /\ CSVExportService.cheapestRen (CSVExportService.validPricing quotes)
     = Some Examples.paidRenewal
  /\ ~ Spec.cheapestOn renewalPrice quotes Examples.paidRenewal.
Proof.
  intros quotes. repeat split; try (vm_compute; reflexivity).
  intros (before & after & p & E & Hp & Hb & _).
  injection Hp as <-.
  assert (Hin : In Examples.freeRenewal before).
  { unfold quotes in E. destruct before as [|x before]; cbn [app] in E.
    - assert (H : provider Examples.freeRenewal
                  = provider Examples.paidRenewal) by congruence.
      discriminate H.
    - left. congruence. }
  specialize (Hb _ _ Hin eq_refl). vm_compute in Hb. discriminate.
Qed.

(* ================================================================== *)
(** * Which quotes are compared *)
(* ================================================================== *)

Section RangeAndMean.

Lemma above_zero_truthy (v : number) :
  num_lt 0%float v = true -> truthy v = true.
Proof.
  unfold num_lt, truthy, is_zero, is_nan.
  rewrite ltb_spec, !FloatAxioms.eqb_spec.
  change (Prim2SF 0%float) with (S754_zero false).
  change (Prim2SF PrimFloat.zero) with (S754_zero false).
  unfold SFltb, SFeqb, SFcompare.
  destruct (Prim2SF v) as [[]|[]| |[] m e]; try discriminate; try reflexivity;
    intros _; rewrite Z.compare_refl, Pos.compare_cont_refl; reflexivity.
Qed.

Lemma inRegistrationRange_price (q : DomainPricing) :
  inRegistrationRange q = true -> registrationPrice q = Some (regKey q).
Proof.
  unfold inRegistrationRange, regKey, num_or, truthy_opt.
  destruct (registrationPrice q) as [v|]; [|now rewrite andb_false_r].
  intros H. apply andb_prop in H as [H _]. apply andb_prop in H as [_ H].
  now rewrite H.
Qed.

Lemma inRenewalRange_price (q : DomainPricing) :
  inRenewalRange q = true -> renewalPrice q = Some (renKey q).
Proof.
  unfold inRenewalRange, renKey, num_or, above_zero.
  destruct (renewalPrice q) as [v|]; [|now rewrite andb_false_r].
  intros H. apply andb_prop in H as [_ H].
  now rewrite (@above_zero_truthy _ H).
Qed.

Lemma inRegistrationRange_In (pricing : list DomainPricing)
    (q : DomainPricing) :
  In q (filter inRegistrationRange pricing)
  <-> In q pricing /\ available q = true
      /\ exists v, registrationPrice q = Some v /\ num_lt 0%float v = true.
Proof.
  rewrite filter_In. unfold inRegistrationRange, truthy_opt, above_zero.
  split.
  - intros (Hin & H). apply andb_prop in H as [H Hpos].
    apply andb_prop in H as [Ha _].
    destruct (registrationPrice q) as [v|]; [|discriminate].
    repeat split; trivial. now exists v.
  - intros (Hin & Ha & v & -> & Hpos). split; [exact Hin|].
    now rewrite Ha, Hpos, (@above_zero_truthy _ Hpos).
Qed.

Lemma inRenewalRange_In (pricing : list DomainPricing) (q : DomainPricing) :
  In q (filter inRenewalRange pricing)
  <-> In q (PricingExportService.validPricing pricing)
      /\ exists v, renewalPrice q = Some v /\ num_lt 0%float v = true.
Proof.
  rewrite filter_In, validPricing_In. unfold inRenewalRange, above_zero.
  split.
  - intros (Hin & H). apply andb_prop in H as [H Hpos].
    apply andb_prop in H as [Ha Hp].
    destruct (renewalPrice q) as [v|]; [|discriminate].
    repeat split; trivial. now exists v.
  - intros ((Hin & Ha & Hp) & v & -> & Hpos). split; [exact Hin|].
    now rewrite Ha, Hp, Hpos.
Qed.

(** The prices of the range and of the mean of an axis are the prices of
    these quotes, in the order of the quotes. *)
Lemma positivePrices_registration (pricing : list DomainPricing) :
  PricingExportService.positivePrices
    (map registrationPrice (PricingExportService.validPricing pricing))
  = map regKey (filter inRegistrationRange pricing).
Proof.
  unfold PricingExportService.positivePrices,
    PricingExportService.validPricing.
  induction pricing as [|q rest IH]; [reflexivity|].
  cbn [filter]. unfold inRegistrationRange at 1.
  destruct (available q && truthy_opt (registrationPrice q)) eqn:Hvalid;
    [|exact IH].
  cbn [map flat_map andb]. rewrite IH. unfold above_zero.
  destruct (registrationPrice q) as [v|] eqn:Hprice; [|reflexivity].
  destruct (num_lt 0%float v) eqn:Hpos; [|reflexivity].
  cbn [map app]. f_equal.
  unfold regKey, num_or. now rewrite Hprice, (@above_zero_truthy _ Hpos).
Qed.

Lemma positivePrices_renewal (pricing : list DomainPricing) :
  PricingExportService.positivePrices
    (map renewalPrice (PricingExportService.validPricing pricing))
  = map renKey (filter inRenewalRange pricing).
Proof.
  unfold PricingExportService.positivePrices,
    PricingExportService.validPricing.
  induction pricing as [|q rest IH]; [reflexivity|].
  cbn [filter]. unfold inRenewalRange at 1.
  destruct (available q && truthy_opt (registrationPrice q)) eqn:Hvalid;
    [|exact IH].
  cbn [map flat_map andb]. rewrite IH. unfold above_zero.
  destruct (renewalPrice q) as [v|] eqn:Hprice; [|reflexivity].
  destruct (num_lt 0%float v) eqn:Hpos; [|reflexivity].
  cbn [map app]. f_equal.
  unfold renKey, num_or. now rewrite Hprice, (@above_zero_truthy _ Hpos).
Qed.

End RangeAndMean.

(** C2 (as the code has it).  A quote takes part in the price comparison
    exactly when it is available and carries a registration price that is
    usable (present, not zero, not NaN); whether its error annotation is set
    plays no role.  The analysis of a set of quotes is the analysis of these
    quotes alone, and it counts each of them.  Of these quotes the range and
    the mean of the registration prices take those priced above zero, that
    is the available quotes with a registration price above zero, and the
    range and the mean of the renewal prices take those with a renewal price
    above zero; range and mean are the least and the greatest of these
    prices, their difference, and their sum over their number. *)
Theorem compared_quotes_are_available_and_priced
    (pricing : list DomainPricing) :
  (forall q,
      In q (PricingExportService.validPricing pricing)
      <-> In q pricing /\ available q = true
          /\ exists v, registrationPrice q = Some v /\ is_zero v = false
                       /\ is_nan v = false)
  /\ CSVExportService.validPricing pricing
     = PricingExportService.validPricing pricing
  /\ PricingExportService.analyzePricing pricing
     = PricingExportService.analyzePricing
         (PricingExportService.validPricing pricing)
  /\ PricingExportService.providerCount
       (PricingExportService.analyzePricing pricing)
     = List.length (PricingExportService.validPricing pricing)
  /\ (forall toFixed2 domain isAvailable checkedAt,
        CSVExportService.processPricingData toFixed2
          (Some {| result_domain := domain; isAvailable := isAvailable;
                   pricing := pricing; checkedAt := checkedAt |})
        = CSVExportService.processPricingData toFixed2
            (Some {| result_domain := domain; isAvailable := isAvailable;
                     pricing := PricingExportService.validPricing pricing;
                     checkedAt := checkedAt |}))
  /\ (forall q,
        In q (filter inRegistrationRange pricing)
        <-> In q pricing /\ available q = true
            /\ exists v, registrationPrice q = Some v
                         /\ num_lt 0%float v = true)
  /\ (forall q,
        In q (filter inRenewalRange pricing)
        <-> In q (PricingExportService.validPricing pricing)
            /\ exists v, renewalPrice q = Some v /\ num_lt 0%float v = true)
  /\ let analysis := PricingExportService.analyzePricing pricing in
     let regPrices := map regKey (filter inRegistrationRange pricing) in
     let renewalPrices := map renKey (filter inRenewalRange pricing) in
     (forall q, In q (filter inRegistrationRange pricing) ->
        registrationPrice q = Some (regKey q))
     /\ (forall q, In q (filter inRenewalRange pricing) ->
          renewalPrice q = Some (renKey q))
     /\ PricingExportService.avgRegistrationPrice analysis
        = match regPrices with
          | [] => None
          | _ :: _ => Some (Js.sum regPrices / length_num regPrices)%float
          end
     /\ PricingExportService.avgRenewalPrice analysis
        = match renewalPrices with
          | [] => None
          | _ :: _ =>
              Some (Js.sum renewalPrices / length_num renewalPrices)%float
          end
     /\ PricingExportService.priceRange analysis
        = match PricingExportService.validPricing pricing with
          | [] => None
          | _ :: _ =>
              Some {| PricingExportService.registration :=
                        {| PricingExportService.min := Math_min regPrices;
                           PricingExportService.max := Math_max regPrices;
                           PricingExportService.spread :=
                             (Math_max regPrices - Math_min regPrices)%float |};
                      PricingExportService.renewal :=
                        match renewalPrices with
                        | [] => None
                        | _ :: _ =>
                            Some {| PricingExportService.min :=
                                      Math_min renewalPrices;
                                    PricingExportService.max :=
                                      Math_max renewalPrices;
                                    PricingExportService.spread :=
                                      (Math_max renewalPrices
                                       - Math_min renewalPrices)%float |}
                        end |}
          end.
Proof.
  assert (Hidem : PricingExportService.validPricing
                    (PricingExportService.validPricing pricing)
                  = PricingExportService.validPricing pricing).
  { unfold PricingExportService.validPricing.
    induction pricing as [|q rest IH]; [reflexivity|].
    cbn [filter].
    destruct (available q && truthy_opt (registrationPrice q)) eqn:E;
      [cbn [filter]; rewrite E, IH; reflexivity | exact IH]. }
  split.
  { intros q. rewrite validPricing_In. unfold truthy_opt, truthy.
    split.
    - intros (Hin & Ha & Hp). repeat split; trivial.
      destruct (registrationPrice q) as [v|]; [|discriminate].
      exists v. apply negb_true_iff, orb_false_iff in Hp. tauto.
    - intros (Hin & Ha & v & -> & Hz & Hn). now rewrite Hz, Hn. }
  split; [reflexivity|].
  split.
  { unfold PricingExportService.analyzePricing. now rewrite Hidem. }
  split.
  { unfold PricingExportService.analyzePricing,
      PricingExportService.cheapestReg,
      PricingExportService.cheapestRenewal_of.
    destruct (PricingExportService.validPricing pricing); reflexivity. }
  split.
  { intros toFixed2 domain isAvailable checkedAt.
    unfold CSVExportService.processPricingData. cbn [Types.pricing].
    change (CSVExportService.validPricing
              (PricingExportService.validPricing pricing))
      with (PricingExportService.validPricing
              (PricingExportService.validPricing pricing)).
    rewrite Hidem. reflexivity. }
  split; [apply inRegistrationRange_In|].
  split; [apply inRenewalRange_In|].
  intros analysis regPrices renewalPrices.
  subst analysis regPrices renewalPrices.
  split.
  { intros q Hq. apply filter_In in Hq as [_ Hq].
    now apply inRegistrationRange_price. }
  split.
  { intros q Hq. apply filter_In in Hq as [_ Hq].
    now apply inRenewalRange_price. }
  pose proof (positivePrices_registration pricing) as Hreg.
  pose proof (positivePrices_renewal pricing) as Hren.
  unfold PricingExportService.analyzePricing.
  destruct (PricingExportService.validPricing pricing) as [|first rest].
  - cbn in Hreg, Hren. rewrite <- Hreg, <- Hren. repeat split.
  - cbn [PricingExportService.cheapestReg
         PricingExportService.cheapestRenewal_of reduce
         PricingExportService.avgRegistrationPrice
         PricingExportService.avgRenewalPrice
         PricingExportService.priceRange].
    rewrite Hreg, Hren.
    unfold PricingExportService.average, PricingExportService.range_of.
    destruct (map regKey (filter inRegistrationRange pricing));
      destruct (map renKey (filter inRenewalRange pricing));
      repeat split.
Qed.

(** The amended C2 on a negative price: the quote is counted and is the
    cheapest, and range and mean are those of the other quote alone. *)
Lemma negative_price_compared_outside_range :
  let analysis :=
    PricingExportService.analyzePricing
      [Examples.refund; Examples.paidRenewal] in
  PricingExportService.providerCount analysis = 2
  /\ option_map PricingExportService.price
       (PricingExportService.cheapestRegistration analysis)
     = Some (Some (-5)%float)
  /\ option_map (fun range =>
                   PricingExportService.min
                     (PricingExportService.registration range))
       (PricingExportService.priceRange analysis)
     = Some 9.77%float
  /\ PricingExportService.avgRegistrationPrice analysis = Some 9.77%float
  /\ filter inRegistrationRange [Examples.refund; Examples.paidRenewal]
     = [Examples.paidRenewal].
Proof. vm_compute. repeat split. Qed.

(** C2 fails as stated: the quote the live service builds from Namecheap's
    scraped page is annotated with an error, hence not valid in the sense of
    the specification, and yet it is compared --- and wins. *)
Lemma error_annotated_quote_is_compared :
  In Examples.namecheapScraped Examples.scrapedQuotes
  /\ error Examples.namecheapScraped = Some "Live pricing via web scraping"
  /\ Spec.validQuote Examples.namecheapScraped = false
  /\ In Examples.namecheapScraped
       (PricingExportService.validPricing Examples.scrapedQuotes)
  /\ PricingExportService.cheapestRegistration
       (PricingExportService.analyzePricing Examples.scrapedQuotes)
     = Some {| PricingExportService.cheapest_provider := "Namecheap";
               PricingExportService.price := Some 8.88%float;
               PricingExportService.cheapest_currency := "USD" |}
  /\ ~ (forall q, In q Examples.scrapedQuotes ->
          (In q (PricingExportService.validPricing Examples.scrapedQuotes)
           <-> Spec.validQuote q = true)).
Proof.
  assert (Hin : In Examples.namecheapScraped
                  (PricingExportService.validPricing Examples.scrapedQuotes)).
  { vm_compute. left. reflexivity. }
  assert (Hall : In Examples.namecheapScraped Examples.scrapedQuotes).
  { now apply validPricing_In in Hin. }
  repeat split; try assumption; try (vm_compute; reflexivity).
  intros H. apply (H _ Hall) in Hin. vm_compute in Hin. discriminate.
Qed.

(* ================================================================== *)
(** * No valid quote *)
(* ================================================================== *)

(** C9 (as the code has it).  The analyzer returns the unavailable result
    --- no cheapest registration, no cheapest renewal, no price range, no
    averages, count zero --- exactly when no quote of the set is available
    with a usable registration price, whatever the error annotations. *)
Theorem analyzePricing_unavailable_iff_no_priced_quote
    (pricing : list DomainPricing) :
  (forall q, In q pricing ->
     available q && truthy_opt (registrationPrice q) = false)
  <-> PricingExportService.analyzePricing pricing
      = {| PricingExportService.cheapestRegistration := None;
           PricingExportService.cheapestRenewal := None;
           PricingExportService.priceRange := None;
           PricingExportService.avgRegistrationPrice := None;
           PricingExportService.avgRenewalPrice := None;
           PricingExportService.providerCount := 0 |}.
Proof.
  unfold PricingExportService.analyzePricing,
    PricingExportService.cheapestReg, PricingExportService.cheapestRenewal_of.
  destruct (PricingExportService.validPricing pricing) as [|v rest] eqn:E.
  - split; [reflexivity|]. intros _ q Hq.
    destruct (available q && truthy_opt (registrationPrice q)) eqn:Hv;
      [|reflexivity].
    assert (In q (PricingExportService.validPricing pricing)) as Hin.
    { apply validPricing_In. apply andb_true_iff in Hv. tauto. }
    rewrite E in Hin. destruct Hin.
  - split; [|discriminate]. intros H. exfalso.
    assert (In v (PricingExportService.validPricing pricing)) as Hin
      by (rewrite E; now left).
    apply validPricing_In in Hin as (Hin & Ha & Hp).
    specialize (H _ Hin). rewrite Ha, Hp in H. discriminate.
Qed.

(** C9 on the quotes of a run in which every provider failed. *)
Lemma analyzePricing_unavailable_all_failed :
  PricingExportService.analyzePricing
    [ DomainPricingService.Live.failedQuote "Cloudflare"
        DomainPricingService.Live.cloudflareUrl
        "Live API returned no pricing data";
      DomainPricingService.Live.failedQuote "GoDaddy"
        (DomainPricingService.Live.godaddyUrl "example.com")
        "No live pricing available" ]
  = PricingExportService.unavailable.
Proof.
  apply (proj1 (analyzePricing_unavailable_iff_no_priced_quote _)).
  intros q [<- | [<- | []]]; reflexivity.
Defined.

(** C9 fails as stated: when the only priced quote is the one scraped from
    Namecheap, no quote is valid in the sense of the specification, and the
    analyzer still computes prices. *)
Lemma analyzePricing_computed_without_valid_quote :
  filter Spec.validQuote Examples.scrapedOnlyQuotes = []
  /\ PricingExportService.analyzePricing Examples.scrapedOnlyQuotes
     <> PricingExportService.unavailable
  /\ PricingExportService.cheapestRegistration
       (PricingExportService.analyzePricing Examples.scrapedOnlyQuotes)
     = Some {| PricingExportService.cheapest_provider := "Namecheap";
               PricingExportService.price := Some 8.88%float;
               PricingExportService.cheapest_currency := "USD" |}
  /\ PricingExportService.providerCount
       (PricingExportService.analyzePricing Examples.scrapedOnlyQuotes) = 1.
Proof.
  repeat split; try (vm_compute; reflexivity).
  vm_compute. discriminate.
Qed.

(* ================================================================== *)
(** * Exported rows *)
(* ================================================================== *)

Section RowCount.

Variable numberToString : number -> string.
Variable toFixed2 : number -> string.
Variable Date_getTime : string -> number.
Variable Date_now : number.

Let addDomain :=
  CSVExportService.addDomain numberToString toFixed2 Date_getTime Date_now.

Lemma addDomain_length (csvData : list string) (info : DomainInfo) :
  List.length (addDomain csvData info) = S (List.length csvData).
Proof.
  unfold addDomain, CSVExportService.addDomain, push.
  rewrite length_app. simpl. lia.
Qed.

Lemma addDomain_all_length (infos : list DomainInfo) (csvData : list string) :
  List.length (fold_left addDomain infos csvData)
  = List.length csvData + List.length infos.
Proof.
  revert csvData. induction infos as [|info infos IH]; intros csvData.
  - simpl. lia.
  - cbn [fold_left]. rewrite IH, addDomain_length. simpl. lia.
Qed.

Lemma addDomain_all_header (infos : list DomainInfo) (csvData : list string)
    (first : string) :
  hd_error csvData = Some first ->
  hd_error (fold_left addDomain infos csvData) = Some first.
Proof.
  revert csvData. induction infos as [|info infos IH]; intros csvData H.
  - exact H.
  - cbn [fold_left]. apply IH.
    unfold addDomain, CSVExportService.addDomain, push.
    destruct csvData; [discriminate | exact H].
Qed.

End RowCount.

(** C6.  After any sequence of [addDomain] calls on a fresh CSV exporter the
    row count, which excludes the header, is the number of calls, whatever
    the reports hold; the header stays the first line; and a report in which
    every optional member is absent still adds its, mostly blank, row. *)
Theorem getRowCount_counts_addDomain_calls
    (numberToString toFixed2 : number -> string)
    (Date_getTime : string -> number) (Date_now : number)
    (infos : list DomainInfo) :
  let addDomain :=
    CSVExportService.addDomain numberToString toFixed2 Date_getTime Date_now in
  let csvData := fold_left addDomain infos CSVExportService.constructor in
  CSVExportService.getRowCount csvData = List.length infos
  /\ hd_error csvData = Some CSVExportService.header
  /\ CSVExportService.getRowCount (addDomain csvData (blankReport "example.com"))
     = S (List.length infos)
  /\ addDomain CSVExportService.constructor (blankReport "example.com")
     = [ CSVExportService.header;
         "example.com,,,,,,,,,,,,,,,,,,,0,,Unknown,,,,,,HIGH,No SSL certificate detected" ].
Proof.
  intros addDomain csvData. unfold CSVExportService.getRowCount.
  repeat split.
  - unfold csvData, addDomain. rewrite addDomain_all_length. simpl. lia.
  - unfold csvData, addDomain. now apply addDomain_all_header.
  - unfold addDomain at 1. rewrite addDomain_length.
    unfold csvData, addDomain. rewrite addDomain_all_length. simpl. lia.
Qed.

(* ================================================================== *)
(** * Batches *)
(* ================================================================== *)

Section Paced.

Lemma paced_length (events : list DomainInspector.Event) :
  List.length (paced events) = 2 * List.length events - 1.
Proof.
  induction events as [|e [|e' rest] IH]; try reflexivity.
  change (paced (e :: e' :: rest))
    with (e :: DomainInspector.Pause 1500 :: paced (e' :: rest)).
  cbn [List.length] in *. lia.
Qed.

Lemma paced_last (events : list DomainInspector.Event)
    (d : DomainInspector.Event) :
  last (paced events) d = last events d.
Proof.
  induction events as [|e [|e' rest] IH]; try reflexivity.
  change (paced (e :: e' :: rest))
    with (e :: DomainInspector.Pause 1500 :: paced (e' :: rest)).
  change (last (e :: e' :: rest) d) with (last (e' :: rest) d).
  rewrite <- IH.
  assert (paced (e' :: rest) <> []) as Hne by (destruct rest; discriminate).
  destruct (paced (e' :: rest)); [congruence | reflexivity].
Qed.

End Paced.

Section Batches.

Variable domains : list string.
Variable k : nat.
Hypothesis k_positive : 0 < k.

Let n := List.length domains.
Let total := ceil_div n k.

Lemma below_total (j : nat) : j * k < n <-> j < total.
Proof.
  unfold total, ceil_div.
  pose proof (Nat.div_mod_eq (n + k - 1) k) as E.
  pose proof (Nat.mod_upper_bound (n + k - 1) k) as B.
  split; intros H; nia.
Qed.

Lemma total_le_n : total <= n.
Proof.
  destruct (Nat.le_gt_cases total n) as [H|H]; [exact H|].
  apply below_total in H. nia.
Qed.

Lemma loop_trace (fuel j : nat) :
  total - j < fuel ->
  DomainInspector.investigateMultiple_from fuel domains k (j * k)
  = Some (paced (map (event_at domains k) (seq j (total - j)))).
Proof.
  revert j. induction fuel as [|fuel IH]; intros j Hf; [lia|].
  cbn [DomainInspector.investigateMultiple_from]. fold n.
  destruct (Nat.ltb_spec (j * k) n) as [Hlt|Hge].
  - apply below_total in Hlt.
    replace (j * k + k) with (S j * k) by (simpl; lia).
    rewrite IH by lia.
    replace (total - j) with (S (total - S j)) by lia.
    cbn [seq map]. unfold event_at at 2, batch_at, floor_div.
    fold n total.
    rewrite Nat.div_mul by lia.
    replace (S j * k) with (j * k + k) by (simpl; lia).
    fold total.
    destruct (Nat.ltb_spec (j * k + k) n) as [Hnext|Hlast].
    + assert (S j < total) as Hn
        by (apply below_total; simpl; lia).
      replace (total - S j) with (S (total - S (S j))) by lia.
      reflexivity.
    + assert (~ S j < total) as Hn
        by (rewrite <- below_total; simpl; lia).
      replace (total - S j) with 0 by lia. reflexivity.
  - assert (~ j < total) as Hn by (rewrite <- below_total; lia).
    replace (total - j) with 0 by lia. reflexivity.
Qed.

Lemma batches_concat (d j : nat) :
  d = total - j ->
  List.concat (map (batch_at domains k) (seq j d)) = skipn (j * k) domains.
Proof.
  revert j. induction d as [|d IH]; intros j Hd.
  - cbn. symmetry. apply skipn_all2. fold n.
    assert (~ j < total) as Hn by lia. rewrite <- below_total in Hn. lia.
  - cbn [seq map List.concat]. rewrite IH by lia.
    unfold batch_at, slice.
    replace (j * k + k - j * k) with k by lia.
    replace (S j * k) with (k + j * k) by (simpl; lia).
    rewrite <- skipn_skipn. apply firstn_skipn.
Qed.

Lemma batch_length (j : nat) :
  List.length (batch_at domains k j) = Nat.min k (n - j * k).
Proof.
  unfold batch_at, slice. rewrite length_firstn, length_skipn.
  fold n. replace (j * k + k - j * k) with k by lia. reflexivity.
Qed.

End Batches.

(** C7.  For a positive concurrency limit the batch loop terminates and
    processes the domains in [ceil(n / limit)] batches: batch [j] holds the
    next [limit] domains of the list from position [j * limit] on, so
    the batches are consecutive, in input order, all of size [limit]
    except possibly the last, which is not empty.  The scheduler pauses
    between every two consecutive batches and not after the last. *)
Theorem investigateMultiple_partitions_into_batches
    (domains : list string) (parallelLimit : nat) :
  0 < parallelLimit ->
  let n := List.length domains in
  let total := ceil_div n parallelLimit in
  let batches := map (batch_at domains parallelLimit) (seq 0 total) in
  let events := map (event_at domains parallelLimit) (seq 0 total) in
  (forall fuel, n < fuel ->
     DomainInspector.investigateMultiple fuel domains parallelLimit
     = Some (paced events))
  /\ List.concat batches = domains
  /\ List.length batches = total
  /\ (forall j, S j < total ->
        List.length (batch_at domains parallelLimit j) = parallelLimit)
  /\ (forall j, j < total ->
        0 < List.length (batch_at domains parallelLimit j) <= parallelLimit)
  /\ List.length (paced events) = 2 * total - 1
  /\ (forall d, last (paced events) d = last events d).
Proof.
  intros Hk n total batches events.
  pose proof (total_le_n domains Hk) as Hle. fold n total in Hle.
  split.
  { intros fuel Hf. unfold DomainInspector.investigateMultiple.
    change 0 with (0 * parallelLimit).
    rewrite (loop_trace domains Hk) by (fold n total; lia).
    fold n total. now rewrite Nat.sub_0_r. }
  split.
  { unfold batches. rewrite (batches_concat domains Hk (d := total) 0).
    - reflexivity.
    - fold n total. lia. }
  split; [unfold batches; now rewrite length_map, length_seq|].
  split.
  { intros j Hj. rewrite (batch_length domains Hk).
    apply (below_total domains Hk) in Hj. simpl in Hj. lia. }
  split.
  { intros j Hj. rewrite (batch_length domains Hk).
    apply (below_total domains Hk) in Hj. lia. }
  split.
  { rewrite paced_length. unfold events.
    now rewrite length_map, length_seq. }
  intros d. apply paced_last.
Qed.

(** C7 on seven domains with limit three: batches of three, three and one,
    with a pause after the first and after the second. *)
Lemma investigateMultiple_seven_by_three :
  DomainInspector.investigateMultiple 8
    ["a.com"; "b.com"; "c.com"; "d.com"; "e.com"; "f.com"; "g.com"] 3
  = Some [ DomainInspector.ProcessBatch 1 3 ["a.com"; "b.com"; "c.com"];
           DomainInspector.Pause 1500;
           DomainInspector.ProcessBatch 2 3 ["d.com"; "e.com"; "f.com"];
           DomainInspector.Pause 1500;
           DomainInspector.ProcessBatch 3 3 ["g.com"] ].
Proof.
  rewrite (proj1 (investigateMultiple_partitions_into_batches
                    ["a.com"; "b.com"; "c.com"; "d.com"; "e.com"; "f.com";
                     "g.com"] (parallelLimit := 3) (Nat.lt_0_succ 2))
             8 (Nat.lt_succ_diag_r 7)).
  reflexivity.
Defined.

(* ================================================================== *)
(** * Slots of a report *)
(* ================================================================== *)

Section Slots.

Variable any : Type.
Variable service : DomainInspector.Source -> string -> Completion (option any).
Variable domain : string.

Lemma gatherIntelligence_settles (source : DomainInspector.Source) :
  settle (DomainInspector.gatherIntelligence service source domain)
  = fulfilled (gathered service domain source).
Proof.
  unfold DomainInspector.gatherIntelligence, gathered, try_catch.
  now destruct (service source domain).
Qed.

End Slots.

(** C1.  In the single-domain path the finished report has exactly the
    slots of the active sources, each holding what its own source resolved
    with: whois, dns and ssl always, network unless [quick], subdomains iff
    [subdomains], pricing iff [checkPricing].  The multi-domain path fills
    the first five slots in the same way and never the pricing slot,
    whatever [checkPricing] says. *)
Theorem investigate_fills_active_slots_investigateSingle_no_pricing
    (any : Type)
    (service : DomainInspector.Source -> string -> Completion (option any))
    (options : InspectionOptions) (domain : string) :
  let value := gathered service domain in
  exists single multi,
    DomainInspector.investigate service options domain = Return single
    /\ DomainInspector.investigateSingle service options domain = Return multi
    /\ DomainInspector.whois single
       = DomainInspector.Assigned (value DomainInspector.Whois)
    /\ DomainInspector.dns single
       = DomainInspector.Assigned (value DomainInspector.Dns)
    /\ DomainInspector.ssl single
       = DomainInspector.Assigned (value DomainInspector.Ssl)
    /\ DomainInspector.network single
       = (if quick options then DomainInspector.Unset
          else DomainInspector.Assigned (value DomainInspector.Network))
    /\ DomainInspector.subdomains single
       = (if opt_subdomains options
          then DomainInspector.Assigned (value DomainInspector.Subdomains)
          else DomainInspector.Unset)
    /\ DomainInspector.pricing single
       = (if checkPricing options
          then DomainInspector.Assigned (value DomainInspector.Pricing)
          else DomainInspector.Unset)
    /\ DomainInspector.whois multi = DomainInspector.whois single
    /\ DomainInspector.dns multi = DomainInspector.dns single
    /\ DomainInspector.ssl multi = DomainInspector.ssl single
    /\ DomainInspector.network multi = DomainInspector.network single
    /\ DomainInspector.subdomains multi = DomainInspector.subdomains single
    /\ DomainInspector.pricing multi = DomainInspector.Unset.
Proof.
  intros value.
  unfold DomainInspector.investigate, DomainInspector.investigateSingle,
    DomainInspector.investigate_promises,
    DomainInspector.investigateSingle_promises.
  destruct (quick options), (opt_subdomains options), (checkPricing options);
    cbn [app map]; rewrite !gatherIntelligence_settles;
    cbn; eexists; eexists; repeat split.
Qed.

(** C1 at the input on which the multi-domain path breaks it: pricing is
    requested, the pricing service answers, and the report of
    [investigateSingle] has no pricing slot while that of [investigate]
    has. *)
Lemma investigateSingle_drops_requested_pricing :
  let options := {| verbose := false; quick := false; banner := false;
                    exportCsv := None; exportJson := None;
                    opt_subdomains := false; checkPricing := true |} in
  let service := fun (source : DomainInspector.Source) (domain : string) =>
                   Return (Some source) in
  option_map (@DomainInspector.pricing _)
    (Examples.returned
       (DomainInspector.investigateSingle service options "example.com"))
  = Some DomainInspector.Unset
  /\ option_map (@DomainInspector.pricing _)
       (Examples.returned
          (DomainInspector.investigate service options "example.com"))
     = Some (DomainInspector.Assigned (Some DomainInspector.Pricing)).
Proof. split; reflexivity. Qed.

(* ================================================================== *)
(** * Availability and pricing of a domain *)
(* ================================================================== *)

Section FiveQuotes.

Import DomainPricingService.

Variable quickAvailabilityCheck : string -> Completion bool.
Variable checkCloudflare : string -> Completion DomainPricing.
Variable checkNamecheap : string -> Completion DomainPricing.
Variable checkPorkbun : string -> Completion DomainPricing.
Variable checkGoDaddy : string -> Completion DomainPricing.
Variable checkNamecom : string -> Completion DomainPricing.
Variable Date_new : string.
Variable domain : string.

Hypothesis quick_returns : exists b, quickAvailabilityCheck domain = Return b.
Hypothesis cloudflare_returns :
  exists q, checkCloudflare domain = Return q /\ provider q = "Cloudflare".
Hypothesis namecheap_returns :
  exists q, checkNamecheap domain = Return q /\ provider q = "Namecheap".
Hypothesis porkbun_returns :
  exists q, checkPorkbun domain = Return q /\ provider q = "Porkbun".
Hypothesis godaddy_returns :
  exists q, checkGoDaddy domain = Return q /\ provider q = "GoDaddy".
Hypothesis namecom_returns :
  exists q, checkNamecom domain = Return q /\ provider q = "Name.com".

Lemma checkAvailabilityAndPricing_shape :
  exists result,
    checkAvailabilityAndPricing quickAvailabilityCheck checkCloudflare
      checkNamecheap checkPorkbun checkGoDaddy checkNamecom Date_new domain
    = Return result
    /\ result_domain result = domain
    /\ quickAvailabilityCheck domain = Return (isAvailable result)
    /\ (if isAvailable result
        then map provider (pricing result) = providers
        else pricing result = []).
Proof.
  destruct quick_returns as [b Eb].
  destruct cloudflare_returns as (q1 & E1 & P1).
  destruct namecheap_returns as (q2 & E2 & P2).
  destruct porkbun_returns as (q3 & E3 & P3).
  destruct godaddy_returns as (q4 & E4 & P4).
  destruct namecom_returns as (q5 & E5 & P5).
  unfold checkAvailabilityAndPricing, pricingPromises. rewrite Eb.
  cbn [bind]. destruct b.
  - eexists. split; [reflexivity|]. cbn [result_domain isAvailable pricing].
    repeat split. rewrite E1, E2, E3, E4, E5. cbn.
    now rewrite P1, P2, P3, P4, P5.
  - eexists. split; [reflexivity|]. repeat split.
Qed.

End FiveQuotes.

Section SettledQuotes.

Import DomainPricingService.

Lemma mapi_from_nth (A B : Type) (f : A -> nat -> B) (xs : list A)
    (start index : nat) :
  nth_error (mapi_from f start xs) index
  = option_map (fun x => f x (start + index)) (nth_error xs index).
Proof.
  revert start index. induction xs as [|x xs IH]; intros start index.
  - now destruct index.
  - destruct index as [|index]; cbn.
    + now rewrite Nat.add_0_r.
    + rewrite IH. now replace (S start + index) with (start + S index) by lia.
Qed.

Lemma mapi_from_length (A B : Type) (f : A -> nat -> B) (xs : list A)
    (start : nat) :
  List.length (mapi_from f start xs) = List.length xs.
Proof.
  revert start. induction xs as [|x xs IH]; intros start; cbn; [|rewrite IH];
    reflexivity.
Qed.

End SettledQuotes.

Section EstimatedChecks.

Import DomainPricingService.

Variable axios_get_dns : string -> Completion (option DnsAnswer).
Variable domain : string.

Lemma estimated_quick_returns :
  exists b, Estimated.quickAvailabilityCheck axios_get_dns domain = Return b.
Proof.
  unfold Estimated.quickAvailabilityCheck.
  destruct (axios_get_dns domain); cbn; eexists; reflexivity.
Qed.

End EstimatedChecks.

Section LiveChecks.

Import DomainPricingService.

Variable axios_post_porkbun : string -> Completion (option Live.PorkbunCheck).
Variable axios_get_dns : string -> Completion (option DnsAnswer).
Variable helper : string -> Completion (option Live.LivePricing).
Variable helper' : string -> Completion (option Live.LivePricing).
Variable tld_helper : option string -> Completion (option Live.LivePricing).
Variable domain : string.

Lemma live_quick_returns :
  exists b,
    Live.quickAvailabilityCheck axios_post_porkbun axios_get_dns domain
    = Return b.
Proof.
  unfold Live.quickAvailabilityCheck, Live.checkPorkbunAvailability.
  destruct (axios_post_porkbun domain) as [[[[st|] [| |av]]|]|]; cbn;
    try destruct (String.eqb st "SUCCESS"); cbn;
    try (eexists; reflexivity);
    destruct (axios_get_dns domain); cbn; eexists; reflexivity.
Qed.

Lemma live_checkCloudflare_returns :
  exists q, Live.checkCloudflare tld_helper domain = Return q
            /\ provider q = "Cloudflare".
Proof.
  unfold Live.checkCloudflare.
  destruct (tld_helper (tld_of domain)) as [[[[reg|] ren]|]|]; cbn;
    eexists; split; reflexivity.
Qed.

Lemma live_checkPorkbun_returns :
  exists q, Live.checkPorkbun tld_helper domain = Return q
            /\ provider q = "Porkbun".
Proof.
  unfold Live.checkPorkbun.
  destruct (tld_helper (tld_of domain)) as [[[[reg|] ren]|]|]; cbn;
    eexists; split; reflexivity.
Qed.

Lemma live_checkNamecheap_returns :
  exists q, Live.checkNamecheap helper domain = Return q
            /\ provider q = "Namecheap".
Proof.
  unfold Live.checkNamecheap, Live.getNamecheapLivePricing.
  destruct (helper domain) as [[scraped|]|]; cbn; eexists; split; reflexivity.
Qed.

Lemma live_checkGoDaddy_returns :
  exists q, Live.checkGoDaddy helper domain = Return q
            /\ provider q = "GoDaddy".
Proof.
  unfold Live.checkGoDaddy.
  destruct (helper domain) as [[live|]|]; cbn; eexists; split; reflexivity.
Qed.

Lemma live_checkNamecom_returns :
  exists q, Live.checkNamecom helper helper' domain = Return q
            /\ provider q = "Name.com".
Proof.
  unfold Live.checkNamecom.
  destruct (helper domain) as [[live|]|]; cbn;
    try (eexists; split; reflexivity);
    destruct (helper' domain) as [[scraped|]|]; cbn;
    eexists; split; reflexivity.
Qed.

End LiveChecks.

(** C10.  In both revisions of the pricing service
    [checkAvailabilityAndPricing] returns for every domain and every behaviour
    of the network, never throwing; when the result is not available its
    pricing is empty, and when it is available its pricing holds the quotes of
    Cloudflare, Namecheap, Porkbun, GoDaddy and Name.com, in this order.
    Whatever the five provider calls do, an available result has five quotes,
    the one at a position being the value of the call at that position or,
    when that call rejected, the unavailable quote of the provider of that
    position, annotated with the reason. *)
Theorem checkAvailabilityAndPricing_resolves_with_five_quotes :
  DomainPricingService.providers
  = ["Cloudflare"; "Namecheap"; "Porkbun"; "GoDaddy"; "Name.com"]
  /\ (forall axios_get_dns Date_new domain,
        exists result,
          DomainPricingService.Estimated.checkAvailabilityAndPricing
            axios_get_dns Date_new domain = Return result
          /\ (if isAvailable result
              then map provider (pricing result)
                   = DomainPricingService.providers
              else pricing result = []))
  /\ (forall axios_post_porkbun axios_get_dns getCloudflareLivePricing
             scrapeNamecheapPricing getPorkbunLivePricing scrapeGoDaddyPricing
             getNamecomLivePricing scrapeNamecomPricing Date_new domain,
        exists result,
          DomainPricingService.Live.checkAvailabilityAndPricing
            axios_post_porkbun axios_get_dns getCloudflareLivePricing
            scrapeNamecheapPricing getPorkbunLivePricing scrapeGoDaddyPricing
            getNamecomLivePricing scrapeNamecomPricing Date_new domain
          = Return result
          /\ (if isAvailable result
              then map provider (pricing result)
                   = DomainPricingService.providers
              else pricing result = []))
  /\ (forall quickAvailabilityCheck checkCloudflare checkNamecheap
             checkPorkbun checkGoDaddy checkNamecom Date_new domain available,
        quickAvailabilityCheck domain = Return available ->
        exists result,
          DomainPricingService.checkAvailabilityAndPricing
            quickAvailabilityCheck checkCloudflare checkNamecheap checkPorkbun
            checkGoDaddy checkNamecom Date_new domain = Return result
          /\ isAvailable result = available
          /\ List.length (pricing result) = (if available then 5 else 0)
          /\ forall index call,
               available = true ->
               nth_error [checkCloudflare domain; checkNamecheap domain;
                          checkPorkbun domain; checkGoDaddy domain;
                          checkNamecom domain] index = Some call ->
               nth_error (pricing result) index
               = Some match call with
                      | Return value => value
                      | Throw reason => rejectedQuote index reason
                      end).
Proof.
  split; [reflexivity|]. split; [|split].
  - intros axios_get_dns Date_new domain.
    destruct (@checkAvailabilityAndPricing_shape
                (DomainPricingService.Estimated.quickAvailabilityCheck
                   axios_get_dns)
                DomainPricingService.Estimated.checkCloudflare
                DomainPricingService.Estimated.checkNamecheap
                DomainPricingService.Estimated.checkPorkbun
                DomainPricingService.Estimated.checkGoDaddy
                DomainPricingService.Estimated.checkNamecom
                Date_new domain)
      as (result & E & _ & _ & H);
      try (eexists; split; reflexivity).
    + apply estimated_quick_returns.
    + exists result. split; assumption.
  - intros axios_post_porkbun axios_get_dns getCloudflareLivePricing
      scrapeNamecheapPricing getPorkbunLivePricing scrapeGoDaddyPricing
      getNamecomLivePricing scrapeNamecomPricing Date_new domain.
    destruct (@checkAvailabilityAndPricing_shape
                (DomainPricingService.Live.quickAvailabilityCheck
                   axios_post_porkbun axios_get_dns)
                (DomainPricingService.Live.checkCloudflare
                   getCloudflareLivePricing)
                (DomainPricingService.Live.checkNamecheap
                   scrapeNamecheapPricing)
                (DomainPricingService.Live.checkPorkbun getPorkbunLivePricing)
                (DomainPricingService.Live.checkGoDaddy scrapeGoDaddyPricing)
                (DomainPricingService.Live.checkNamecom getNamecomLivePricing
                   scrapeNamecomPricing)
                Date_new domain)
      as (result & E & _ & _ & H).
    + apply live_quick_returns.
    + apply live_checkCloudflare_returns.
    + apply live_checkNamecheap_returns.
    + apply live_checkPorkbun_returns.
    + apply live_checkGoDaddy_returns.
    + apply live_checkNamecom_returns.
    + exists result. split; assumption.
  - intros quickAvailabilityCheck checkCloudflare checkNamecheap checkPorkbun
      checkGoDaddy checkNamecom Date_new domain available Hq.
    unfold DomainPricingService.checkAvailabilityAndPricing,
      DomainPricingService.pricingPromises.
    rewrite Hq. cbn [bind]. destruct available.
    + eexists. split; [reflexivity|]. cbn [isAvailable pricing].
      split; [reflexivity|]. split.
      * unfold mapi. now rewrite mapi_from_length, length_map.
      * intros index call _ Hcall. unfold mapi.
        rewrite mapi_from_nth, nth_error_map, Hcall. cbn.
        now destruct call.
    + eexists. split; [reflexivity|]. repeat split. discriminate.
Qed.

(** C10 on the live revision, on a network where only Namecheap's page and
    Porkbun's list answer: five quotes in the order of the providers. *)
Lemma checkAvailabilityAndPricing_scraped_run :
  map provider Examples.scrapedQuotes = DomainPricingService.providers
  /\ map available Examples.scrapedQuotes = [false; true; true; false; false].
Proof. split; vm_compute; reflexivity. Qed.

(** C10 when the first provider call rejects: the first of the five quotes
    is the unavailable Cloudflare quote that carries the reason. *)
Lemma checkAvailabilityAndPricing_rejected_slot :
  exists result,
    DomainPricingService.checkAvailabilityAndPricing
      (fun _ => Return true)
      (fun _ => Throw "socket hang up")
      (DomainPricingService.Estimated.checkNamecheap)
      (DomainPricingService.Estimated.checkPorkbun)
      (DomainPricingService.Estimated.checkGoDaddy)
      (DomainPricingService.Estimated.checkNamecom)
      Examples.noon "example.com" = Return result
    /\ List.length (pricing result) = 5
    /\ nth_error (pricing result) 0
       = Some {| provider := "Cloudflare"; available := false;
                 registrationPrice := None; renewalPrice := None;
                 currency := "USD"; url := "";
                 error := Some "socket hang up" |}.
Proof.
  destruct (proj2 (proj2 (proj2
              checkAvailabilityAndPricing_resolves_with_five_quotes))
              (fun _ : string => Return true)
              (fun _ : string => @Throw DomainPricing "socket hang up")
              DomainPricingService.Estimated.checkNamecheap
              DomainPricingService.Estimated.checkPorkbun
              DomainPricingService.Estimated.checkGoDaddy
              DomainPricingService.Estimated.checkNamecom
              Examples.noon "example.com" true eq_refl)
    as (result & E & _ & Hlen & Hslot).
  exists result. split; [exact E|]. split; [exact Hlen|].
  exact (Hslot 0 _ eq_refl eq_refl).
Defined.

(* ================================================================== *)
(** * The exported files read back *)
(* ================================================================== *)

Section CsvReader.

Import Csv.

Lemma option_map_id (A : Type) (x : option A) : option_map (fun a => a) x = x.
Proof. now destruct x. Qed.

Lemma option_map_compose (A B C : Type) (f : A -> B) (g : B -> C)
    (x : option A) :
  option_map g (option_map f x) = option_map (fun a => g (f a)) x.
Proof. now destruct x. Qed.

Lemma append_assoc (s t u : string) : (s ++ t) ++ u = s ++ (t ++ u).
Proof. induction s as [|c s IH]; [reflexivity | cbn; now rewrite IH]. Qed.

Lemma append_nil_r (s : string) : s ++ "" = s.
Proof. induction s as [|c s IH]; [reflexivity | cbn; now rewrite IH]. Qed.

Lemma field_end_modes (text : string) :
  at_field_end text ->
  read Plain text = read Start text /\ read Closing text = read Start text.
Proof.
  intros [-> | [[rest ->] | [rest ->]]]; split; reflexivity.
Qed.

Lemma record_end_is_field_end (text : string) :
  at_record_end text -> at_field_end text.
Proof. intros [H | H]; [now left | right; now right]. Qed.

Lemma includes_char_app (c : ascii) (s t : string) :
  includes_char (s ++ t) c = includes_char s c || includes_char t c.
Proof.
  induction s as [|x s IH]; [reflexivity|].
  cbn [append]. rewrite !includes_char_cons, IH. now rewrite orb_assoc.
Qed.

(** An unquoted value is read character by character. *)
Lemma read_plain_value (value rest : string) :
  includes_char value comma = false ->
  includes_char value dquote = false ->
  includes_char value newline = false ->
  includes_char value Spec.carriage_return = false ->
  read Plain (value ++ rest)
  = option_map (add_string value) (read Plain rest).
Proof.
  induction value as [|c value IH]; intros Hc Hq Hn Hr.
  - cbn. now rewrite option_map_id.
  - rewrite includes_char_cons in Hc, Hq, Hn, Hr.
    apply orb_false_iff in Hc as [Hc Hc'], Hq as [Hq Hq'],
        Hn as [Hn Hn'], Hr as [Hr Hr'].
    cbn [append read]. rewrite Hq, Hc, Hn, Hr, IH by assumption.
    now rewrite option_map_compose.
Qed.

(** The body of a quoted value is read up to its closing quote. *)
Lemma read_quoted_value (value rest : string) :
  read Quoted (replace_all dquote doubled_quote value ++ String dquote rest)
  = option_map (add_string value) (read Closing rest).
Proof.
  induction value as [|c value IH].
  - cbn [replace_all append read]. rewrite Ascii.eqb_refl.
    now rewrite option_map_id.
  - cbn [replace_all]. destruct (Ascii.eqb_spec c dquote) as [->|Hne].
    + change (doubled_quote ++ replace_all dquote doubled_quote value)
        with (String dquote
                (String dquote (replace_all dquote doubled_quote value))).
      cbn [append read]. rewrite !Ascii.eqb_refl.
      cbn [append] in IH. rewrite IH. now rewrite option_map_compose.
    + cbn [append read].
      destruct (Ascii.eqb_spec c dquote); [contradiction|].
      rewrite IH. now rewrite option_map_compose.
Qed.

(** An escaped value followed by the end of its field reads as the value. *)
Lemma read_escaped_value (value rest : string) :
  at_field_end rest -> noCR value ->
  read Start (CSVExportService.escapeCSV value ++ rest)
  = option_map (add_string value) (read Start rest).
Proof.
  intros Hend Hr. destruct (field_end_modes Hend) as [Hplain Hclosing].
  rewrite escapeCSV_cases.
  destruct (includes_char value comma || includes_char value dquote
            || includes_char value newline) eqn:E.
  - unfold wrapped. cbn [append read]. rewrite Ascii.eqb_refl.
    rewrite append_assoc. cbn [append].
    now rewrite read_quoted_value, Hclosing.
  - apply orb_false_iff in E as [E Hn]. apply orb_false_iff in E as [Hc Hq].
    destruct value as [|c value].
    + cbn. now rewrite option_map_id.
    + pose proof Hc as Hc0. pose proof Hq as Hq0. pose proof Hn as Hn0.
      pose proof Hr as Hr0. unfold noCR in Hr0.
      rewrite includes_char_cons in Hc0, Hq0, Hn0, Hr0.
      apply orb_false_iff in Hc0 as [Hc1 Hc2], Hq0 as [Hq1 Hq2],
          Hn0 as [Hn1 Hn2], Hr0 as [Hr1 Hr2].
      cbn [append read]. rewrite Hq1, Hc1, Hn1, Hr1.
      rewrite read_plain_value, Hplain by assumption.
      now rewrite option_map_compose.
Qed.

Lemma read_after_comma (text : string) :
  read Start ("," ++ text) = option_map new_field (read Start text).
Proof. reflexivity. Qed.

Lemma read_after_newline (text : string) :
  read Start (String newline "" ++ text)
  = option_map new_record (read Start text).
Proof. reflexivity. Qed.

Lemma join_cons2 (sep x y : string) (rest : list string) :
  join sep (x :: y :: rest) = x ++ sep ++ join sep (y :: rest).
Proof. reflexivity. Qed.

(** A line followed by the end of its record reads as the record's
    fields. *)
Lemma read_line (fields : list string) (rest : string) :
  fields <> [] -> at_record_end rest -> Forall noCR fields ->
  read Start (line fields ++ rest)
  = option_map (add_fields fields) (read Start rest).
Proof.
  intros Hne Hend Hcr. induction fields as [|f [|g fields] IH];
    [congruence | |].
  - unfold line. cbn [map join String.concat add_fields].
    apply read_escaped_value.
    + now apply record_end_is_field_end.
    + now inversion Hcr.
  - unfold line in *. cbn [map]. rewrite join_cons2.
    rewrite !append_assoc.
    rewrite read_escaped_value.
    + rewrite read_after_comma. cbn [map] in IH. rewrite IH.
      * rewrite !option_map_compose. reflexivity.
      * discriminate.
      * now inversion Hcr.
    + right; left. eexists. reflexivity.
    + now inversion Hcr.
Qed.

Lemma add_string_fresh (value : string) (fields : list string)
    (records : Records) :
  add_string value (("" :: fields) :: records)
  = (value :: fields) :: records.
Proof.
  induction value as [|c value IH]; [reflexivity|].
  cbn [add_string]. now rewrite IH.
Qed.

Lemma add_fields_fresh (fields : list string) (records : Records) :
  fields <> [] ->
  add_fields fields ([""] :: records) = fields :: records.
Proof.
  induction fields as [|f [|g fields] IH]; intros Hne; [congruence | |].
  - cbn [add_fields]. apply add_string_fresh.
  - change (add_fields (f :: g :: fields) ([""] :: records))
      with (add_string f (new_field (add_fields (g :: fields)
                                       ([""] :: records)))).
    rewrite IH by discriminate. cbn [new_field]. apply add_string_fresh.
Qed.

(** Lines joined by line feeds read back as their records. *)
Lemma parse_lines (records : Records) :
  records <> [] ->
  Forall (fun fields => fields <> [] /\ Forall noCR fields) records ->
  parse (join (String newline "") (map line records)) = Some records.
Proof.
  unfold parse. intros Hne Hall.
  induction records as [|fields [|fields' records] IH]; [congruence | |].
  - cbn [map join String.concat]. inversion_clear Hall as [|? ? [Hf Hcr] _].
    rewrite <- (append_nil_r (line fields)) at 1.
    rewrite read_line by (trivial; now left).
    cbn [read option_map]. unfold end_of_text.
    now rewrite add_fields_fresh.
  - cbn [map]. rewrite join_cons2.
    inversion_clear Hall as [|? ? [Hf Hcr] Hrest].
    rewrite read_line; trivial.
    + rewrite read_after_newline. cbn [map] in IH.
      rewrite IH by (trivial; discriminate).
      cbn [option_map]. unfold new_record. now rewrite add_fields_fresh.
    + right. eexists. reflexivity.
Qed.

End CsvReader.

Section ExportedLines.

Variable numberToString : number -> string.
Variable toFixed2 : number -> string.
Variable Date_getTime : string -> number.
Variable Date_now : number.

Lemma csvRow_line (info : DomainInfo) :
  CSVExportService.csvRow numberToString toFixed2 Date_getTime Date_now info
  = line (rowFields numberToString toFixed2 Date_getTime Date_now info).
Proof. reflexivity. Qed.

Lemma header_line : CSVExportService.header = line headerFields.
Proof. reflexivity. Qed.

Lemma addDomain_all_rows (infos : list DomainInfo) (csvData : list string) :
  fold_left
    (CSVExportService.addDomain numberToString toFixed2 Date_getTime Date_now)
    infos csvData
  = (csvData
     ++ map (CSVExportService.csvRow numberToString toFixed2 Date_getTime
               Date_now) infos)%list.
Proof.
  revert csvData. induction infos as [|info infos IH]; intros csvData.
  - cbn. now rewrite app_nil_r.
  - cbn [fold_left map]. rewrite IH.
    unfold CSVExportService.addDomain, push. now rewrite <- app_assoc.
Qed.

Lemma providerRow_line (domainResult : DomainAvailabilityResult)
    (quote : DomainPricing) :
  PricingExportService.providerRow toFixed2 domainResult quote
  = line (providerFields toFixed2 domainResult quote).
Proof. reflexivity. Qed.

Lemma placeholderRow_line (domainResult : DomainAvailabilityResult) :
  PricingExportService.placeholderRow domainResult
  = line (placeholderFields domainResult).
Proof. reflexivity. Qed.

Lemma pricingHeader_line :
  PricingExportService.pricingHeader = line pricingHeaderFields.
Proof. reflexivity. Qed.

Lemma push_all (A B : Type) (f : A -> B) (xs : list A) (acc : list B) :
  fold_left (fun acc x => push acc (f x)) xs acc = (acc ++ map f xs)%list.
Proof.
  revert acc. induction xs as [|x xs IH]; intros acc.
  - cbn. now rewrite app_nil_r.
  - cbn [fold_left map]. rewrite IH. unfold push. now rewrite <- app_assoc.
Qed.

Lemma exportPricingCSV_from (pricingData : list DomainAvailabilityResult)
    (done : list (list string)) :
  fold_left
    (fun csvData domainResult =>
       if (0 <? List.length (pricing domainResult))%nat then
         fold_left
           (fun csvData pricing =>
              push csvData
                (PricingExportService.providerRow toFixed2 domainResult pricing))
           (pricing domainResult) csvData
       else push csvData (PricingExportService.placeholderRow domainResult))
    pricingData (map line done)
  = map line (done ++ flat_map (pricingRecords toFixed2) pricingData)%list.
Proof.
  revert done. induction pricingData as [|d rest IH]; intros done.
  - cbn. now rewrite app_nil_r.
  - cbn [fold_left flat_map]. rewrite app_assoc, <- IH. f_equal.
    unfold pricingRecords. destruct (pricing d) as [|q quotes].
    + cbn. unfold push. now rewrite map_app.
    + cbn [List.length Nat.ltb Nat.leb].
      rewrite (push_all (PricingExportService.providerRow toFixed2 d)).
      rewrite map_app, map_map. reflexivity.
Qed.

Lemma exportPricingCSV_lines (pricingData : list DomainAvailabilityResult) :
  PricingExportService.exportPricingCSV toFixed2 pricingData
  = map line (pricingHeaderFields
              :: flat_map (pricingRecords toFixed2) pricingData).
Proof.
  unfold PricingExportService.exportPricingCSV.
  exact (exportPricingCSV_from pricingData [pricingHeaderFields]).
Qed.

End ExportedLines.

(** X1.  The text [exportToFile] writes is well-formed CSV: read back it
    gives the header and, for every report added, one record of twenty-nine
    values --- the values [addDomain] escaped, whatever commas, quotes and
    line feeds they hold --- provided no value holds a carriage return. *)
Theorem csv_file_reads_back
    (numberToString toFixed2 : number -> string)
    (Date_getTime : string -> number) (Date_now : number)
    (infos : list DomainInfo) :
  let fields := rowFields numberToString toFixed2 Date_getTime Date_now in
  let addDomain :=
    CSVExportService.addDomain numberToString toFixed2 Date_getTime Date_now in
  (forall info, In info infos -> Forall Csv.noCR (fields info)) ->
  Csv.parse
    (CSVExportService.csvContent
       (fold_left addDomain infos CSVExportService.constructor))
  = Some (headerFields :: map fields infos)
  /\ Forall (fun record => List.length record = 29)
       (headerFields :: map fields infos).
Proof.
  intros fields addDomain Hcr. split.
  - unfold addDomain. rewrite addDomain_all_rows.
    unfold CSVExportService.csvContent, CSVExportService.constructor, push.
    cbn [app]. rewrite header_line.
    rewrite (map_ext _ (fun info => line (fields info)))
      by (intros; apply csvRow_line).
    rewrite <- map_map. change (line headerFields :: map line (map fields infos))
      with (map line (headerFields :: map fields infos)).
    apply parse_lines; [discriminate|].
    constructor.
    + split; [discriminate|]. repeat constructor.
    + apply Forall_forall. intros record Hin.
      apply in_map_iff in Hin as (info & <- & Hin).
      split; [discriminate | now apply Hcr].
  - constructor; [reflexivity|].
    apply Forall_forall. intros record Hin.
    apply in_map_iff in Hin as (info & <- & _). reflexivity.
Qed.

(** X1 on a file of two reports, one blank and one with an invalid
    certificate. *)
Lemma csv_file_reads_back_two_reports :
  Csv.parse
    (CSVExportService.csvContent
       (fold_left
          (CSVExportService.addDomain ThreatRules.plainNumber
             ThreatRules.plainNumber ThreatRules.dayAfter_getTime
             ThreatRules.dayAfter_now)
          [blankReport "a, b.com"; ThreatRules.invalidAndRecent]
          CSVExportService.constructor))
  = Some (headerFields
          :: map (rowFields ThreatRules.plainNumber ThreatRules.plainNumber
                    ThreatRules.dayAfter_getTime ThreatRules.dayAfter_now)
               [blankReport "a, b.com"; ThreatRules.invalidAndRecent]).
Proof.
  refine (proj1 (@csv_file_reads_back ThreatRules.plainNumber
                   ThreatRules.plainNumber ThreatRules.dayAfter_getTime
                   ThreatRules.dayAfter_now
                   [blankReport "a, b.com"; ThreatRules.invalidAndRecent] _)).
  intros info [<- | [<- | []]]; repeat constructor.
Defined.

(** X2.  The pricing file has, after its header, one line per quote of every
    domain that has quotes and one line for every domain that has none. *)
Theorem exportPricingCSV_line_count (toFixed2 : number -> string)
    (pricingData : list DomainAvailabilityResult) :
  List.length (PricingExportService.exportPricingCSV toFixed2 pricingData)
  = 1 + list_sum
          (map (fun d => Nat.max 1 (List.length (pricing d))) pricingData)
  /\ hd_error (PricingExportService.exportPricingCSV toFixed2 pricingData)
     = Some PricingExportService.pricingHeader.
Proof.
  assert (H : List.length (flat_map (pricingRecords toFixed2) pricingData)
              = list_sum (map (fun d => Nat.max 1 (List.length (pricing d)))
                            pricingData)).
  { induction pricingData as [|d rest IH]; [reflexivity|].
    cbn [flat_map map list_sum]. rewrite length_app, IH. f_equal.
    unfold pricingRecords. destruct (pricing d) as [|q quotes]; [reflexivity|].
    rewrite length_map. reflexivity. }
  rewrite exportPricingCSV_lines. split; [|reflexivity].
  cbn [map List.length]. rewrite length_map, H. reflexivity.
Qed.

(** X3.  The text of the pricing file is well-formed CSV: read back it
    gives the header and the records of eleven values of every domain, in
    order, provided no value holds a carriage return. *)
Theorem pricing_file_reads_back (toFixed2 : number -> string)
    (pricingData : list DomainAvailabilityResult) :
  (forall d record, In d pricingData ->
     In record (pricingRecords toFixed2 d) -> Forall Csv.noCR record) ->
  Csv.parse (PricingExportService.pricingCsvContent toFixed2 pricingData)
  = Some (pricingHeaderFields
          :: flat_map (pricingRecords toFixed2) pricingData)
  /\ Forall (fun record => List.length record = 11)
       (pricingHeaderFields
        :: flat_map (pricingRecords toFixed2) pricingData).
Proof.
  intros Hcr. split.
  - unfold PricingExportService.pricingCsvContent.
    rewrite exportPricingCSV_lines.
    apply parse_lines; [discriminate|].
    constructor.
    + split; [discriminate|]. repeat constructor.
    + apply Forall_forall. intros record Hin.
      apply in_flat_map in Hin as (d & Hd & Hin).
      split; [|now apply (Hcr d)].
      unfold pricingRecords in Hin. destruct (pricing d) as [|q quotes].
      * destruct Hin as [<- | []]. discriminate.
      * apply in_map_iff in Hin as (x & <- & _). discriminate.
  - constructor; [reflexivity|].
    apply Forall_forall. intros record Hin.
    apply in_flat_map in Hin as (d & Hd & Hin).
    unfold pricingRecords in Hin. destruct (pricing d) as [|q quotes].
    + destruct Hin as [<- | []]. reflexivity.
    + apply in_map_iff in Hin as (x & <- & _). reflexivity.
Qed.

(** X3 on the quotes of the estimated-price service for [example.com]
    and on a registered domain. *)
Lemma pricing_file_reads_back_example :
  let data :=
    [ Examples.estimatedComResult;
      {| result_domain := "example.org"; isAvailable := false;
         pricing := []; checkedAt := Examples.noon |} ] in
  Csv.parse
    (PricingExportService.pricingCsvContent ThreatRules.plainNumber data)
  = Some (pricingHeaderFields
          :: flat_map (pricingRecords ThreatRules.plainNumber) data).
Proof.
  intros data.
  refine (proj1 (@pricing_file_reads_back ThreatRules.plainNumber data _)).
  intros d record [<- | [<- | []]] Hin; vm_compute in Hin;
    repeat (destruct Hin as [<- | Hin]; [repeat constructor|]);
    destruct Hin.
Defined.

(* ================================================================== *)
(** * The summary of the pricing export *)
(* ================================================================== *)

Section Summary.

Lemma filter_partition_length (A : Type) (f : A -> bool) (xs : list A) :
  List.length (filter (fun x => negb (f x)) xs) + List.length (filter f xs)
  = List.length xs.
Proof.
  induction xs as [|x xs IH]; [reflexivity|].
  cbn [filter]. destruct (f x); cbn [negb List.length]; lia.
Qed.

Lemma existsb_eqb_In (name : string) (seen : list string) :
  existsb (String.eqb name) seen = true <-> In name seen.
Proof.
  rewrite existsb_exists. split.
  - intros (x & Hin & E). apply String.eqb_eq in E. now subst.
  - intros Hin. exists name. split; [exact Hin | apply String.eqb_refl].
Qed.

Lemma unique_from (names seen : list string) :
  NoDup seen ->
  let result :=
    fold_left
      (fun seen name =>
         if existsb (String.eqb name) seen then seen else push seen name)
      names seen in
  NoDup result /\ forall name, In name result <-> In name seen \/ In name names.
Proof.
  revert seen. induction names as [|n names IH]; intros seen Hnd.
  - cbn. split; [exact Hnd | tauto].
  - cbn [fold_left]. destruct (existsb (String.eqb n) seen) eqn:E.
    + destruct (IH seen Hnd) as [H1 H2]. split; [exact H1|].
      intros name. rewrite H2. apply existsb_eqb_In in E.
      cbn [In]. split; [tauto|]. intros [H | [<- | H]]; tauto.
    + assert (Hnd' : NoDup (push seen n)).
      { unfold push. apply NoDup_app; [exact Hnd | repeat constructor; auto |].
        intros x Hx [<- | []]. apply existsb_eqb_In in Hx. congruence. }
      destruct (IH _ Hnd') as [H1 H2]. split; [exact H1|].
      intros name. rewrite H2. unfold push. rewrite in_app_iff.
      cbn [In]. tauto.
Qed.

End Summary.

(** X4.  In the summary of the pricing export every quote is counted once,
    as live data or as fallback data, and every domain once, as available or
    as registered. *)
Theorem generateSummary_counts_partition (toFixed1 : number -> string)
    (pricingData : list DomainAvailabilityResult) :
  let summary := PricingExportService.generateSummary toFixed1 pricingData in
  PricingExportService.liveData (PricingExportService.dataQuality summary)
  + PricingExportService.fallbackData
      (PricingExportService.dataQuality summary)
  = List.length (flat_map pricing pricingData)
  /\ PricingExportService.availableDomains summary
     + PricingExportService.registeredDomains summary
     = PricingExportService.totalDomains summary
  /\ PricingExportService.totalDomains summary = List.length pricingData.
Proof.
  cbn. split; [apply filter_partition_length|]. split; [|reflexivity].
  rewrite Nat.add_comm. apply filter_partition_length.
Qed.

(** X5.  The summary lists every provider that has a quote exactly once,
    and counts them; when the quotes come from the five providers of the
    pricing service the count is at most five. *)
Theorem generateSummary_providers_unique (toFixed1 : number -> string)
    (pricingData : list DomainAvailabilityResult) :
  let summary := PricingExportService.generateSummary toFixed1 pricingData in
  NoDup (PricingExportService.providers summary)
  /\ (forall name,
        In name (PricingExportService.providers summary)
        <-> exists d q, In d pricingData /\ In q (pricing d)
                        /\ provider q = name)
  /\ PricingExportService.totalProviders summary
     = List.length (PricingExportService.providers summary)
  /\ ((forall d q, In d pricingData -> In q (pricing d) ->
         In (provider q) DomainPricingService.providers) ->
      PricingExportService.totalProviders summary <= 5).
Proof.
  cbn.
  destruct (unique_from (map provider (flat_map pricing pricingData))
              (NoDup_nil string)) as [Hnd Hin].
  fold (PricingExportService.unique
          (map provider (flat_map pricing pricingData))) in Hnd, Hin.
  assert (Hmem : forall name,
            In name (PricingExportService.unique
                       (map provider (flat_map pricing pricingData)))
            <-> exists d q, In d pricingData /\ In q (pricing d)
                            /\ provider q = name).
  { intros name. rewrite Hin, in_map_iff. split.
    - intros [[] | (q & E & Hq)]. apply in_flat_map in Hq as (d & Hd & Hq).
      now exists d, q.
    - intros (d & q & Hd & Hq & E). right. exists q. split; [exact E|].
      apply in_flat_map. now exists d. }
  split; [exact Hnd|]. split; [exact Hmem|]. split; [reflexivity|].
  intros Hfive.
  change 5 with (List.length DomainPricingService.providers).
  apply NoDup_incl_length; [exact Hnd|].
  intros name Hname. apply Hmem in Hname as (d & q & Hd & Hq & <-).
  now apply (Hfive d).
Qed.

(** X5 on the export of the estimated quotes for [example.com]. *)
Lemma generateSummary_providers_example :
  PricingExportService.totalProviders
    (PricingExportService.generateSummary ThreatRules.plainNumber
       [ Examples.estimatedComResult ]) <= 5.
Proof.
  refine (proj2 (proj2 (proj2
            (generateSummary_providers_unique ThreatRules.plainNumber
               [Examples.estimatedComResult]))) _).
  intros d q [<- | []] Hq. vm_compute in Hq.
  repeat (destruct Hq as [<- | Hq]; [vm_compute; tauto|]). destruct Hq.
Defined.

(* ================================================================== *)
(** * Top-level domains *)
(* ================================================================== *)

Section TopLevelDomain.

Lemma split_not_nil (c : ascii) (s : string) : split c s <> [].
Proof.
  destruct s as [|x s]; cbn; [discriminate|].
  destruct (Ascii.eqb x c); [discriminate|].
  destruct (split c s); discriminate.
Qed.

Lemma split_join (c : ascii) (s : string) :
  join (String c "") (split c s) = s.
Proof.
  induction s as [|x s IH]; [reflexivity|].
  cbn [split]. pose proof (split_not_nil c s) as Hne.
  destruct (Ascii.eqb_spec x c) as [->|Hx].
  - destruct (split c s) as [|seg rest]; [congruence|].
    rewrite join_cons2. cbn [append]. now rewrite IH.
  - destruct (split c s) as [|seg rest]; [congruence|].
    destruct rest as [|seg' rest].
    + cbn in *. now rewrite IH.
    + rewrite join_cons2 in *. cbn [append] in *. now rewrite IH.
Qed.

Lemma split_segments (c : ascii) (s : string) :
  Forall (fun seg => includes_char seg c = false) (split c s).
Proof.
  induction s as [|x s IH]; [repeat constructor|].
  cbn [split]. destruct (Ascii.eqb_spec x c) as [->|Hx].
  - constructor; [reflexivity | exact IH].
  - destruct (split c s) as [|seg rest]; [repeat constructor|].
    + rewrite includes_char_cons, includes_char_nil.
      destruct (Ascii.eqb_spec x c); [contradiction | reflexivity].
    + inversion_clear IH as [|? ? Hseg Hrest]. constructor; [|exact Hrest].
      rewrite includes_char_cons, Hseg.
      destruct (Ascii.eqb_spec x c); [contradiction | reflexivity].
Qed.

Lemma pop_last_of_join (sep : string) (segments : list string) :
  segments <> [] ->
  exists seg, pop segments = Some seg /\ In seg segments
              /\ (join sep segments = seg
                  \/ exists before, join sep segments = before ++ sep ++ seg).
Proof.
  induction segments as [|x [|y rest] IH]; intros Hne; [congruence | |].
  - exists x. repeat split; [now left | now left].
  - destruct IH as (seg & Hpop & Hin & Hjoin); [discriminate|].
    exists seg. split; [exact Hpop|]. split; [now right|]. right.
    rewrite join_cons2. destruct Hjoin as [-> | [before ->]].
    + now exists x.
    + exists (x ++ sep ++ before). now rewrite !append_assoc.
Qed.

Lemma lower_dot (x : ascii) : lower x = "."%char <-> x = "."%char.
Proof.
  destruct x as [[] [] [] [] [] [] [] []]; vm_compute;
    split; intros H; solve [reflexivity | discriminate H].
Qed.

Lemma lower_idempotent (x : ascii) : lower (lower x) = lower x.
Proof. destruct x as [[] [] [] [] [] [] [] []]; reflexivity. Qed.

Lemma toLowerCase_app (s t : string) :
  toLowerCase (s ++ t) = toLowerCase s ++ toLowerCase t.
Proof. induction s as [|c s IH]; [reflexivity | cbn; now rewrite IH]. Qed.

Lemma toLowerCase_idempotent (s : string) :
  toLowerCase (toLowerCase s) = toLowerCase s.
Proof.
  induction s as [|c s IH]; [reflexivity|].
  cbn. now rewrite lower_idempotent, IH.
Qed.

Lemma toLowerCase_no_dot (s : string) :
  includes_char s "."%char = false ->
  includes_char (toLowerCase s) "."%char = false.
Proof.
  induction s as [|c s IH]; [reflexivity|].
  cbn [toLowerCase]. rewrite !includes_char_cons.
  intros H. apply orb_false_iff in H as [Hc Hs]. rewrite (IH Hs).
  destruct (Ascii.eqb_spec (lower c) "."%char) as [E|_]; [|reflexivity].
  apply (proj1 (lower_dot c)) in E. rewrite E in Hc. discriminate Hc.
Qed.

Lemma ascii_only_app (s t : string) :
  ascii_only (s ++ t) = ascii_only s && ascii_only t.
Proof.
  induction s as [|c s IH]; [reflexivity|].
  cbn [append ascii_only]. now rewrite IH, andb_assoc.
Qed.

Lemma lower_ascii (c : ascii) :
  (nat_of_ascii c <? 128)%nat = true ->
  (nat_of_ascii (lower c) <? 128)%nat = true.
Proof. destruct c as [[] [] [] [] [] [] [] []]; vm_compute; trivial. Qed.

Lemma toLowerCase_ascii_only (s : string) :
  ascii_only s = true -> ascii_only (toLowerCase s) = true.
Proof.
  induction s as [|c s IH]; [reflexivity|].
  cbn [toLowerCase ascii_only]. intros H. apply andb_prop in H as [Hc Hs].
  now rewrite (lower_ascii _ Hc), IH.
Qed.

End TopLevelDomain.

(** X6.  For a domain of ASCII characters, the top-level domain
    [extractTLD] gives --- the one the estimated-price tables are looked up
    with --- is in lower case, holds no dot, and is what follows the last dot
    of the lower-cased domain, or the whole of it when the domain has no dot;
    a domain that ends in a dot has the empty top-level domain. *)
Theorem extractTLD_is_last_label (domain : string) :
  ascii_only domain = true ->
  let tld := PricingExportService.extractTLD domain in
  ascii_only tld = true
  /\ includes_char tld "."%char = false
  /\ toLowerCase tld = tld
  /\ (toLowerCase domain = tld
      \/ exists before, toLowerCase domain = before ++ "." ++ tld)
  /\ str_or (DomainPricingService.tld_of domain) "" = tld
  /\ PricingExportService.extractTLD (domain ++ ".") = "".
Proof.
  intros Hascii tld. subst tld. unfold PricingExportService.extractTLD.
  destruct (pop_last_of_join "." (split_not_nil "."%char domain))
    as (seg & Hpop & Hin & Hjoin).
  change (join "." (split "." domain))
    with (join (String "."%char "") (split "."%char domain)) in Hjoin.
  rewrite split_join in Hjoin. rewrite Hpop. cbn [option_map].
  assert (Hv : forall v, str_or (Some v) "" = v) by (now intros [|]).
  rewrite Hv.
  assert (Hseg : includes_char seg "."%char = false).
  { pose proof (split_segments "."%char domain) as Hall.
    rewrite Forall_forall in Hall. now apply Hall. }
  split.
  { apply toLowerCase_ascii_only.
    destruct Hjoin as [E | [before E]]; rewrite E in Hascii.
    - exact Hascii.
    - rewrite !ascii_only_app in Hascii.
      apply andb_prop in Hascii as [_ Hascii].
      now apply andb_prop in Hascii as [_ Hascii]. }
  split; [now apply toLowerCase_no_dot|].
  split; [apply toLowerCase_idempotent|].
  split.
  { destruct Hjoin as [-> | [before ->]]; [now left|]. right.
    exists (toLowerCase before). now rewrite !toLowerCase_app. }
  split.
  { unfold DomainPricingService.tld_of. rewrite Hpop. apply Hv. }
  destruct (pop_last_of_join "." (split_not_nil "."%char (domain ++ ".")))
    as (seg' & Hpop' & Hin' & Hjoin').
  change (join "." (split "." (domain ++ ".")))
    with (join (String "."%char "") (split "."%char (domain ++ ".")))
    in Hjoin'.
  rewrite split_join in Hjoin'. rewrite Hpop'. cbn [option_map]. rewrite Hv.
  assert (Hseg' : includes_char seg' "."%char = false).
  { pose proof (split_segments "."%char (domain ++ ".")) as Hall.
    rewrite Forall_forall in Hall. now apply Hall. }
  assert (seg' = "") as ->; [|reflexivity].
  clear - Hjoin' Hseg'.
  assert (Hend : forall s t u, includes_char u "."%char = false ->
                   s ++ "." = t ++ "." ++ u -> u = "").
  { clear. induction s as [|c s IH]; intros t u Hu E.
    - destruct t as [|d t]; cbn in E.
      + injection E as E. now rewrite <- E.
      + injection E as _ E. destruct t; discriminate E.
    - destruct t as [|d t]; cbn in E.
      + injection E as -> E. rewrite <- E in Hu.
        rewrite includes_char_app in Hu. apply orb_false_iff in Hu as [_ Hu].
        discriminate Hu.
      + injection E as _ E. now apply (IH t). }
  destruct Hjoin' as [E | [before E]].
  - rewrite <- E in Hseg'. rewrite includes_char_app in Hseg'.
    apply orb_false_iff in Hseg' as [_ H]. discriminate H.
  - now apply (Hend domain before).
Qed.

(** X6 on a domain written in capitals. *)
Lemma extractTLD_is_last_label_capitals :
  ascii_only "Example.COM" = true
  /\ PricingExportService.extractTLD "Example.COM" = "com"
  /\ (toLowerCase "Example.COM" = "com"
      \/ exists before, toLowerCase "Example.COM" = before ++ "." ++ "com").
Proof.
  split; [reflexivity|]. split; [reflexivity|].
  exact (proj1 (proj2 (proj2 (proj2
           (@extractTLD_is_last_label "Example.COM" eq_refl))))).
Defined.

(* ================================================================== *)
(** * The quotes of the estimated-price service *)
(* ================================================================== *)

Section EstimatedQuotes.

Import DomainPricingService.

Lemma own_priced (table : Estimated.Table) (key : string) (reg ren : number) :
  forallb (fun entry => truthy (fst (snd entry))) table = true ->
  Estimated.own table key = Some (reg, ren) -> truthy reg = true.
Proof.
  induction table as [|[k [r n]] table IH]; intros Hall Hown; [discriminate|].
  cbn in Hall, Hown. apply andb_prop in Hall as [Hr Hrest].
  destruct (String.eqb k key).
  - now injection Hown as <- _.
  - now apply IH.
Qed.

Lemma own_keys (table : Estimated.Table) (key : string) :
  match Estimated.own table key with Some _ => true | None => false end
  = existsb (String.eqb key) (map fst table).
Proof.
  induction table as [|[k v] table IH]; [reflexivity|].
  cbn. rewrite (String.eqb_sym key k).
  destruct (String.eqb k key); [reflexivity | exact IH].
Qed.

(** The quote built from a table whose registration prices are all
    truthy. *)
Lemma estimatedQuote_lookup (name url : string) (table : Estimated.Table)
    (tld : option string) :
  forallb (fun entry => truthy (fst (snd entry))) table = true ->
  let q := Estimated.estimatedQuote name url (Estimated.lookup table tld) in
  available q = true
  /\ (error q = None \/ error q = Some "TLD not supported")
  /\ (registrationPrice q = None -> renewalPrice q = None)
  /\ Spec.validQuote q = truthy_opt (registrationPrice q)
  /\ truthy_opt (registrationPrice q)
     = existsb (String.eqb (str_or tld "")) (map fst table).
Proof.
  intros Hall q. subst q. unfold Estimated.lookup.
  rewrite <- own_keys.
  destruct (Estimated.own table (str_or tld "")) as [[reg ren]|] eqn:Hown.
  - pose proof (own_priced _ _ Hall Hown) as Hreg.
    cbn. rewrite Hreg. repeat split; try discriminate. now left.
  - destruct (existsb (String.eqb (str_or tld "")) Estimated.objectPrototypeKeys);
      cbn; repeat split; auto.
Qed.

Variable axios_get_dns : string -> Completion (option DnsAnswer).
Variable Date_new : string.

(** The pricing of a result of the service. *)
Lemma estimated_pricing (domain : string) (result : DomainAvailabilityResult) :
  Estimated.checkAvailabilityAndPricing axios_get_dns Date_new domain
  = Return result ->
  pricing result
  = if isAvailable result then
      [ Estimated.estimatedQuote "Cloudflare"
          "https://www.cloudflare.com/products/registrar/"
          (Estimated.getCloudflareEstimatedPricing (tld_of domain));
        Estimated.estimatedQuote "Namecheap" (Estimated.namecheapUrl domain)
          (Estimated.getNamecheapEstimatedPricing (tld_of domain));
        Estimated.estimatedQuote "Porkbun" (Estimated.porkbunUrl domain)
          (Estimated.getPorkbunEstimatedPricing (tld_of domain));
        Estimated.estimatedQuote "GoDaddy" (Estimated.godaddyUrl domain)
          (Estimated.getGoDaddyEstimatedPricing (tld_of domain));
        Estimated.estimatedQuote "Name.com" (Estimated.namecomUrl domain)
          (Estimated.getNamecomEstimatedPricing (tld_of domain)) ]
    else [].
Proof.
  unfold Estimated.checkAvailabilityAndPricing, checkAvailabilityAndPricing.
  destruct (estimated_quick_returns axios_get_dns domain) as [b ->].
  cbn [bind]. destruct b; intros [= <-]; reflexivity.
Qed.

(** What holds of each of the quotes. *)
Lemma estimated_quote_shape (domain : string) (result : DomainAvailabilityResult)
    (q : DomainPricing) :
  Estimated.checkAvailabilityAndPricing axios_get_dns Date_new domain
  = Return result ->
  In q (pricing result) ->
  available q = true
  /\ (error q = None \/ error q = Some "TLD not supported")
  /\ (registrationPrice q = None -> renewalPrice q = None)
  /\ Spec.validQuote q = truthy_opt (registrationPrice q)
  /\ truthy_opt (registrationPrice q)
     = existsb (String.eqb (PricingExportService.extractTLD domain))
         supportedTlds.
Proof.
  intros Hrun Hq. rewrite (estimated_pricing _ Hrun) in Hq.
  destruct (isAvailable result); [|contradiction].
  assert (Htld : str_or (tld_of domain) ""
                 = PricingExportService.extractTLD domain) by reflexivity.
  rewrite <- Htld.
  destruct Hq as [<- | [<- | [<- | [<- | [<- | []]]]]];
    apply estimatedQuote_lookup; reflexivity.
Qed.

End EstimatedQuotes.

Section EstimatedPrices.

Import DomainPricingService.

(** The annotation and the prices of the quote built from a table. *)
Lemma estimatedQuote_prices (name url : string) (table : Estimated.Table)
    (tld : option string) :
  forallb (fun entry => truthy (fst (snd entry))) table = true ->
  let q := Estimated.estimatedQuote name url (Estimated.lookup table tld) in
  (error q = Some "TLD not supported" ->
   registrationPrice q = None /\ renewalPrice q = None)
  /\ (error q = None ->
      (exists registration renewal,
         registrationPrice q = Some registration
         /\ renewalPrice q = Some renewal
         /\ truthy registration = true)
      \/ (registrationPrice q = None /\ renewalPrice q = None)).
Proof.
  intros Hall q. subst q. unfold Estimated.lookup.
  destruct (Estimated.own table (str_or tld "")) as [[reg ren]|] eqn:Hown.
  - pose proof (own_priced _ _ Hall Hown) as Hreg. cbn.
    split; [discriminate|]. intros _. left. now exists reg, ren.
  - destruct (existsb (String.eqb (str_or tld ""))
                Estimated.objectPrototypeKeys); cbn.
    + split; [discriminate|]. intros _. now right.
    + split; [now intros _ | discriminate].
Qed.

Lemma estimated_quote_prices
    (axios_get_dns : string -> Completion (option DnsAnswer))
    (Date_new domain : string) (result : DomainAvailabilityResult)
    (q : DomainPricing) :
  Estimated.checkAvailabilityAndPricing axios_get_dns Date_new domain
  = Return result ->
  In q (pricing result) ->
  (error q = Some "TLD not supported" ->
   registrationPrice q = None /\ renewalPrice q = None)
  /\ (error q = None ->
      (exists registration renewal,
         registrationPrice q = Some registration
         /\ renewalPrice q = Some renewal
         /\ truthy registration = true)
      \/ (registrationPrice q = None /\ renewalPrice q = None)).
Proof.
  intros Hrun Hq. rewrite (estimated_pricing _ _ _ Hrun) in Hq.
  destruct (isAvailable result); [|contradiction].
  destruct Hq as [<- | [<- | [<- | [<- | [<- | []]]]]];
    apply estimatedQuote_prices; reflexivity.
Qed.

End EstimatedPrices.

(** X7.  Every quote of the estimated-price service is marked available.
    It is annotated, if at all, with [TLD not supported], and an annotated
    quote has neither a registration nor a renewal price; a quote without
    annotation has both prices, the registration price usable, or none.  On
    its results the filter of the exporters, [available &&
    registrationPrice], keeps exactly the quotes that are available, not
    annotated and priced. *)
Theorem estimated_quotes_filtered_as_annotated
    (axios_get_dns : string -> Completion (option DomainPricingService.DnsAnswer))
    (Date_new domain : string) (result : DomainAvailabilityResult) :
  DomainPricingService.Estimated.checkAvailabilityAndPricing
    axios_get_dns Date_new domain = Return result ->
  (forall q, In q (pricing result) ->
     available q = true
     /\ (error q = None \/ error q = Some "TLD not supported")
     /\ (registrationPrice q = None -> renewalPrice q = None)
     /\ (error q = Some "TLD not supported" ->
         registrationPrice q = None /\ renewalPrice q = None)
     /\ (error q = None ->
         (exists registration renewal,
            registrationPrice q = Some registration
            /\ renewalPrice q = Some renewal
            /\ truthy registration = true)
         \/ (registrationPrice q = None /\ renewalPrice q = None)))
  /\ PricingExportService.validPricing (pricing result)
     = filter Spec.validQuote (pricing result)
  /\ CSVExportService.validPricing (pricing result)
     = filter Spec.validQuote (pricing result).
Proof.
  intros Hrun.
  assert (Hsame : PricingExportService.validPricing (pricing result)
                  = filter Spec.validQuote (pricing result)).
  { unfold PricingExportService.validPricing. apply filter_ext_in.
    intros q Hq.
    destruct (estimated_quote_shape _ _ _ _ Hrun Hq) as (-> & _ & _ & -> & _).
    reflexivity. }
  split; [|split; [exact Hsame | exact Hsame]].
  intros q Hq.
  destruct (estimated_quote_shape _ _ _ _ Hrun Hq) as (Ha & He & Hp & _).
  destruct (estimated_quote_prices _ _ _ _ Hrun Hq) as [Hannotated Hplain].
  auto.
Qed.

(** X7 on the estimated quotes for [example.com]. *)
Lemma estimated_quotes_filtered_as_annotated_example :
  PricingExportService.validPricing Examples.estimatedComQuotes
  = filter Spec.validQuote Examples.estimatedComQuotes.
Proof.
  refine (proj1 (proj2
    (@estimated_quotes_filtered_as_annotated Examples.nxdomain Examples.noon
       "example.com" Examples.estimatedComResult _))).
  reflexivity.
Defined.

(** X8.  The estimated-price service prices all or nothing: for a domain
    it takes for available, the five quotes are all kept by the exporters
    when the top-level domain is one of the ten of the tables, and none is
    kept otherwise, so that its pricing is analysed as unavailable. *)
Theorem estimated_quotes_all_or_none
    (axios_get_dns : string -> Completion (option DomainPricingService.DnsAnswer))
    (Date_new domain : string) (result : DomainAvailabilityResult) :
  DomainPricingService.Estimated.checkAvailabilityAndPricing
    axios_get_dns Date_new domain = Return result ->
  isAvailable result = true ->
  if existsb (String.eqb (PricingExportService.extractTLD domain)) supportedTlds
  then PricingExportService.validPricing (pricing result) = pricing result
       /\ PricingExportService.providerCount
            (PricingExportService.analyzePricing (pricing result)) = 5
  else PricingExportService.validPricing (pricing result) = []
       /\ PricingExportService.analyzePricing (pricing result)
          = PricingExportService.unavailable.
Proof.
  intros Hrun Havailable.
  pose proof (estimated_pricing _ _ _ Hrun) as Hfive.
  rewrite Havailable in Hfive.
  assert (Hkept : forall q, In q (pricing result) ->
            available q && truthy_opt (registrationPrice q)
            = existsb (String.eqb (PricingExportService.extractTLD domain))
                supportedTlds).
  { intros q Hq.
    destruct (estimated_quote_shape _ _ _ _ Hrun Hq) as (-> & _ & _ & _ & <-).
    reflexivity. }
  destruct (existsb (String.eqb (PricingExportService.extractTLD domain))
              supportedTlds).
  - assert (Hall : PricingExportService.validPricing (pricing result)
                   = pricing result).
    { unfold PricingExportService.validPricing.
      rewrite (filter_ext_in _ (fun _ => true) _ Hkept).
      clear. induction (pricing result) as [|q l IH]; [reflexivity|].
      cbn. now rewrite IH. }
    split; [exact Hall|].
    unfold PricingExportService.analyzePricing. rewrite Hall, Hfive.
    reflexivity.
  - assert (Hnone : PricingExportService.validPricing (pricing result) = []).
    { unfold PricingExportService.validPricing.
      rewrite (filter_ext_in _ (fun _ => false) _ Hkept).
      clear. induction (pricing result) as [|q l IH]; [reflexivity|].
      exact IH. }
    split; [exact Hnone|].
    unfold PricingExportService.analyzePricing. now rewrite Hnone.
Qed.

(** X8 on [example.com], whose top-level domain is in the tables. *)
Lemma estimated_quotes_all_or_none_example :
  PricingExportService.validPricing Examples.estimatedComQuotes
  = Examples.estimatedComQuotes
  /\ PricingExportService.providerCount
       (PricingExportService.analyzePricing Examples.estimatedComQuotes) = 5.
Proof.
  refine (@estimated_quotes_all_or_none Examples.nxdomain Examples.noon
            "example.com" Examples.estimatedComResult _ _); reflexivity.
Defined.

(* ================================================================== *)
(** * The quotes of the live-price service *)
(* ================================================================== *)

Section QuotesOfChecks.

Import DomainPricingService.

Variable quickAvailabilityCheck : string -> Completion bool.
Variable checkCloudflare : string -> Completion DomainPricing.
Variable checkNamecheap : string -> Completion DomainPricing.
Variable checkPorkbun : string -> Completion DomainPricing.
Variable checkGoDaddy : string -> Completion DomainPricing.
Variable checkNamecom : string -> Completion DomainPricing.
Variable Date_new : string.
Variable domain : string.

(** What holds of the value of each provider call holds of each quote of
    the result. *)
Lemma checkAvailabilityAndPricing_quotes (P : DomainPricing -> Prop)
    (result : DomainAvailabilityResult) (q : DomainPricing) :
  (exists q, checkCloudflare domain = Return q /\ P q) ->
  (exists q, checkNamecheap domain = Return q /\ P q) ->
  (exists q, checkPorkbun domain = Return q /\ P q) ->
  (exists q, checkGoDaddy domain = Return q /\ P q) ->
  (exists q, checkNamecom domain = Return q /\ P q) ->
  checkAvailabilityAndPricing quickAvailabilityCheck checkCloudflare
    checkNamecheap checkPorkbun checkGoDaddy checkNamecom Date_new domain
  = Return result ->
  In q (pricing result) -> P q.
Proof.
  intros (q1 & E1 & P1) (q2 & E2 & P2) (q3 & E3 & P3) (q4 & E4 & P4)
    (q5 & E5 & P5).
  unfold checkAvailabilityAndPricing, pricingPromises.
  destruct (quickAvailabilityCheck domain) as [b|e]; [|discriminate].
  cbn [bind]. destruct b; intros [= <-]; [|contradiction].
  rewrite E1, E2, E3, E4, E5. cbn.
  intros [<- | [<- | [<- | [<- | [<- | []]]]]]; assumption.
Qed.

End QuotesOfChecks.

Section LiveQuotes.

Import DomainPricingService.

Variable helper : string -> Completion (option Live.LivePricing).
Variable helper' : string -> Completion (option Live.LivePricing).
Variable tld_helper : option string -> Completion (option Live.LivePricing).
Variable domain : string.

Ltac answered :=
  left; split; [reflexivity|];
  split; [intros H; solve [reflexivity | discriminate H]
         | intros [H | H]; solve [discriminate H | split; [reflexivity | discriminate]]].
Ltac failed :=
  right; split; [reflexivity|]; split; [reflexivity|]; split; [reflexivity|];
  eexists; reflexivity.

Lemma live_checkCloudflare_shape :
  exists q, Live.checkCloudflare tld_helper domain = Return q
            /\ (answeredQuote q \/ failedLiveQuote q).
Proof.
  unfold Live.checkCloudflare.
  destruct (tld_helper (tld_of domain)) as [[[[reg|] ren]|]|]; cbn;
    eexists; (split; [reflexivity|]); solve [answered | failed].
Qed.

Lemma live_checkPorkbun_shape :
  exists q, Live.checkPorkbun tld_helper domain = Return q
            /\ (answeredQuote q \/ failedLiveQuote q).
Proof.
  unfold Live.checkPorkbun.
  destruct (tld_helper (tld_of domain)) as [[[[reg|] ren]|]|]; cbn;
    eexists; (split; [reflexivity|]); solve [answered | failed].
Qed.

Lemma live_checkNamecheap_shape :
  exists q, Live.checkNamecheap helper domain = Return q
            /\ (answeredQuote q \/ failedLiveQuote q).
Proof.
  unfold Live.checkNamecheap, Live.getNamecheapLivePricing.
  destruct (helper domain) as [[scraped|]|]; cbn;
    eexists; (split; [reflexivity|]); solve [answered | failed].
Qed.

Lemma live_checkGoDaddy_shape :
  exists q, Live.checkGoDaddy helper domain = Return q
            /\ (answeredQuote q \/ failedLiveQuote q).
Proof.
  unfold Live.checkGoDaddy.
  destruct (helper domain) as [[live|]|]; cbn;
    eexists; (split; [reflexivity|]); solve [answered | failed].
Qed.

Lemma live_checkNamecom_shape :
  exists q, Live.checkNamecom helper helper' domain = Return q
            /\ (answeredQuote q \/ failedLiveQuote q).
Proof.
  unfold Live.checkNamecom.
  destruct (helper domain) as [[live|]|]; cbn;
    try (eexists; (split; [reflexivity|]); solve [answered | failed]);
    destruct (helper' domain) as [[scraped|]|]; cbn;
    eexists; (split; [reflexivity|]); solve [answered | failed].
Qed.

End LiveQuotes.

(** X9.  A quote of the live-price service has one of two shapes.  Either
    it is marked available; then, from Namecheap, it carries the annotation
    [Live pricing via web scraping], and from Cloudflare or Porkbun it
    carries none and has a registration price.  Or it is marked unavailable;
    then it has no price and an error that starts with [Failed to get live
    pricing: ]. *)
Theorem live_quotes_answered_or_failed
    (axios_post_porkbun : string -> Completion (option DomainPricingService.Live.PorkbunCheck))
    (axios_get_dns : string -> Completion (option DomainPricingService.DnsAnswer))
    (getCloudflareLivePricing : option string -> Completion (option DomainPricingService.Live.LivePricing))
    (scrapeNamecheapPricing : string -> Completion (option DomainPricingService.Live.LivePricing))
    (getPorkbunLivePricing : option string -> Completion (option DomainPricingService.Live.LivePricing))
    (scrapeGoDaddyPricing : string -> Completion (option DomainPricingService.Live.LivePricing))
    (getNamecomLivePricing : string -> Completion (option DomainPricingService.Live.LivePricing))
    (scrapeNamecomPricing : string -> Completion (option DomainPricingService.Live.LivePricing))
    (Date_new domain : string) (result : DomainAvailabilityResult)
    (q : DomainPricing) :
  DomainPricingService.Live.checkAvailabilityAndPricing axios_post_porkbun
    axios_get_dns getCloudflareLivePricing scrapeNamecheapPricing
    getPorkbunLivePricing scrapeGoDaddyPricing getNamecomLivePricing
    scrapeNamecomPricing Date_new domain = Return result ->
  In q (pricing result) ->
  answeredQuote q \/ failedLiveQuote q.
Proof.
  unfold DomainPricingService.Live.checkAvailabilityAndPricing.
  apply (@checkAvailabilityAndPricing_quotes _ _ _ _ _ _ _ _
           (fun q => answeredQuote q \/ failedLiveQuote q)).
  - apply live_checkCloudflare_shape.
  - apply live_checkNamecheap_shape.
  - apply live_checkPorkbun_shape.
  - apply live_checkGoDaddy_shape.
  - apply live_checkNamecom_shape.
Qed.

(** X9 on the quote scraped from Namecheap's page in the example run. *)
Lemma live_quotes_answered_or_failed_scraped :
  answeredQuote Examples.namecheapScraped
  \/ failedLiveQuote Examples.namecheapScraped.
Proof.
  refine (@live_quotes_answered_or_failed (@Examples.refused _)
            Examples.nxdomain (@Examples.nothing _) Examples.namecheapPage
            Examples.porkbunList (@Examples.nothing _) (@Examples.nothing _)
            (@Examples.nothing _) Examples.noon "example.com"
            {| result_domain := "example.com"; isAvailable := true;
               pricing := Examples.scrapedQuotes;
               checkedAt := Examples.noon |}
            Examples.namecheapScraped _ _).
  - reflexivity.
  - right; left; reflexivity.
Defined.

(** X10.  The availability check fails open.  When the request to
    Porkbun and the DNS lookup both fail, the live-price service takes the
    domain for available and goes on to quote the five providers; so does
    the estimated-price service when its DNS lookup fails. *)
Theorem availability_check_fails_open
    (axios_post_porkbun : string -> Completion (option DomainPricingService.Live.PorkbunCheck))
    (axios_get_dns : string -> Completion (option DomainPricingService.DnsAnswer))
    (getCloudflareLivePricing : option string -> Completion (option DomainPricingService.Live.LivePricing))
    (scrapeNamecheapPricing : string -> Completion (option DomainPricingService.Live.LivePricing))
    (getPorkbunLivePricing : option string -> Completion (option DomainPricingService.Live.LivePricing))
    (scrapeGoDaddyPricing : string -> Completion (option DomainPricingService.Live.LivePricing))
    (getNamecomLivePricing : string -> Completion (option DomainPricingService.Live.LivePricing))
    (scrapeNamecomPricing : string -> Completion (option DomainPricingService.Live.LivePricing))
    (Date_new domain : string) (refusal failure : string) :
  axios_post_porkbun domain = Throw refusal ->
  axios_get_dns domain = Throw failure ->
  (exists result,
     DomainPricingService.Live.checkAvailabilityAndPricing axios_post_porkbun
       axios_get_dns getCloudflareLivePricing scrapeNamecheapPricing
       getPorkbunLivePricing scrapeGoDaddyPricing getNamecomLivePricing
       scrapeNamecomPricing Date_new domain = Return result
     /\ isAvailable result = true
     /\ map provider (pricing result) = DomainPricingService.providers)
  /\ (exists result,
        DomainPricingService.Estimated.checkAvailabilityAndPricing
          axios_get_dns Date_new domain = Return result
        /\ isAvailable result = true
        /\ map provider (pricing result) = DomainPricingService.providers).
Proof.
  intros Hpost Hdns. split.
  - destruct (@checkAvailabilityAndPricing_shape
                (DomainPricingService.Live.quickAvailabilityCheck
                   axios_post_porkbun axios_get_dns)
                (DomainPricingService.Live.checkCloudflare getCloudflareLivePricing)
                (DomainPricingService.Live.checkNamecheap scrapeNamecheapPricing)
                (DomainPricingService.Live.checkPorkbun getPorkbunLivePricing)
                (DomainPricingService.Live.checkGoDaddy scrapeGoDaddyPricing)
                (DomainPricingService.Live.checkNamecom getNamecomLivePricing
                   scrapeNamecomPricing)
                Date_new domain)
      as (result & Hrun & _ & Hquick & Hquotes).
    + apply live_quick_returns.
    + apply live_checkCloudflare_returns.
    + apply live_checkNamecheap_returns.
    + apply live_checkPorkbun_returns.
    + apply live_checkGoDaddy_returns.
    + apply live_checkNamecom_returns.
    + exists result. split; [exact Hrun|].
      unfold DomainPricingService.Live.quickAvailabilityCheck,
        DomainPricingService.Live.checkPorkbunAvailability in Hquick.
      rewrite Hpost in Hquick. cbn in Hquick. rewrite Hdns in Hquick.
      cbn in Hquick. injection Hquick as Hquick. rewrite <- Hquick in *.
      split; [reflexivity | exact Hquotes].
  - destruct (@checkAvailabilityAndPricing_shape
                (DomainPricingService.Estimated.quickAvailabilityCheck
                   axios_get_dns)
                DomainPricingService.Estimated.checkCloudflare
                DomainPricingService.Estimated.checkNamecheap
                DomainPricingService.Estimated.checkPorkbun
                DomainPricingService.Estimated.checkGoDaddy
                DomainPricingService.Estimated.checkNamecom
                Date_new domain)
      as (result & Hrun & _ & Hquick & Hquotes).
    + apply estimated_quick_returns.
    + eexists; split; reflexivity.
    + eexists; split; reflexivity.
    + eexists; split; reflexivity.
    + eexists; split; reflexivity.
    + eexists; split; reflexivity.
    + exists result. split; [exact Hrun|].
      unfold DomainPricingService.Estimated.quickAvailabilityCheck in Hquick.
      rewrite Hdns in Hquick. cbn in Hquick.
      injection Hquick as Hquick. rewrite <- Hquick in *.
      split; [reflexivity | exact Hquotes].
Qed.

(** X10 on a machine without network: both requests are refused. *)
Lemma availability_check_fails_open_offline :
  (exists result,
     DomainPricingService.Live.checkAvailabilityAndPricing
       (@Examples.refused _) (@Examples.refused _) (@Examples.nothing _)
       (@Examples.nothing _) (@Examples.nothing _) (@Examples.nothing _)
       (@Examples.nothing _) (@Examples.nothing _) Examples.noon
       "example.com" = Return result
     /\ isAvailable result = true
     /\ map provider (pricing result) = DomainPricingService.providers)
  /\ (exists result,
        DomainPricingService.Estimated.checkAvailabilityAndPricing
          (@Examples.refused _) Examples.noon "example.com" = Return result
        /\ isAvailable result = true
        /\ map provider (pricing result) = DomainPricingService.providers).
Proof.
  refine (@availability_check_fails_open (@Examples.refused _)
            (@Examples.refused _) (@Examples.nothing _) (@Examples.nothing _)
            (@Examples.nothing _) (@Examples.nothing _) (@Examples.nothing _)
            (@Examples.nothing _) Examples.noon "example.com" _ _ _ _);
    reflexivity.
Defined.

(* ================================================================== *)
(** * Threats on the console and in the CSV file *)
(* ================================================================== *)

Section ThreatsOfReport.

Lemma includes_absent_first (s rest : string) (c : ascii) :
  includes_char s c = false -> includes s (String c rest) = false.
Proof.
  intros Hc. destruct (includes s (String c rest)) eqn:E; [|reflexivity].
  apply includes_spec in E as (before & after & ->).
  rewrite includes_char_app in Hc. cbn [append] in Hc.
  rewrite includes_char_cons, Ascii.eqb_refl, orb_true_r in Hc.
  discriminate Hc.
Qed.

(** The finding on a certificate about to expire mentions neither of the
    texts that make a level HIGH, when the printed number holds neither an
    [N] nor an [I]. *)
Lemma expiry_finding (days : string) :
  includes_char days "N"%char = false ->
  includes_char days "I"%char = false ->
  let finding := "SSL expires in " ++ days ++ " days" in
  includes finding "Invalid SSL" = false
  /\ includes finding "No SSL" = false
  /\ includes finding "expires" = true.
Proof.
  intros HN HI finding. subst finding. split; [|split].
  - apply includes_absent_first. rewrite !includes_char_app, HI. reflexivity.
  - apply includes_absent_first. rewrite !includes_char_app, HN. reflexivity.
  - apply includes_spec. exists "SSL ", (" in " ++ days ++ " days").
    reflexivity.
Qed.

End ThreatsOfReport.


(** X12.  The threat level of a report in the CSV file is a function of
    its certificate alone: HIGH when there is none or it is marked invalid,
    otherwise MEDIUM when it expires in less than thirty days, and LOW
    otherwise; a recent registration never changes it.  This holds when the
    days until expiry print without the letters [N] and [I], as every
    finite number does. *)
Theorem threat_level_by_certificate
    (numberToString : number -> string) (Date_getTime : string -> number)
    (Date_now : number) (info : DomainInfo) :
  (forall certificate days,
     ssl info = Some certificate ->
     daysUntilExpiry certificate = Some days ->
     includes_char (numberToString days) "N"%char = false
     /\ includes_char (numberToString days) "I"%char = false) ->
  CSVExportService.getThreatLevel
    (CSVExportService.assessThreats numberToString Date_getTime Date_now info)
  = levelByCertificate info.
Proof.
  intros Hprint.
  unfold CSVExportService.assessThreats, CSVExportService.getThreatLevel,
    levelByCertificate, chain, push.
  destruct (ssl info) as [certificate|] eqn:Hssl.
  - destruct (daysUntilExpiry certificate) as [days|] eqn:Hdays.
    + destruct (Hprint certificate days eq_refl Hdays) as [HN HI].
      destruct (expiry_finding _ HN HI) as (Hinvalid & Hno & Hexpires).
      remember ("SSL expires in " ++ numberToString days ++ " days")
        as finding.
      destruct (num_lt days 30%float);
        destruct (isValid certificate) as [[|]|];
        (destruct (whois info) as [record|];
         [ destruct (registrationDate record) as [date|];
           [ destruct (nonempty date);
             [ match goal with
               | |- context [num_lt ?a ?b] => destruct (num_lt a b)
               end |] |] |]);
        cbn [app List.length Nat.eqb existsb];
        rewrite ?Hinvalid, ?Hno, ?Hexpires; reflexivity.
    + destruct (isValid certificate) as [[|]|];
        (destruct (whois info) as [record|];
         [ destruct (registrationDate record) as [date|];
           [ destruct (nonempty date);
             [ match goal with
               | |- context [num_lt ?a ?b] => destruct (num_lt a b)
               end |] |] |]);
        reflexivity.
  - destruct (whois info) as [record|];
      [ destruct (registrationDate record) as [date|];
        [ destruct (nonempty date);
          [ match goal with
            | |- context [num_lt ?a ?b] => destruct (num_lt a b)
            end |] |] |];
      reflexivity.
Qed.

(** X12 on a report whose certificate is marked invalid, on a domain
    registered the day before. *)
Lemma threat_level_by_certificate_invalid :
  CSVExportService.getThreatLevel
    (CSVExportService.assessThreats (fun _ => "200")
       ThreatRules.dayAfter_getTime ThreatRules.dayAfter_now
       ThreatRules.invalidAndRecent)
  = "HIGH".
Proof.
  refine (@threat_level_by_certificate (fun _ => "200")
            ThreatRules.dayAfter_getTime ThreatRules.dayAfter_now
            ThreatRules.invalidAndRecent _).
  intros certificate days _ _. split; reflexivity.
Defined.

(* ================================================================== *)
(** * The two exporters on the same quotes *)
(* ================================================================== *)

(** X13.  The CSV exporter and the pricing exporter agree on every set
    of quotes.  When the analysis of the pricing exporter is unavailable,
    the five price columns of the CSV row are blank; otherwise the columns
    name the providers and the prices of the analysis.  A price column is
    blank only in the first case. *)
Theorem price_columns_agree_with_analysis (toFixed2 : number -> string)
    (result : DomainAvailabilityResult) :
  let columns := CSVExportService.processPricingData toFixed2 (Some result) in
  let analysis := PricingExportService.analyzePricing (pricing result) in
  match PricingExportService.cheapestRegistration analysis,
        PricingExportService.cheapestRenewal analysis with
  | Some registration, Some renewal =>
      analysis <> PricingExportService.unavailable
      /\ CSVExportService.bestRegProvider columns
         = PricingExportService.cheapest_provider registration
      /\ CSVExportService.bestRenewalProvider columns
         = PricingExportService.cheapest_provider renewal
      /\ CSVExportService.cheapestRegistration columns
         = CSVExportService.dollars toFixed2
             (PricingExportService.price registration)
      /\ CSVExportService.cheapestRenewal columns
         = CSVExportService.dollars toFixed2
             (PricingExportService.price renewal)
      /\ CSVExportService.cheapestRegistration columns <> ""
      /\ CSVExportService.cheapestRenewal columns <> ""
  | None, None =>
      analysis = PricingExportService.unavailable
      /\ CSVExportService.cheapestRegistration columns = ""
      /\ CSVExportService.cheapestRenewal columns = ""
      /\ CSVExportService.bestRegProvider columns = ""
      /\ CSVExportService.bestRenewalProvider columns = ""
      /\ CSVExportService.allPricing columns = ""
  | _, _ => False
  end.
Proof.
  intros columns analysis. subst columns analysis.
  unfold CSVExportService.processPricingData,
    PricingExportService.analyzePricing.
  change (CSVExportService.validPricing (pricing result))
    with (PricingExportService.validPricing (pricing result)).
  change CSVExportService.cheapestReg with PricingExportService.cheapestReg.
  change CSVExportService.cheapestRen
    with PricingExportService.cheapestRenewal_of.
  destruct (PricingExportService.validPricing (pricing result))
    as [|first rest].
  - cbn. repeat split.
  - cbn -[fold_left]. repeat split; discriminate.
Qed.

(* ================================================================== *)
(** * A batch size of zero *)
(* ================================================================== *)

(** X14.  With a batch size of zero the loop over a non-empty list of
    domains never ends: the index does not advance, so no amount of steps
    brings [investigateMultiple] to its end. *)
Theorem investigateMultiple_zero_limit_never_ends (fuel : nat)
    (domains : list string) :
  domains <> [] -> DomainInspector.investigateMultiple fuel domains 0 = None.
Proof.
  intros Hne. unfold DomainInspector.investigateMultiple.
  induction fuel as [|fuel IH]; [reflexivity|].
  cbn [DomainInspector.investigateMultiple_from].
  destruct domains as [|domain rest]; [congruence|].
  cbn [List.length Nat.ltb Nat.leb Nat.add]. now rewrite IH.
Qed.

(** X14 on one domain and a hundred steps. *)
Lemma investigateMultiple_zero_limit_example :
  DomainInspector.investigateMultiple 100 ["example.com"] 0 = None.
Proof.
  apply investigateMultiple_zero_limit_never_ends. discriminate.
Defined.

(* ================================================================== *)
(** * The price range *)
(* ================================================================== *)

Section PriceRange.

Lemma SFltb_neither_eq (x y : spec_float) :
  sf_not_nan x = true -> sf_not_nan y = true ->
  SFeqb x (S754_zero false) = false -> SFeqb y (S754_zero false) = false ->
  SFltb x y = false -> SFltb y x = false -> x = y.
Proof.
  unfold SFltb, SFeqb, SFcompare.
  destruct x as [[]|[]| |[] mx ex], y as [[]|[]| |[] my ey];
    try discriminate; try reflexivity;
    rewrite ?Pos.compare_cont_spec; simpl; intros _ _ _ _;
    destruct (Z.compare_spec ex ey), (Z.compare_spec ey ex);
    try discriminate; try lia; subst;
    destruct (Pos.compare_spec mx my), (Pos.compare_spec my mx);
    simpl; try discriminate; try lia; subst; reflexivity.
Qed.

Lemma truthy_nonzero (v : number) :
  truthy v = true -> SFeqb (Prim2SF v) (S754_zero false) = false.
Proof.
  unfold truthy, is_zero. intros H.
  apply negb_true_iff, orb_false_iff in H as [H _].
  now rewrite FloatAxioms.eqb_spec in H.
Qed.

Lemma num_lt_neither_eq (x y : number) :
  truthy x = true -> truthy y = true ->
  num_lt x y = false -> num_lt y x = false -> x = y.
Proof.
  unfold num_lt. rewrite !ltb_spec. intros Hx Hy Hxy Hyx.
  apply Prim2SF_inj. apply SFltb_neither_eq; trivial.
  - now apply not_nan_Prim2SF, truthy_not_nan.
  - now apply not_nan_Prim2SF, truthy_not_nan.
  - now apply truthy_nonzero.
  - now apply truthy_nonzero.
Qed.

Lemma num_lt_asym (x y : number) : num_lt x y = true -> num_lt y x = false.
Proof.
  intros H. destruct (num_lt y x) eqn:E; [|reflexivity].
  pose proof (num_lt_trans H E) as Hxx.
  rewrite num_lt_irrefl in Hxx. discriminate Hxx.
Qed.

Lemma num_lt_infinity (x : number) : num_lt infinity x = false.
Proof.
  unfold num_lt. rewrite ltb_spec.
  change (Prim2SF infinity) with (S754_infinity false).
  unfold SFltb, SFcompare. now destruct (Prim2SF x) as [[]|[]| |[] m e].
Qed.

Lemma min2_cases (a b : number) :
  is_nan a = false -> is_nan b = false ->
  (min2 a b = a \/ min2 a b = b)
  /\ num_lt a (min2 a b) = false /\ num_lt b (min2 a b) = false.
Proof.
  intros Ha Hb. unfold min2. rewrite Ha, Hb. cbn [orb].
  fold (num_lt b a). fold (num_lt a b).
  destruct (num_lt b a) eqn:Eba.
  - split; [now right|]. split; [now apply num_lt_asym | apply num_lt_irrefl].
  - destruct (num_lt a b) eqn:Eab.
    + split; [now left|]. split; [apply num_lt_irrefl | exact Eba].
    + destruct (get_sign a).
      * split; [now left|]. split; [apply num_lt_irrefl | exact Eba].
      * split; [now right|]. split; [exact Eab | apply num_lt_irrefl].
Qed.

(** [Math.min] over numbers that are not [NaN]: one of them, or the
    starting value, and none of them is below it. *)
Lemma fold_min2 (xs : list number) (acc : number) :
  (forall x, In x xs -> is_nan x = false) -> is_nan acc = false ->
  (fold_left min2 xs acc = acc \/ In (fold_left min2 xs acc) xs)
  /\ num_lt acc (fold_left min2 xs acc) = false
  /\ (forall x, In x xs -> num_lt x (fold_left min2 xs acc) = false).
Proof.
  revert acc. induction xs as [|x xs IH]; intros acc Hxs Hacc.
  - cbn. split; [now left|]. split; [apply num_lt_irrefl | intros x []].
  - cbn [fold_left].
    assert (Hx : is_nan x = false) by (apply Hxs; now left).
    destruct (@min2_cases acc x Hacc Hx) as (Hmin & Hbelow_acc & Hbelow_x).
    assert (Hnan : is_nan (min2 acc x) = false)
      by (destruct Hmin as [-> | ->]; assumption).
    destruct (IH (min2 acc x)) as (Hin & Hbelow & Hall); trivial.
    { intros y Hy. apply Hxs. now right. }
    assert (Hr : is_nan (fold_left min2 xs (min2 acc x)) = false).
    { destruct Hin as [-> | Hin]; [exact Hnan|]. apply Hxs. now right. }
    assert (Hstep : forall y, num_lt y (min2 acc x) = false ->
              num_lt y (fold_left min2 xs (min2 acc x)) = false).
    { intros y Hy.
      destruct (num_lt y (fold_left min2 xs (min2 acc x))) eqn:E;
        [|reflexivity].
      pose proof (num_lt_below_not_above Hnan E Hbelow) as H.
      congruence. }
    split.
    + destruct Hin as [-> | Hin].
      * destruct Hmin as [-> | ->]; [now left | right; now left].
      * right. now right.
    + split; [now apply Hstep|].
      intros y [<- | Hy]; [now apply Hstep | now apply Hall].
Qed.

Lemma positivePrices_all (prices : list number) :
  (forall p, In p prices -> num_lt 0%float p = true) ->
  PricingExportService.positivePrices (map Some prices) = prices.
Proof.
  unfold PricingExportService.positivePrices.
  induction prices as [|p prices IH]; intros Hall; [reflexivity|].
  cbn [map flat_map]. rewrite (Hall p (or_introl eq_refl)). cbn [app].
  now rewrite IH by (intros q Hq; apply Hall; now right).
Qed.

End PriceRange.

(** X15.  When every compared quote has a positive registration price,
    the lower end of the registration price range that [analyzePricing]
    reports is the price of the quote it reports as the cheapest
    registration. *)
Theorem range_minimum_is_cheapest_price (pricing : list DomainPricing) :
  (forall q p, In q pricing -> registrationPrice q = Some p ->
               num_lt 0%float p = true) ->
  let analysis := PricingExportService.analyzePricing pricing in
  match PricingExportService.cheapestRegistration analysis,
        PricingExportService.priceRange analysis with
  | Some cheapest, Some range =>
      PricingExportService.price cheapest
      = Some (PricingExportService.min
                (PricingExportService.registration range))
  | None, None => True
  | _, _ => False
  end.
Proof.
  intros Hpositive analysis. subst analysis.
  unfold PricingExportService.analyzePricing.
  destruct (PricingExportService.validPricing pricing) as [|first rest] eqn:Hv;
    [exact I|].
  assert (Hne : (first :: rest) <> []) by discriminate.
  destruct (cheapestReg_first_minimum Hne) as (reg & Hreg & _ & Hmin).
  destruct (cheapestRenewal_first_minimum Hne) as (ren & Hren & _ & _).
  rewrite Hreg, Hren.
  cbn [PricingExportService.cheapestRegistration
       PricingExportService.priceRange PricingExportService.price
       PricingExportService.registration PricingExportService.range_of
       PricingExportService.min].
  assert (Hkey : forall q, In q (first :: rest) ->
            registrationPrice q = Some (regKey q)
            /\ truthy (regKey q) = true).
  { intros q Hq. apply (valid_regKey pricing). now rewrite Hv. }
  assert (Hprices : map registrationPrice (first :: rest)
                    = map Some (map regKey (first :: rest))).
  { rewrite map_map. apply map_ext_in. intros q Hq. now apply Hkey. }
  rewrite Hprices, positivePrices_all.
  2:{ intros p Hp. apply in_map_iff in Hp as (q & <- & Hq).
      destruct (Hkey q Hq) as [Hprice _].
      apply (Hpositive q); [|exact Hprice].
      assert (H : In q (PricingExportService.validPricing pricing))
        by (now rewrite Hv).
      now apply validPricing_In in H. }
  destruct Hmin as (before & after & Hsplit & Hbefore & Hafter).
  assert (Hbest : In reg (first :: rest))
    by (rewrite Hsplit; apply in_elt).
  destruct (Hkey reg Hbest) as [-> Htruthy]. f_equal.
  destruct (@fold_min2 (map regKey (first :: rest)) infinity)
    as (Hin & _ & Hall); [|reflexivity|].
  { intros x Hx. apply in_map_iff in Hx as (q & <- & Hq).
    now apply truthy_not_nan, Hkey. }
  fold (Math_min (map regKey (first :: rest))) in Hin, Hall.
  apply num_lt_neither_eq; trivial.
  - destruct Hin as [-> | Hin]; [reflexivity|].
    apply in_map_iff in Hin as (q & <- & Hq). now apply Hkey.
  - apply Hall. now apply in_map.
  - destruct Hin as [-> | Hin]; [apply num_lt_infinity|].
    apply in_map_iff in Hin as (q & <- & Hq).
    rewrite Hsplit in Hq. apply in_app_or in Hq as [Hq | [<- | Hq]].
    + now apply num_lt_asym, Hbefore.
    + apply num_lt_irrefl.
    + now apply Hafter.
Qed.

(** X15 on the estimated quotes for [example.com]: the range starts at
    Porkbun's 8.97. *)
Lemma range_minimum_is_cheapest_price_example :
  let analysis :=
    PricingExportService.analyzePricing Examples.estimatedComQuotes in
  match PricingExportService.cheapestRegistration analysis,
        PricingExportService.priceRange analysis with
  | Some cheapest, Some range =>
      PricingExportService.price cheapest
      = Some (PricingExportService.min
                (PricingExportService.registration range))
  | None, None => True
  | _, _ => False
  end.
Proof.
  apply range_minimum_is_cheapest_price.
  intros q p Hin Hprice.
  destruct Hin as [<- | [<- | [<- | [<- | [<- | []]]]]];
    injection Hprice as <-; reflexivity.
Defined.

(* ================================================================== *)
(** * The data source of an estimated quote *)
(* ================================================================== *)

(** X16.  On a result of the estimated-price service the pricing
    exporter never labels a quote [Fallback Estimate] or [API Error]: a
    quote without annotation is labelled [Live API] when it is Porkbun's
    and [Third-party API] when it is Cloudflare's, and every other quote
    [Estimate].  The summary counts every one of the quotes as live data and
    none as fallback data. *)
Theorem estimated_quotes_count_as_live_data (toFixed1 : number -> string)
    (axios_get_dns : string -> Completion (option DomainPricingService.DnsAnswer))
    (Date_new domain : string) (result : DomainAvailabilityResult) :
  DomainPricingService.Estimated.checkAvailabilityAndPricing
    axios_get_dns Date_new domain = Return result ->
  (forall q, In q (pricing result) ->
     PricingExportService.getDataSource q
     = match error q with
       | None =>
           if String.eqb (provider q) "Porkbun" then "Live API"
           else if String.eqb (provider q) "Cloudflare"
                then "Third-party API" else "Estimate"
       | Some _ => "Estimate"
       end)
  /\ let quality :=
       PricingExportService.dataQuality
         (PricingExportService.generateSummary toFixed1 [result]) in
     PricingExportService.fallbackData quality = 0
     /\ PricingExportService.liveData quality = List.length (pricing result).
Proof.
  intros Hrun.
  assert (Hnever : forall q, In q (pricing result) ->
            PricingExportService.error_includes q "fallback" = false
            /\ PricingExportService.error_includes q "API" = false).
  { intros q Hq.
    destruct (estimated_quote_shape _ _ _ _ Hrun Hq) as (_ & [He | He] & _);
      unfold PricingExportService.error_includes; rewrite He;
      split; reflexivity. }
  split.
  - intros q Hq. destruct (Hnever q Hq) as [Hf Ha].
    unfold PricingExportService.getDataSource. rewrite Hf, Ha.
    unfold PricingExportService.no_error.
    destruct (estimated_quote_shape _ _ _ _ Hrun Hq) as (_ & [He | He] & _);
      rewrite He; cbn [negb nonempty]; rewrite ?andb_true_r, ?andb_false_r;
      reflexivity.
  - cbn [PricingExportService.generateSummary PricingExportService.dataQuality
         PricingExportService.fallbackData PricingExportService.liveData
         flat_map].
    rewrite app_nil_r.
    assert (Hfallback :
              filter (fun p => PricingExportService.error_includes p "fallback")
                (pricing result) = []).
    { rewrite (filter_ext_in _ (fun _ => false) (pricing result)).
      - clear. induction (pricing result) as [|q l IH]; [reflexivity | exact IH].
      - intros q Hq. now apply Hnever. }
    assert (Hlive :
              filter (fun p =>
                        negb (PricingExportService.error_includes p "fallback"))
                (pricing result) = pricing result).
    { rewrite (filter_ext_in _ (fun _ => true) (pricing result)).
      - clear. induction (pricing result) as [|q l IH]; [reflexivity|].
        cbn. now rewrite IH.
      - intros q Hq. destruct (Hnever q Hq) as [-> _]. reflexivity. }
    now rewrite Hfallback, Hlive.
Qed.

(** X16 on the estimated quotes for [example.com]. *)
Lemma estimated_quotes_count_as_live_data_example :
  map PricingExportService.getDataSource Examples.estimatedComQuotes
  = ["Third-party API"; "Estimate"; "Live API"; "Estimate"; "Estimate"]
  /\ PricingExportService.fallbackData
       (PricingExportService.dataQuality
          (PricingExportService.generateSummary (fun _ => "100.0")
             [Examples.estimatedComResult])) = 0.
Proof.
  destruct (@estimated_quotes_count_as_live_data (fun _ => "100.0")
              Examples.nxdomain Examples.noon "example.com"
              Examples.estimatedComResult eq_refl) as [Hlabel [Hnone _]].
  split; [|exact Hnone].
  change Examples.estimatedComQuotes
    with (pricing Examples.estimatedComResult).
  rewrite (map_ext_in _ _ _ Hlabel). reflexivity.
Defined.

(* ================================================================== *)
(** * Live quotes on the console *)
(* ================================================================== *)

Section ConsoleQuotes.

Lemma filter_complement_length (A : Type) (f g : A -> bool) (xs : list A) :
  (forall x, In x xs -> g x = negb (f x)) ->
  List.length (filter f xs) + List.length (filter g xs) = List.length xs.
Proof.
  induction xs as [|x xs IH]; intros Hfg; [reflexivity|].
  cbn [filter]. rewrite (Hfg x (or_introl eq_refl)).
  assert (H : List.length (filter f xs) + List.length (filter g xs)
              = List.length xs)
    by (apply IH; intros y Hy; apply Hfg; now right).
  destruct (f x); cbn [negb List.length]; lia.
Qed.

(** An answered quote is in the price table or, when annotated, in the list
    of errors; a failed quote is in the list of errors. *)
Lemma live_quote_on_console (q : DomainPricing) :
  answeredQuote q \/ failedLiveQuote q ->
  negb (PricingExportService.no_error q)
  = negb (available q && PricingExportService.no_error q)
  /\ (provider q = "Namecheap" -> PricingExportService.no_error q = false).
Proof.
  unfold PricingExportService.no_error.
  intros [(Ha & Hnamecheap & _) | (Ha & _ & _ & reason & He)].
  - rewrite Ha. split; [reflexivity|].
    intros Hp. now rewrite (Hnamecheap Hp).
  - rewrite Ha, He. split; reflexivity.
Qed.

End ConsoleQuotes.

(** X17.  Of the quotes of the live-price service the console report
    shows each one once: in the price table, or in the list of the providers
    that could not be checked.  Namecheap's quote is never in the price
    table, priced or not. *)
Theorem console_lists_each_live_quote_once
    (axios_post_porkbun : string -> Completion (option DomainPricingService.Live.PorkbunCheck))
    (axios_get_dns : string -> Completion (option DomainPricingService.DnsAnswer))
    (getCloudflareLivePricing : option string -> Completion (option DomainPricingService.Live.LivePricing))
    (scrapeNamecheapPricing : string -> Completion (option DomainPricingService.Live.LivePricing))
    (getPorkbunLivePricing : option string -> Completion (option DomainPricingService.Live.LivePricing))
    (scrapeGoDaddyPricing : string -> Completion (option DomainPricingService.Live.LivePricing))
    (getNamecomLivePricing : string -> Completion (option DomainPricingService.Live.LivePricing))
    (scrapeNamecomPricing : string -> Completion (option DomainPricingService.Live.LivePricing))
    (Date_new domain : string) (result : DomainAvailabilityResult) :
  DomainPricingService.Live.checkAvailabilityAndPricing axios_post_porkbun
    axios_get_dns getCloudflareLivePricing scrapeNamecheapPricing
    getPorkbunLivePricing scrapeGoDaddyPricing getNamecomLivePricing
    scrapeNamecomPricing Date_new domain = Return result ->
  List.length (DomainInspector.validPricing (pricing result))
  + List.length (DomainInspector.errorPricing (pricing result))
  = List.length (pricing result)
  /\ (forall q, In q (pricing result) -> provider q = "Namecheap" ->
       In q (DomainInspector.errorPricing (pricing result))
       /\ ~ In q (DomainInspector.validPricing (pricing result))).
Proof.
  intros Hrun.
  assert (Hshape : forall q, In q (pricing result) ->
            answeredQuote q \/ failedLiveQuote q).
  { intros q. revert Hrun.
    unfold DomainPricingService.Live.checkAvailabilityAndPricing.
    apply (@checkAvailabilityAndPricing_quotes _ _ _ _ _ _ _ _
             (fun q => answeredQuote q \/ failedLiveQuote q)).
    - apply live_checkCloudflare_shape.
    - apply live_checkNamecheap_shape.
    - apply live_checkPorkbun_shape.
    - apply live_checkGoDaddy_shape.
    - apply live_checkNamecom_shape. }
  split.
  - apply filter_complement_length. intros q Hq.
    now apply live_quote_on_console, Hshape.
  - intros q Hq Hp.
    destruct (live_quote_on_console (Hshape q Hq)) as [_ Herror].
    specialize (Herror Hp).
    unfold DomainInspector.errorPricing, DomainInspector.validPricing.
    rewrite !filter_In, Herror. split; [now split|].
    intros [_ H]. rewrite andb_false_r in H. discriminate H.
Qed.

(** X17 on the example run, where Namecheap's page is scraped: its quote
    is priced and listed as not checked. *)
Lemma console_lists_each_live_quote_once_scraped :
  In Examples.namecheapScraped
    (DomainInspector.errorPricing Examples.scrapedQuotes)
  /\ ~ In Examples.namecheapScraped
         (DomainInspector.validPricing Examples.scrapedQuotes).
Proof.
  refine (proj2
    (@console_lists_each_live_quote_once (@Examples.refused _)
       Examples.nxdomain (@Examples.nothing _) Examples.namecheapPage
       Examples.porkbunList (@Examples.nothing _) (@Examples.nothing _)
       (@Examples.nothing _) Examples.noon "example.com"
       {| result_domain := "example.com"; isAvailable := true;
          pricing := Examples.scrapedQuotes;
          checkedAt := Examples.noon |} _)
    Examples.namecheapScraped _ _).
  - reflexivity.
  - right; left; reflexivity.
  - reflexivity.
Defined.
